(** * superwhisper-archiver: a shallow embedding and its properties

    The development follows the layout of the Python package [archiver]:
    [models.py], [markdown_formatter.py], [scanner.py], [state_tracker.py],
    [git_manager.py] and [main.py] each become a module below.  Text is
    modelled as byte strings (the UTF-8 encoding of the Python [str]),
    integers as [Z], the SQLite table keyed by [source_dir] as a [gmap],
    and effects (exceptions, the wall clock, the state database, git) by a
    state-and-exception monad over an explicit world. *)

From Stdlib Require Import ZArith QArith Qround Qabs Ascii DecimalString.
From Stdlib Require String Decimal DecimalFacts DecimalPos.
From Stdlib Require Import Sorting.Sorted Sorting.Permutation.
From stdpp Require Import base option list gmap strings.

Local Open Scope Z_scope.

(* ===================================================================== *)
(** * Python built-ins used by the package *)
(* ===================================================================== *)

Module Py.

(** The one-character strings that string literals cannot spell. *)
Definition nl : string := String (ascii_of_nat 10) EmptyString.
Definition dq : string := String (ascii_of_nat 34) EmptyString.
(** U+2014 EM DASH and U+2192 RIGHTWARDS ARROW, as UTF-8. *)
Definition em_dash : string :=
  String (ascii_of_nat 226) (String (ascii_of_nat 128)
    (String (ascii_of_nat 148) EmptyString)).
Definition arrow : string :=
  String (ascii_of_nat 226) (String (ascii_of_nat 134)
    (String (ascii_of_nat 146) EmptyString)).

(** [str(n)] and [f"{n}"] for an [int]. *)
Definition str (n : Z) : string := NilZero.string_of_int (Z.to_int n).

(** Truthiness of a [str] and of an [Optional[str]]. *)
Definition truthy (s : string) : bool :=
  match s with EmptyString => false | String _ _ => true end.
Definition truthy_opt (o : option string) : bool :=
  match o with Some s => truthy s | None => false end.

Fixpoint repeat_char (c : ascii) (n : nat) : string :=
  match n with O => EmptyString | S k => String c (repeat_char c k) end.

(** [s.rjust(w, "0")]: what the [0w] format flag does to an unsigned
    rendering. *)
Definition zfill (w : nat) (s : string) : string :=
  repeat_char "0"%char (w - String.length s) +:+ s.

(** [f"{n:0wd}"]: zero padding that keeps a minus sign in front. *)
Definition format_0d (w : nat) (n : Z) : string :=
  if n <? 0 then "-" +:+ zfill (w - 1) (str (- n)) else zfill w (str n).

(** [str.lower] on ASCII letters; other bytes are kept. *)
Definition lower_char (c : ascii) : ascii :=
  let n := nat_of_ascii c in
  if ((65 <=? n) && (n <=? 90))%nat then ascii_of_nat (n + 32) else c.
Fixpoint lower (s : string) : string :=
  match s with
  | EmptyString => EmptyString
  | String c r => String (lower_char c) (lower r)
  end.

(** [str.isspace] on one ASCII character: tab, line feed, vertical tab,
    form feed, carriage return, the four separators 28..31 and space. *)
Definition is_space (c : ascii) : bool :=
  let n := nat_of_ascii c in
  (((9 <=? n) && (n <=? 13)) || ((28 <=? n) && (n <=? 32)))%nat.

Fixpoint lstrip (s : string) : string :=
  match s with
  | EmptyString => EmptyString
  | String c r => if is_space c then lstrip r else s
  end.
(** [rstrip] drops a character when it is white space and everything
    after it has been dropped. *)
Fixpoint rstrip (s : string) : string :=
  match s with
  | EmptyString => EmptyString
  | String c r =>
      match rstrip r with
      | EmptyString => if is_space c then EmptyString else String c EmptyString
      | r' => String c r'
      end
  end.
(** [s.strip()] *)
Definition strip (s : string) : string := rstrip (lstrip s).

(** [sep.join(parts)] *)
Fixpoint join (sep : string) (parts : list string) : string :=
  match parts with
  | [] => EmptyString
  | [p] => p
  | p :: rest => p +:+ sep +:+ join sep rest
  end.

(** [s.split(",")]: the fields between the commas, at least one. *)
Fixpoint split_comma_aux (cur : string) (s : string) : list string :=
  match s with
  | EmptyString => [String.rev cur]
  | String c r =>
      if Ascii.eqb c ","%char then String.rev cur :: split_comma_aux EmptyString r
      else split_comma_aux (String c cur) r
  end.
Definition split_comma (s : string) : list string :=
  split_comma_aux EmptyString s.

(** [x in xs] for strings. *)
Definition str_in (x : string) (xs : list string) : bool :=
  existsb (String.eqb x) xs.


End Py.

(* ===================================================================== *)
(** * The [datetime] values the package handles *)
(* ===================================================================== *)

(** A naive [datetime.datetime].  [fromisoformat] follows the grammar
    [YYYY-MM-DD[*HH[:MM[:SS[.fff[fff]]]]]] (any single character for [*]),
    which contains everything [isoformat] prints for a naive value; a text
    outside this grammar, among them one that carries a UTC offset, is
    rejected by the model. *)
Module Datetime.

Record datetime : Type := mk {
  year : Z; month : Z; day : Z;
  hour : Z; minute : Z; second : Z; microsecond : Z
}.

Definition is_leap (y : Z) : bool :=
  (y mod 4 =? 0) && (negb (y mod 100 =? 0) || (y mod 400 =? 0)).

Definition days_in_month (y m : Z) : Z :=
  if m =? 2 then (if is_leap y then 29 else 28)
  else if (m =? 4) || (m =? 6) || (m =? 9) || (m =? 11) then 30
  else 31.

(** The range checks of the [datetime] constructor. *)
Definition valid (dt : datetime) : bool :=
  (1 <=? year dt) && (year dt <=? 9999) &&
  (1 <=? month dt) && (month dt <=? 12) &&
  (1 <=? day dt) && (day dt <=? days_in_month (year dt) (month dt)) &&
  (0 <=? hour dt) && (hour dt <=? 23) &&
  (0 <=? minute dt) && (minute dt <=? 59) &&
  (0 <=? second dt) && (second dt <=? 59) &&
  (0 <=? microsecond dt) && (microsecond dt <=? 999999).

Definition digit (c : ascii) : option Z :=
  let n := nat_of_ascii c in
  if ((48 <=? n) && (n <=? 57))%nat then Some (Z.of_nat n - 48) else None.

Fixpoint number_from (acc : Z) (s : string) : option Z :=
  match s with
  | EmptyString => Some acc
  | String c r =>
      match digit c with
      | Some d => number_from (10 * acc + d) r
      | None => None
      end
  end.

(** A non-empty run of decimal digits. *)
Definition number (s : string) : option Z :=
  match s with
  | EmptyString => None
  | String _ _ => number_from 0 s
  end.

Definition is_char (c : ascii) (i : nat) (s : string) : bool :=
  match String.get i s with
  | Some c' => Ascii.eqb c c'
  | None => false
  end.

Definition parse_isoformat_date (s : string) : option (Z * Z * Z) :=
  if (String.length s =? 10)%nat && is_char "-" 4 s && is_char "-" 7 s then
    y ← number (String.substring 0 4 s);
    m ← number (String.substring 5 2 s);
    d ← number (String.substring 8 2 s);
    Some (y, m, d)
  else None.

Definition parse_isoformat_time (s : string) : option (Z * Z * Z * Z) :=
  let field i := number (String.substring i 2 s) in
  let colon i := is_char ":" i s in
  match String.length s with
  | 2%nat => h ← field 0%nat; Some (h, 0, 0, 0)
  | 5%nat =>
      if colon 2%nat then
        h ← field 0%nat; m ← field 3%nat; Some (h, m, 0, 0)
      else None
  | 8%nat =>
      if colon 2%nat && colon 5%nat then
        h ← field 0%nat; m ← field 3%nat; sec ← field 6%nat;
        Some (h, m, sec, 0)
      else None
  | 12%nat =>
      if colon 2%nat && colon 5%nat && is_char "." 8 s then
        h ← field 0%nat; m ← field 3%nat; sec ← field 6%nat;
        f ← number (String.substring 9 3 s);
        Some (h, m, sec, 1000 * f)
      else None
  | 15%nat =>
      if colon 2%nat && colon 5%nat && is_char "." 8 s then
        h ← field 0%nat; m ← field 3%nat; sec ← field 6%nat;
        f ← number (String.substring 9 6 s);
        Some (h, m, sec, f)
      else None
  | _ => None
  end.

(** [datetime.fromisoformat(s)]; [None] stands for the [ValueError]. *)
Definition fromisoformat (s : string) : option datetime :=
  '(y, m, d) ← parse_isoformat_date (String.substring 0 10 s);
  '(h, mi, sec, us) ←
    (if (String.length s =? 10)%nat then Some (0, 0, 0, 0)
     else parse_isoformat_time
            (String.substring 11 (String.length s - 11) s));
  let dt := mk y m d h mi sec us in
  if valid dt then Some dt else None.

(** Naive values compare field by field, most significant first. *)
Definition fields (dt : datetime) : list Z :=
  [year dt; month dt; day dt; hour dt; minute dt; second dt; microsecond dt].

Fixpoint lex_compare (a b : list Z) : comparison :=
  match a, b with
  | [], [] => Eq
  | [], _ :: _ => Lt
  | _ :: _, [] => Gt
  | x :: a', y :: b' =>
      match x ?= y with
      | Eq => lex_compare a' b'
      | c => c
      end
  end.

Definition compare (a b : datetime) : comparison :=
  lex_compare (fields a) (fields b).

(** [a >= b] *)
Definition geb (a b : datetime) : bool :=
  match compare a b with Lt => false | _ => true end.

(** One [strftime] directive: the six the package uses. *)
Definition directive (dt : datetime) (c : ascii) : string :=
  if Ascii.eqb c "Y" then Py.zfill 4 (Py.str (year dt))
  else if Ascii.eqb c "m" then Py.zfill 2 (Py.str (month dt))
  else if Ascii.eqb c "d" then Py.zfill 2 (Py.str (day dt))
  else if Ascii.eqb c "H" then Py.zfill 2 (Py.str (hour dt))
  else if Ascii.eqb c "M" then Py.zfill 2 (Py.str (minute dt))
  else if Ascii.eqb c "S" then Py.zfill 2 (Py.str (second dt))
  else String "%" (String c EmptyString).

(** [dt.strftime(fmt)] *)
Fixpoint strftime (dt : datetime) (fmt : string) : string :=
  match fmt with
  | EmptyString => EmptyString
  | String "%" (String c rest) => directive dt c +:+ strftime dt rest
  | String c rest => String c (strftime dt rest)
  end.

(** [dt.isoformat()]: the fraction is printed only when it is not zero. *)
Definition isoformat (dt : datetime) : string :=
  strftime dt "%Y-%m-%dT%H:%M:%S" +:+
  (if microsecond dt =? 0 then EmptyString
   else "." +:+ Py.zfill 6 (Py.str (microsecond dt))).


End Datetime.

(* ===================================================================== *)
(** * Exceptions and effects *)
(* ===================================================================== *)

(** The exceptions the modelled code raises: the [ValueError] of
    [datetime.fromisoformat] and of the [GitManager] constructor, and the
    plain [Exception] of [archive_recording]. *)
Inductive exn : Type :=
| ValueError (msg : string)
| Exception (msg : string).

(** [str(e)] *)
Definition exn_str (e : exn) : string :=
  match e with ValueError m => m | Exception m => m end.

(** What a call does: it returns a value or raises. *)
Inductive outcome (A : Type) : Type :=
| Ok (a : A)
| Raise (e : exn).
Arguments Ok {A} a.
Arguments Raise {A} e.

(** A computation over a state [S]; the state it leaves is kept whether it
    returns or raises. *)
Definition M (S A : Type) : Type := S -> outcome A * S.

Definition ret {S A} (a : A) : M S A := fun s => (Ok a, s).
Definition raise {S A} (e : exn) : M S A := fun s => (Raise e, s).
Definition lift {S A} (o : outcome A) : M S A := fun s => (o, s).
Definition bind {S A B} (m : M S A) (k : A -> M S B) : M S B :=
  fun s => match m s with
           | (Ok a, s') => k a s'
           | (Raise e, s') => (Raise e, s')
           end.
(** [try: m except Exception as e: h e] *)
Definition try_except {S A} (m : M S A) (h : exn -> M S A) : M S A :=
  fun s => match m s with
           | (Ok a, s') => (Ok a, s')
           | (Raise e, s') => h e s'
           end.
Definition get {S} : M S S := fun s => (Ok s, s).
Definition modify {S} (f : S -> S) : M S unit := fun s => (Ok tt, f s).

Declare Scope eff_scope.
Delimit Scope eff_scope with eff.
Notation "x <- m ;; k" := (bind m (fun x => k))
  (at level 100, m at next level, right associativity) : eff_scope.
Notation "m ;; k" := (bind m (fun _ => k))
  (at level 100, right associativity) : eff_scope.

(** [datetime.fromisoformat] as the code calls it. *)
Definition fromisoformat_exn (s : string) : outcome Datetime.datetime :=
  match Datetime.fromisoformat s with
  | Some dt => Ok dt
  | None => Raise (ValueError ("Invalid isoformat string: '" +:+ s +:+ "'"))
  end.

(** The wall clock: [readings k] is what the [k]-th call of
    [datetime.now()] returns, [ticks] how many calls were made. *)
Record Clock : Type := mkClock {
  readings : nat -> Datetime.datetime;
  ticks : nat
}.

Definition Clock_now : M Clock Datetime.datetime :=
  fun c => (Ok (readings c (ticks c)), mkClock (readings c) (S (ticks c))).

(* ===================================================================== *)
(** * models.py *)
(* ===================================================================== *)

Module Segment.
(** [start] and [end] are floats; each is modelled by the rational it
    denotes. *)
Record t : Type := mk { text : string; start : Q; end_ : Q }.
End Segment.

Module Recording.
Record t : Type := mk {
  source_dir : string;
  datetime : string;
  result : string;
  rawResult : string;
  duration : Z;
  segments : list Segment.t;
  modeName : string;
  modelName : string;
  languageSelected : string;
  systemAudioEnabled : bool;
  appVersion : string;
  languageModelName : option string;
  llmResult : option string
}.
End Recording.

Module ArchiverConfig.
(** The nested configuration classes, flattened. *)
Record t : Type := mk {
  recordings_path : string;
  repo_path : string;
  remote_name : string;
  default_branch : string;
  filters_modes : list string;
  filters_min_duration_ms : Z
}.
End ArchiverConfig.

Module ArchiveResult.
Record t : Type := mk {
  success : bool;
  source_dir : string;
  error : option string;
  file_path : option string;
  commit_sha : option string
}.
End ArchiveResult.

Module ArchiveSummary.
Record t : Type := mk {
  total_recordings : Z;
  archived_count : Z;
  failed_count : Z;
  skipped_count : Z;
  results : list ArchiveResult.t
}.
End ArchiveSummary.

(* ===================================================================== *)
(** * markdown_formatter.py *)
(* ===================================================================== *)

Module MarkdownFormatter.
Import Py.
Local Open Scope eff_scope.

Definition _format_duration (duration_ms : Z) : string :=
  let total_seconds := duration_ms / 1000 in
  let hours := total_seconds / 3600 in
  let minutes := (total_seconds mod 3600) / 60 in
  let seconds := total_seconds mod 60 in
  if hours >? 0 then
    str hours +:+ "h " +:+ str minutes +:+ "m " +:+ str seconds +:+ "s"
  else if minutes >? 0 then
    str minutes +:+ "m " +:+ str seconds +:+ "s"
  else
    str seconds +:+ "s".

(** [int(x)]: truncation towards zero. *)
Definition int_of_float (x : Q) : Z := Z.quot (Qnum x) (Z.pos (Qden x)).

(** Rounding to the nearest integer, ties to even. *)
Definition round_half_even (x : Q) : Z :=
  let n := Qnum x in
  let d := Z.pos (Qden x) in
  let f := n / d in
  let r := n mod d in
  if 2 * r <? d then f
  else if d <? 2 * r then f + 1
  else if Z.even f then f else f + 1.

(** [f"{x:04.1f}"]: one decimal, width four, zeros after the sign. *)
Definition format_041f (x : Q) : string :=
  let tenths := round_half_even (Qmult (Qabs x) (inject_Z 10)) in
  let digits := str (tenths / 10) +:+ "." +:+ str (tenths mod 10) in
  if Qnum x <? 0 then "-" +:+ zfill 3 digits else zfill 4 digits.

Definition _format_timestamp (seconds : Q) : string :=
  let mins := int_of_float seconds / 60 in
  let secs := Qminus seconds (inject_Z (mins * 60)) in
  format_0d 2 mins +:+ ":" +:+ format_041f secs.

Definition _build_frontmatter (rec : Recording.t) : M Clock string :=
  let parts :=
    [ "---";
      "datetime: " +:+ dq +:+ Recording.datetime rec +:+ dq;
      "mode: " +:+ Recording.modeName rec;
      "duration_ms: " +:+ str (Recording.duration rec);
      "model: " +:+ dq +:+ Recording.modelName rec +:+ dq ] in
  let parts :=
    match Recording.languageModelName rec with
    | Some lm =>
        if truthy lm then
          parts ++ ["language_model: " +:+ dq +:+ lm +:+ dq]
        else parts
    | None => parts
    end in
  now <- Clock_now ;;
  let parts := parts ++
    [ "language: " +:+ Recording.languageSelected rec;
      "system_audio: " +:+
        (if Recording.systemAudioEnabled rec then "true" else "false");
      "app_version: " +:+ dq +:+ Recording.appVersion rec +:+ dq;
      "source_dir: " +:+ dq +:+ Recording.source_dir rec +:+ dq;
      "archived_at: " +:+ dq +:+ Datetime.isoformat now +:+ dq;
      "---" ] in
  ret (join nl parts +:+ nl).

(** The text of the transcription section: the cleaned result when it is
    not empty, the raw text otherwise, stripped. *)
Definition transcription (rec : Recording.t) : string :=
  if truthy (Recording.result rec) then strip (Recording.result rec)
  else strip (Recording.rawResult rec).

Definition transcription_part (rec : Recording.t) : list string :=
  let transcription := transcription rec in
  if truthy transcription then
    ["## Transcription" +:+ nl +:+ nl +:+ transcription +:+ nl]
  else [].

Definition summary_part (rec : Recording.t) : list string :=
  match Recording.llmResult rec with
  | Some llm =>
      if truthy llm then ["## Summary" +:+ nl +:+ nl +:+ llm +:+ nl] else []
  | None => []
  end.

Definition segment_line (seg : Segment.t) : string :=
  let start := _format_timestamp (Segment.start seg) in
  let end_ := _format_timestamp (Segment.end_ seg) in
  "- [" +:+ start +:+ " " +:+ arrow +:+ " " +:+ end_ +:+ "] " +:+
  Segment.text seg.

Definition segments_part (rec : Recording.t) : list string :=
  match Recording.segments rec with
  | [] => []
  | segs =>
      ["## Segments" +:+ nl +:+ nl +:+ join nl (map segment_line segs) +:+ nl]
  end.

Definition title_part (dt : Datetime.datetime) : string :=
  nl +:+ "# Recording " +:+ em_dash +:+ " " +:+
  Datetime.strftime dt "%Y-%m-%d %H:%M" +:+ nl.

Definition mode_part (rec : Recording.t) : string :=
  "**Mode**: " +:+ Recording.modeName rec +:+ " | **Duration**: " +:+
  _format_duration (Recording.duration rec) +:+ nl.

Definition footer_part (now : Datetime.datetime) : string :=
  nl +:+ "---" +:+ nl +:+ "*Archived: " +:+
  Datetime.strftime now "%Y-%m-%d" +:+ "*" +:+ nl.

(** The list [parts] of [_build_body] once every [append] has run. *)
Definition body_parts (rec : Recording.t) (dt now : Datetime.datetime)
  : list string :=
  [title_part dt; mode_part rec] ++ transcription_part rec ++
  summary_part rec ++ segments_part rec ++ [footer_part now].

Definition _build_body (rec : Recording.t) : M Clock string :=
  dt <- lift (fromisoformat_exn (Recording.datetime rec)) ;;
  now <- Clock_now ;;
  ret (join nl (body_parts rec dt now)).

Definition format_recording (recording : Recording.t) : M Clock string :=
  frontmatter <- _build_frontmatter recording ;;
  body <- _build_body recording ;;
  ret (frontmatter +:+ body).

Definition compute_file_path (recording : Recording.t) : outcome string :=
  match fromisoformat_exn (Recording.datetime recording) with
  | Ok dt =>
      let year := Datetime.strftime dt "%Y" in
      let month := Datetime.strftime dt "%m" in
      let filename := Datetime.strftime dt "%Y-%m-%d-%H-%M-%S" +:+ ".md" in
      Ok (year +:+ "/" +:+ month +:+ "/" +:+ filename)
  | Raise e => Raise e
  end.

End MarkdownFormatter.

(* ===================================================================== *)
(** * scanner.py *)
(* ===================================================================== *)

Module Meta.
(** The keys [Recording] reads from a [meta.json]; [source_dir] comes from
    the directory name. *)
Record t : Type := mk {
  datetime : string;
  result : string;
  rawResult : string;
  duration : Z;
  segments : list Segment.t;
  modeName : string;
  modelName : string;
  languageSelected : string;
  systemAudioEnabled : bool;
  appVersion : string;
  languageModelName : option string;
  llmResult : option string
}.
End Meta.

Module Scanner.

(** What [meta_path] holds: nothing, a text that [json.loads] or the
    validation of [Recording] rejects, or the fields of a recording. *)
Inductive meta_json : Type :=
| Missing
| Malformed
| Valid (meta : Meta.t).

(** One entry of [recordings_path.iterdir()]. *)
Inductive entry : Type :=
| File (name : string)
| Dir (name : string) (meta : meta_json).

(** [Recording(source_dir=entry.name, **meta)] *)
Definition Recording_of (name : string) (m : Meta.t) : Recording.t :=
  Recording.mk name (Meta.datetime m) (Meta.result m) (Meta.rawResult m)
    (Meta.duration m) (Meta.segments m) (Meta.modeName m)
    (Meta.modelName m) (Meta.languageSelected m)
    (Meta.systemAudioEnabled m) (Meta.appVersion m)
    (Meta.languageModelName m) (Meta.llmResult m).

(** The loop over [iterdir()]: the recordings appended, in the order the
    entries are met. *)
Fixpoint parse_entries (entries : list entry) : list Recording.t :=
  match entries with
  | [] => []
  | File _ :: rest => parse_entries rest
  | Dir _ Missing :: rest => parse_entries rest
  | Dir _ Malformed :: rest => parse_entries rest
  | Dir name (Valid m) :: rest => Recording_of name m :: parse_entries rest
  end.

Definition mode_matches (modes_lower : list string) (r : Recording.t) : bool :=
  Py.str_in (Py.lower (Recording.modeName r)) modes_lower.

Definition filter_modes (modes : option (list string))
    (recordings : list Recording.t) : list Recording.t :=
  match modes with
  | Some [] => recordings
  | Some ms =>
      let modes_lower := map Py.lower ms in
      List.filter (mode_matches modes_lower) recordings
  | None => recordings
  end.

Definition filter_duration (min_duration_ms : Z)
    (recordings : list Recording.t) : list Recording.t :=
  if min_duration_ms >? 0 then
    List.filter (fun r => Recording.duration r >=? min_duration_ms) recordings
  else recordings.

(** The comprehension of the since filter: it parses the timestamp of
    each recording in turn and stops at the first that does not parse. *)
Fixpoint filter_since (since_dt : Datetime.datetime)
    (recordings : list Recording.t) : outcome (list Recording.t) :=
  match recordings with
  | [] => Ok []
  | r :: rest =>
      match fromisoformat_exn (Recording.datetime r) with
      | Raise e => Raise e
      | Ok dt =>
          match filter_since since_dt rest with
          | Raise e => Raise e
          | Ok kept => Ok (if Datetime.geb dt since_dt then r :: kept else kept)
          end
      end
  end.

(** [recordings.sort(key=lambda r: r.datetime)]: a stable sort on the
    timestamp text. *)
Fixpoint insert_by_datetime (r : Recording.t) (l : list Recording.t)
  : list Recording.t :=
  match l with
  | [] => [r]
  | x :: l' =>
      if String.leb (Recording.datetime r) (Recording.datetime x)
      then r :: l
      else x :: insert_by_datetime r l'
  end.
Definition sort_by_datetime (l : list Recording.t) : list Recording.t :=
  foldr insert_by_datetime [] l.

(** [Scanner(recordings_path).scan(modes, min_duration_ms, since)], where
    [root] is what the file system holds at [recordings_path]: [None]
    when the path does not exist. *)
Definition scan (root : option (list entry)) (modes : option (list string))
    (min_duration_ms : Z) (since : option string)
  : outcome (list Recording.t) :=
  match root with
  | None => Ok []
  | Some entries =>
      let recordings := parse_entries entries in
      let recordings := filter_modes modes recordings in
      let recordings := filter_duration min_duration_ms recordings in
      let filtered :=
        if Py.truthy_opt since then
          match fromisoformat_exn (default EmptyString since) with
          | Raise e => Raise e
          | Ok since_dt => filter_since since_dt recordings
          end
        else Ok recordings in
      match filtered with
      | Raise e => Raise e
      | Ok recordings => Ok (sort_by_datetime recordings)
      end
  end.

End Scanner.

(* ===================================================================== *)
(** * The world a run acts on *)
(* ===================================================================== *)

Module ArchiveRecord.
(** A row of [archived_recordings]; the key [source_dir] is the key of
    the map that holds the rows. *)
Record t : Type := mk {
  datetime : string;
  mode : string;
  duration_ms : Z;
  file_path : string;
  commit_sha : option string;
  archived_at : string
}.
End ArchiveRecord.

Module RunRecord.
(** A row of [archive_runs]. *)
Record t : Type := mk {
  run_at : string;
  recordings_processed : Z;
  recordings_archived : Z;
  recordings_failed : Z
}.
End RunRecord.

(** The SQLite database: a table keyed by [source_dir] and the rows of
    [archive_runs] in the order they were inserted. *)
Record Store : Type := mkStore {
  archived_recordings : gmap string ArchiveRecord.t;
  archive_runs : list RunRecord.t
}.

Definition empty_store : Store := mkStore ∅ [].

(** What is found at [repo_path]. *)
Inductive repo_state : Type :=
| NoSuchPath
| NotARepository
| Repository.

(** What a call of the remote does: it succeeds, raises the
    [GitCommandError] the manager catches, or raises something else. *)
Inductive remote_outcome : Type :=
| RemoteOk
| RemoteGitCommandError
| RemoteOtherError (e : exn).

(** Every change a run makes outside its own memory, in the order made. *)
Inductive Event : Type :=
| EvStoreCreated
| EvPull (ok : bool)
| EvWriteCommit (file_path content commit_message : string)
                (commit_sha : option string)
| EvMarkArchived (source_dir : string) (row : ArchiveRecord.t)
| EvPush (ok : bool)
| EvRunRecorded (row : RunRecord.t).

(** [state_db] is the database file ([None]: no file yet).  The
    environment decides what git does: [commit_outcomes] lists what the
    successive calls of [write_and_commit] return (a call beyond the list
    fails), [pull_outcome] and [push_outcome] what the remote does. *)
Record World : Type := mkWorld {
  recordings_dir : option (list Scanner.entry);
  state_db : option Store;
  repo : repo_state;
  commit_outcomes : list (option string);
  pull_outcome : remote_outcome;
  push_outcome : remote_outcome;
  trace : list Event;
  clock : Clock
}.

Definition set_state_db (db : option Store) (w : World) : World :=
  mkWorld (recordings_dir w) db (repo w) (commit_outcomes w)
    (pull_outcome w) (push_outcome w) (trace w) (clock w).
Definition set_commit_outcomes (l : list (option string)) (w : World) : World :=
  mkWorld (recordings_dir w) (state_db w) (repo w) l
    (pull_outcome w) (push_outcome w) (trace w) (clock w).
Definition set_clock (c : Clock) (w : World) : World :=
  mkWorld (recordings_dir w) (state_db w) (repo w) (commit_outcomes w)
    (pull_outcome w) (push_outcome w) (trace w) c.
Definition log_event (e : Event) (w : World) : World :=
  mkWorld (recordings_dir w) (state_db w) (repo w) (commit_outcomes w)
    (pull_outcome w) (push_outcome w) (trace w ++ [e]) (clock w).

(** A computation that only reads the clock, run in the world. *)
Definition with_clock {A} (m : M Clock A) : M World A :=
  fun w => let '(r, c) := m (clock w) in (r, set_clock c w).

(* ===================================================================== *)
(** * state_tracker.py *)
(* ===================================================================== *)

Module StateTracker.
Local Open Scope eff_scope.

(** [StateTracker(db_path)]: [_init_db] creates the file and both tables
    when they are not there, and leaves an existing database alone. *)
Definition __init__ : M World unit :=
  w <- get ;;
  match state_db w with
  | Some _ => ret tt
  | None =>
      modify (set_state_db (Some empty_store)) ;;
      modify (log_event EvStoreCreated)
  end.

(** A statement on the tables; without them SQLite raises. *)
Definition with_db {A} (f : Store -> M World A) : M World A :=
  w <- get ;;
  match state_db w with
  | Some db => f db
  | None => raise (Exception "no such table")
  end.

Definition is_archived (source_dir : string) : M World bool :=
  with_db (fun db =>
    ret (match archived_recordings db !! source_dir with
         | Some _ => true
         | None => false
         end)).

Definition mark_archived (source_dir recording_datetime mode : string)
    (duration_ms : Z) (file_path : string) (commit_sha : option string)
  : M World unit :=
  with_db (fun db =>
    now <- with_clock Clock_now ;;
    let row := ArchiveRecord.mk recording_datetime mode duration_ms
                 file_path commit_sha (Datetime.isoformat now) in
    modify (set_state_db
      (Some (mkStore (<[source_dir := row]> (archived_recordings db))
                     (archive_runs db)))) ;;
    modify (log_event (EvMarkArchived source_dir row))).

(** The greatest [run_at] in the order of the texts:
    [ORDER BY run_at DESC LIMIT 1]. *)
Fixpoint max_run_at (runs : list RunRecord.t) : option string :=
  match runs with
  | [] => None
  | r :: rest =>
      match max_run_at rest with
      | None => Some (RunRecord.run_at r)
      | Some m =>
          if String.ltb (RunRecord.run_at r) m then Some m
          else Some (RunRecord.run_at r)
      end
  end.

Definition get_last_run_timestamp : M World (option Datetime.datetime) :=
  with_db (fun db =>
    match max_run_at (archive_runs db) with
    | Some run_at => dt <- lift (fromisoformat_exn run_at) ;; ret (Some dt)
    | None => ret None
    end).

Definition update_last_run
    (recordings_processed recordings_archived recordings_failed : Z)
  : M World unit :=
  with_db (fun db =>
    now <- with_clock Clock_now ;;
    let row := RunRecord.mk (Datetime.isoformat now) recordings_processed
                 recordings_archived recordings_failed in
    modify (set_state_db
      (Some (mkStore (archived_recordings db) (archive_runs db ++ [row])))) ;;
    modify (log_event (EvRunRecorded row))).


End StateTracker.

(* ===================================================================== *)
(** * git_manager.py *)
(* ===================================================================== *)

Module GitManager.
Local Open Scope eff_scope.

Definition __init__ (repo_path : string) : M World unit :=
  w <- get ;;
  match repo w with
  | NoSuchPath =>
      raise (ValueError ("Repository path does not exist: " +:+ repo_path))
  | NotARepository =>
      raise (ValueError ("Invalid git repository at " +:+ repo_path))
  | Repository => ret tt
  end.

(** Only a [GitCommandError] is caught. *)
Definition ensure_up_to_date : M World unit :=
  w <- get ;;
  match pull_outcome w with
  | RemoteOk => modify (log_event (EvPull true))
  | RemoteGitCommandError => modify (log_event (EvPull false))
  | RemoteOtherError e => modify (log_event (EvPull false)) ;; raise e
  end.

(** Every exception is caught and turned into [None]. *)
Definition write_and_commit (file_path content commit_message : string)
  : M World (option string) :=
  w <- get ;;
  let commit_sha :=
    match commit_outcomes w with
    | [] => None
    | o :: _ => o
    end in
  modify (set_commit_outcomes (tail (commit_outcomes w))) ;;
  modify (log_event (EvWriteCommit file_path content commit_message commit_sha)) ;;
  ret commit_sha.

Definition push_to_remote : M World bool :=
  w <- get ;;
  match push_outcome w with
  | RemoteOk => modify (log_event (EvPush true)) ;; ret true
  | RemoteGitCommandError => modify (log_event (EvPush false)) ;; ret false
  | RemoteOtherError e => modify (log_event (EvPush false)) ;; raise e
  end.

End GitManager.

(* ===================================================================== *)
(** * main.py *)
(* ===================================================================== *)

Module Main.
Import Py.
Local Open Scope eff_scope.

Definition commit_message (recording : Recording.t) (dt : Datetime.datetime)
  : string :=
  "Archive: " +:+ Recording.modeName recording +:+ " recording " +:+
  Datetime.strftime dt "%Y-%m-%d %H:%M" +:+ nl +:+ nl +:+
  "Source: " +:+ Recording.source_dir recording +:+ nl +:+
  "Duration: " +:+ str (Recording.duration recording) +:+ "ms" +:+ nl.

(** The body of the [try] of [archive_recording]. *)
Definition archive_attempt (recording : Recording.t) (dry_run : bool)
  : M World ArchiveResult.t :=
  markdown <- with_clock (MarkdownFormatter.format_recording recording) ;;
  file_path <- lift (MarkdownFormatter.compute_file_path recording) ;;
  if dry_run then
    ret (ArchiveResult.mk true (Recording.source_dir recording) None
           (Some file_path) None)
  else
    dt <- lift (fromisoformat_exn (Recording.datetime recording)) ;;
    commit_sha <- GitManager.write_and_commit file_path markdown
                    (commit_message recording dt) ;;
    if truthy_opt commit_sha then
      StateTracker.mark_archived (Recording.source_dir recording)
        (Recording.datetime recording) (Recording.modeName recording)
        (Recording.duration recording) file_path commit_sha ;;
      ret (ArchiveResult.mk true (Recording.source_dir recording) None
             (Some file_path) commit_sha)
    else raise (Exception "Failed to commit recording").

(** The [except Exception as e] branch. *)
Definition failure_result (recording : Recording.t) (e : exn)
  : ArchiveResult.t :=
  ArchiveResult.mk false (Recording.source_dir recording)
    (Some (exn_str e)) None None.

Definition archive_recording (recording : Recording.t) (dry_run : bool)
  : M World ArchiveResult.t :=
  try_except (archive_attempt recording dry_run)
             (fun e => ret (failure_result recording e)).

(** The loop [for rec in recordings] with its two accumulators. *)
Fixpoint archive_each (recordings : list Recording.t) (dry_run : bool)
    (results : list ArchiveResult.t) (skipped_count : Z)
  : M World (list ArchiveResult.t * Z) :=
  match recordings with
  | [] => ret (results, skipped_count)
  | rec :: rest =>
      archived <- StateTracker.is_archived (Recording.source_dir rec) ;;
      if (archived : bool) then
        archive_each rest dry_run results (skipped_count + 1)
      else
        result <- archive_recording rec dry_run ;;
        archive_each rest dry_run (results ++ [result]) skipped_count
  end.

(** [sum(1 for r in results if r.success)] and its complement. *)
Definition count_success (results : list ArchiveResult.t) : Z :=
  Z.of_nat (length (List.filter ArchiveResult.success results)).
Definition count_failed (results : list ArchiveResult.t) : Z :=
  Z.of_nat (length (List.filter (fun r => negb (ArchiveResult.success r))
                                results)).

Definition resolve_modes (config : ArchiverConfig.t)
    (modes_override : option string) : option (list string) :=
  let modes :=
    if truthy_opt modes_override
    then split_comma (default EmptyString modes_override)
    else ArchiverConfig.filters_modes config in
  match modes with
  | [] => None
  | _ :: _ => Some modes
  end.

Definition resolve_since (backfill : bool) (since_date : option string)
  : M World (option string) :=
  if backfill then ret None
  else if truthy_opt since_date then ret since_date
  else
    last_run <- StateTracker.get_last_run_timestamp ;;
    match last_run with
    | Some dt => ret (Some (Datetime.isoformat dt))
    | None => ret None
    end.

Definition run_archiver (config : ArchiverConfig.t)
    (dry_run backfill : bool) (since_date modes_override : option string)
  : M World ArchiveSummary.t :=
  StateTracker.__init__ ;;
  GitManager.__init__ (ArchiverConfig.repo_path config) ;;
  (if negb dry_run then GitManager.ensure_up_to_date else ret tt) ;;
  let modes := resolve_modes config modes_override in
  since <- resolve_since backfill since_date ;;
  w <- get ;;
  recordings <- lift (Scanner.scan (recordings_dir w) modes
                        (ArchiverConfig.filters_min_duration_ms config)
                        since) ;;
  processed <- archive_each recordings dry_run [] 0 ;;
  let results := fst processed in
  let skipped_count := snd processed in
  (if negb dry_run && existsb ArchiveResult.success results
   then (_ <- GitManager.push_to_remote ;; ret tt) else ret tt) ;;
  (if negb dry_run then
     StateTracker.update_last_run (Z.of_nat (length recordings))
       (count_success results) (count_failed results)
   else ret tt) ;;
  ret (ArchiveSummary.mk (Z.of_nat (length recordings))
         (count_success results) (count_failed results)
         skipped_count results).

End Main.

(* ===================================================================== *)
(** * main.py: the command line *)
(* ===================================================================== *)

Module Cli.
Import Py.
Local Open Scope eff_scope.





End Cli.

(* ===================================================================== *)
(** * Vocabulary of the properties *)
(* ===================================================================== *)

(** ** Text *)





(** The number a run of decimal digits stands for, read from the left
    with [acc] for what was read before. *)
Fixpoint uint_value (d : Decimal.uint) (acc : Z) : Z :=
  match d with
  | Decimal.Nil => acc
  | Decimal.D0 l => uint_value l (10 * acc)
  | Decimal.D1 l => uint_value l (10 * acc + 1)
  | Decimal.D2 l => uint_value l (10 * acc + 2)
  | Decimal.D3 l => uint_value l (10 * acc + 3)
  | Decimal.D4 l => uint_value l (10 * acc + 4)
  | Decimal.D5 l => uint_value l (10 * acc + 5)
  | Decimal.D6 l => uint_value l (10 * acc + 6)
  | Decimal.D7 l => uint_value l (10 * acc + 7)
  | Decimal.D8 l => uint_value l (10 * acc + 8)
  | Decimal.D9 l => uint_value l (10 * acc + 9)
  end.

(** ** Scanning *)

(** The order the result of a scan is in: the timestamp texts ascend. *)
Definition datetime_le (a b : Recording.t) : Prop :=
  String.leb (Recording.datetime a) (Recording.datetime b) = true.

(** The recordings a directory listing yields; none when the path is not
    there. *)
Definition parsed (root : option (list Scanner.entry)) : list Recording.t :=
  match root with
  | None => []
  | Some entries => Scanner.parse_entries entries
  end.



(** The lower bound a [since] argument stands for: none when the argument
    is absent or empty, the date-time it parses to otherwise. *)
Inductive since_bound : option string -> option Datetime.datetime -> Prop :=
| since_absent : since_bound None None
| since_empty : since_bound (Some EmptyString) None
| since_given (s : string) (dt : Datetime.datetime) :
    Datetime.fromisoformat s = Some dt -> s <> EmptyString ->
    since_bound (Some s) (Some dt).


(** The three conditions as tests. *)
Definition mode_acceptedb (modes : option (list string)) (r : Recording.t)
  : bool :=
  match modes with
  | None | Some [] => true
  | Some ms =>
      existsb (fun m => String.eqb (Py.lower (Recording.modeName r))
                                   (Py.lower m)) ms
  end.
Definition duration_acceptedb (min_duration_ms : Z) (r : Recording.t) : bool :=
  if min_duration_ms >? 0 then Recording.duration r >=? min_duration_ms
  else true.
Definition not_before (since_dt : Datetime.datetime) (r : Recording.t) : bool :=
  match Datetime.fromisoformat (Recording.datetime r) with
  | Some dt => Datetime.geb dt since_dt
  | None => false
  end.
Definition since_acceptedb (bound : option Datetime.datetime)
    (r : Recording.t) : bool :=
  match bound with
  | None => true
  | Some since_dt => not_before since_dt r
  end.
Definition accepted (modes : option (list string)) (min_duration_ms : Z)
    (bound : option Datetime.datetime) (r : Recording.t) : bool :=
  mode_acceptedb modes r && duration_acceptedb min_duration_ms r &&
  since_acceptedb bound r.

(** ** Sample data, after the fixtures of the test suite *)

Module Samples.

(** [MEETING_META] of [test_scanner.py]. *)
Definition MEETING_META : Meta.t :=
  Meta.mk "2026-02-13T10:31:50" "Hello world" " Hello world" 13647
    [Segment.mk "Hello world" (1 # 1) (12 # 1)]
    "Meeting" "Ultra (Cloud)" "en" true "2.9.0" None None.

(** [old_meta] of [test_scan_filters_by_since_date]. *)
Definition old_meta : Meta.t :=
  Meta.mk "2026-02-01T10:00:00" "Hello world" " Hello world" 13647
    [Segment.mk "Hello world" (1 # 1) (12 # 1)]
    "Meeting" "Ultra (Cloud)" "en" true "2.9.0" None None.

(** A [meta.json] whose [datetime] is a string, and no timestamp. *)
Definition undated_meta : Meta.t :=
  Meta.mk "yesterday" "Hello world" " Hello world" 13647
    [Segment.mk "Hello world" (1 # 1) (12 # 1)]
    "Meeting" "Ultra (Cloud)" "en" true "2.9.0" None None.


Definition meeting : Recording.t :=
  Scanner.Recording_of "1770978710" MEETING_META.
Definition old : Recording.t := Scanner.Recording_of "1770978720" old_meta.
Definition undated : Recording.t :=
  Scanner.Recording_of "1770978720" undated_meta.

(** A clock that advances by one second from one reading to the next. *)
Definition clock0 : Clock :=
  mkClock (fun k => Datetime.mk 2026 11 3 12 0 (Z.of_nat k) 0) 0.

Definition config : ArchiverConfig.t :=
  ArchiverConfig.mk "recordings" "archive" "origin" "main" ["meeting"] 0.

(** A first run: no state database yet, a repository, a remote that
    answers, and commits that succeed. *)
Definition fresh (entries : list Scanner.entry) : World :=
  mkWorld (Some entries) None Repository
    [Some "3f2a9c1"; Some "8be01d4"] RemoteOk RemoteOk [] clock0.

End Samples.

(** ** Runs *)

(** The world once [StateTracker] has opened the database: a database
    that was not there is created, empty. *)
Definition opened (w : World) : World :=
  match state_db w with
  | Some _ => w
  | None => log_event EvStoreCreated (set_state_db (Some empty_store) w)
  end.

(** The rows of [archived_recordings]; a database that is not there has
    none. *)
Definition rows (db : option Store) : gmap string ArchiveRecord.t :=
  match db with
  | Some s => archived_recordings s
  | None => ∅
  end.

(** The recording has no row yet. *)
Definition unarchived (db : option Store) (rec : Recording.t) : bool :=
  match rows db !! Recording.source_dir rec with
  | Some _ => false
  | None => true
  end.

(** [w'] is [w] but for the number of clock readings taken. *)
Definition only_clock_read (w w' : World) : Prop :=
  w' = set_clock (clock w') w /\ readings (clock w') = readings (clock w).

Definition is_mark (e : Event) : bool :=
  match e with EvMarkArchived _ _ => true | _ => false end.

(** In a trace, every mark-as-archived comes right after the successful
    commit of the same recording: the same path, the commit identifier
    that the row records, a message that names the source directory. *)
Definition commit_precedes_mark (t : list Event) : Prop :=
  forall (i : nat) (source_dir : string) (row : ArchiveRecord.t),
    t !! i = Some (EvMarkArchived source_dir row) ->
    exists (j : nat) (content : string) (sha : string)
           (rec : Recording.t) (dt : Datetime.datetime),
      i = S j /\
      t !! j = Some (EvWriteCommit (ArchiveRecord.file_path row) content
                       (Main.commit_message rec dt) (Some sha)) /\
      ArchiveRecord.commit_sha row = Some sha /\ sha <> EmptyString /\
      Recording.source_dir rec = source_dir.

(** The table after the marks of a trace have been written, in order. *)
Definition apply_mark (table : gmap string ArchiveRecord.t) (e : Event)
  : gmap string ArchiveRecord.t :=
  match e with
  | EvMarkArchived source_dir row => <[source_dir := row]> table
  | _ => table
  end.
Definition replay (t : list Event) (table : gmap string ArchiveRecord.t)
  : gmap string ArchiveRecord.t :=
  foldl apply_mark table t.

(** From [w] to [w'] the trace has grown by events in which every mark
    follows its commit, and the table of [w'] is the table of [w] with
    the marks of these events written to it. *)
Definition marks_after_commits (w w' : World) : Prop :=
  exists new : list Event,
    trace w' = trace w ++ new /\
    commit_precedes_mark new /\
    rows (state_db w') = replay new (rows (state_db w)).

(** What a dry run reports for a recording: the path it would be archived
    at, or the failure to compute one. *)
Definition dry_result (rec : Recording.t) : ArchiveResult.t :=
  match MarkdownFormatter.compute_file_path rec with
  | Ok file_path =>
      ArchiveResult.mk true (Recording.source_dir rec) None (Some file_path) None
  | Raise e => Main.failure_result rec e
  end.

(** Whatever [m] returns or raises, the state it leaves is related by [R]
    to the state it started in. *)
Definition preserves {S A} (R : S -> S -> Prop) (m : M S A) : Prop :=
  forall s, R s (snd (m s)).

Abbreviation reads_only := (preserves only_clock_read).
Abbreviation orderly := (preserves marks_after_commits).

(** ** Vocabulary of the further properties *)

(** The timestamp of [r] is the text [t]. *)
Definition has_datetime (t : string) (r : Recording.t) : bool :=
  String.eqb (Recording.datetime r) t.

(** The timestamp of [r] has the form [isoformat] prints. *)
Definition printed (r : Recording.t) : Prop :=
  exists d, Datetime.valid d = true /\ Recording.datetime r = Datetime.isoformat d.

(** [a] is not later than [b]: both timestamps parse, and as date-times
    the second is not before the first. *)
Definition chronological (a b : Recording.t) : Prop :=
  exists da db,
    Datetime.fromisoformat (Recording.datetime a) = Some da /\
    Datetime.fromisoformat (Recording.datetime b) = Some db /\
    Datetime.geb db da = true.


(** Decimal digits only. *)
Fixpoint all_digits (s : string) : bool :=
  match s with
  | EmptyString => true
  | String c r =>
      match Datetime.digit c with Some _ => all_digits r | None => false end
  end.

(** The current reading of the clock. *)
Definition now (w : World) : Datetime.datetime :=
  readings (clock w) (ticks (clock w)).

(** The runs recorded; a database that is not there has none. *)
Definition runs (db : option Store) : list RunRecord.t :=
  match db with
  | Some s => archive_runs s
  | None => []
  end.

(** The world after [n] more readings of the clock. *)
Definition ticked (n : nat) (w : World) : World :=
  set_clock (mkClock (readings (clock w)) (n + ticks (clock w))) w.

(** What the next call of [write_and_commit] returns. *)
Definition next_commit (w : World) : option string :=
  match commit_outcomes w with
  | [] => None
  | o :: _ => o
  end.

(** The message of the [ValueError] of [datetime.fromisoformat]. *)
Definition invalid_isoformat (s : string) : string :=
  "Invalid isoformat string: '" +:+ s +:+ "'".

(** The document [format_recording] returns for [rec] in the world [w]:
    both readings of the clock are in it. *)
Definition document (rec : Recording.t) (w : World) : string :=
  match fst (MarkdownFormatter.format_recording rec (clock w)) with
  | Ok markdown => markdown
  | Raise _ => EmptyString
  end.

(** The world after [write_and_commit] has been called for [rec]. *)
Definition committed (rec : Recording.t) (dt : Datetime.datetime)
    (file_path : string) (w : World) : World :=
  log_event
    (EvWriteCommit file_path (document rec w) (Main.commit_message rec dt)
       (next_commit w))
    (set_commit_outcomes (tail (commit_outcomes w)) (ticked 2 w)).

(** The row [mark_archived] writes for [rec]. *)
Definition row_of (rec : Recording.t) (file_path sha archived_at : string)
  : ArchiveRecord.t :=
  ArchiveRecord.mk (Recording.datetime rec) (Recording.modeName rec)
    (Recording.duration rec) file_path (Some sha) archived_at.

(** The world after the row of [rec] has been written. *)
Definition marked (rec : Recording.t) (row : ArchiveRecord.t) (db : Store)
    (w : World) : World :=
  log_event (EvMarkArchived (Recording.source_dir rec) row)
    (set_state_db
       (Some (mkStore (<[Recording.source_dir rec := row]> (archived_recordings db))
                      (archive_runs db)))
       (ticked 1 w)).

(** The remote answers or fails with the [GitCommandError] that the
    manager catches. *)
Definition tolerated (o : remote_outcome) : bool :=
  match o with
  | RemoteOtherError _ => false
  | _ => true
  end.

(** From [w] to [w'] the surroundings of the run are the same: the
    recordings, the repository, what the remote does, what the clock will
    read and the runs recorded; and a database that was there still is. *)
Definition same_setting (w w' : World) : Prop :=
  recordings_dir w' = recordings_dir w /\ repo w' = repo w /\
  pull_outcome w' = pull_outcome w /\ push_outcome w' = push_outcome w /\
  readings (clock w') = readings (clock w) /\
  runs (state_db w') = runs (state_db w) /\
  (is_Some (state_db w) -> is_Some (state_db w')).

Abbreviation steady := (preserves same_setting).

(** The character [c] occurs in [s]. *)
Fixpoint mentions (c : ascii) (s : string) : bool :=
  match s with
  | EmptyString => false
  | String a r => Ascii.eqb a c || mentions c r
  end.

(** What [archive_recording] reports for [rec]: the path computed from
    its timestamp (and, outside a dry run, the identifier of the commit),
    or the text of an error and nothing else. *)
Definition result_for (dry_run : bool) (rec : Recording.t)
    (r : ArchiveResult.t) : Prop :=
  ArchiveResult.source_dir r = Recording.source_dir rec /\
  ((ArchiveResult.success r = true /\ ArchiveResult.error r = None /\
    (exists file_path,
       MarkdownFormatter.compute_file_path rec = Ok file_path /\
       ArchiveResult.file_path r = Some file_path) /\
    (if dry_run then ArchiveResult.commit_sha r = None
     else exists sha, sha <> EmptyString /\
                      ArchiveResult.commit_sha r = Some sha)) \/
   (ArchiveResult.success r = false /\
    (exists msg, ArchiveResult.error r = Some msg) /\
    ArchiveResult.file_path r = None /\ ArchiveResult.commit_sha r = None)).

(** The result is backed by a row: a successful result has a row under
    its source directory with its path and commit identifier. *)
Definition recorded (db : option Store) (r : ArchiveResult.t) : Prop :=
  ArchiveResult.success r = true ->
  exists row,
    rows db !! ArchiveResult.source_dir r = Some row /\
    Some (ArchiveRecord.file_path row) = ArchiveResult.file_path r /\
    ArchiveRecord.commit_sha row = ArchiveResult.commit_sha r.

(** A commit event is the commit of a recording that has no row in
    [table]: the path is the one computed from its timestamp, the content
    a document formatted from it, the message its commit message. *)
Definition commit_of_unarchived (table : gmap string ArchiveRecord.t)
    (clock_readings : nat -> Datetime.datetime) (e : Event) : Prop :=
  match e with
  | EvWriteCommit file_path content commit_message _ =>
      exists (rec : Recording.t) (dt : Datetime.datetime) (c : Clock),
        table !! Recording.source_dir rec = None /\
        MarkdownFormatter.compute_file_path rec = Ok file_path /\
        Datetime.fromisoformat (Recording.datetime rec) = Some dt /\
        commit_message = Main.commit_message rec dt /\
        readings c = clock_readings /\
        fst (MarkdownFormatter.format_recording rec c) = Ok content
  | _ => True
  end.

(** From [w] to [w'] the trace has grown by events in which each commit
    is the commit of a recording that had no row when it was made; the
    table of [w'] is the table of [w] with the marks of these events. *)
Definition fresh_commits (w w' : World) : Prop :=
  exists new : list Event,
    trace w' = trace w ++ new /\
    rows (state_db w') = replay new (rows (state_db w)) /\
    readings (clock w') = readings (clock w) /\
    forall (i : nat) (e : Event),
      new !! i = Some e ->
      commit_of_unarchived (replay (take i new) (rows (state_db w)))
        (readings (clock w)) e.

Abbreviation careful := (preserves fresh_commits).

(** A commit or a mark: the events of archiving a recording. *)
Definition is_archiving (e : Event) : bool :=
  match e with
  | EvWriteCommit _ _ _ _ | EvMarkArchived _ _ => true
  | _ => false
  end.

(** From [w] to [w'] the trace has grown by commits and marks only. *)
Definition only_archiving (w w' : World) : Prop :=
  exists new : list Event,
    trace w' = trace w ++ new /\ forallb is_archiving new = true.

(** Two worlds that differ at most in what the remote does, each within
    what the manager catches, and in the events so far. *)
Definition alike (w1 w2 : World) : Prop :=
  recordings_dir w1 = recordings_dir w2 /\ state_db w1 = state_db w2 /\
  repo w1 = repo w2 /\ commit_outcomes w1 = commit_outcomes w2 /\
  clock w1 = clock w2 /\
  tolerated (pull_outcome w1) = true /\ tolerated (pull_outcome w2) = true /\
  tolerated (push_outcome w1) = true /\ tolerated (push_outcome w2) = true.

(** [m] does the same in worlds that are alike. *)
Definition respects {A} (m : M World A) : Prop :=
  forall w1 w2, alike w1 w2 ->
    fst (m w1) = fst (m w2) /\ alike (snd (m w1)) (snd (m w2)).

(** ** Worlds of later runs *)

Module Fixtures.

(** A run recorded on 10 February 2026. *)
Definition earlier_run : RunRecord.t :=
  RunRecord.mk "2026-02-10T00:00:00" 1 1 0.

(** The row of [Samples.meeting]. *)
Definition meeting_row : ArchiveRecord.t :=
  ArchiveRecord.mk "2026-02-13T10:31:50" "Meeting" 13647
    "2026/02/2026-02-13-10-31-50.md" (Some "3f2a9c1") "2026-02-13T11:00:00".

(** A later run: the state database holds the rows of [table] and
    [earlier_run]. *)
Definition later (entries : list Scanner.entry)
    (table : gmap string ArchiveRecord.t) : World :=
  mkWorld (Some entries) (Some (mkStore table [earlier_run])) Repository
    [Some "8be01d4"] RemoteOk RemoteOk [] Samples.clock0.

(** No directory at [repo_path]. *)
Definition no_repository : World :=
  mkWorld (Some []) None NoSuchPath [] RemoteOk RemoteOk [] Samples.clock0.

(** A first run with a remote that cannot be reached. *)
Definition offline (entries : list Scanner.entry) : World :=
  mkWorld (Some entries) None Repository
    [Some "3f2a9c1"; Some "8be01d4"] RemoteGitCommandError
    RemoteGitCommandError [] Samples.clock0.

(** The listing with the one recording of [MEETING_META]. *)
Definition one_meeting : list Scanner.entry :=
  [Scanner.Dir "1770978710" (Scanner.Valid Samples.MEETING_META)].

End Fixtures.

(* ===================================================================== *)
(** * Properties *)
(* ===================================================================== *)

(** ** Facts about text *)

Section StringFacts.

Lemma str_app_cons (a : ascii) (s t : string) :
  String a s +:+ t = String a (s +:+ t).
Proof. reflexivity. Qed.

Lemma str_app_nil_l (s : string) : EmptyString +:+ s = s.
Proof. reflexivity. Qed.

Lemma str_app_nil_r (s : string) : s +:+ EmptyString = s.
Proof.
  induction s as [|a s IH]; [reflexivity|]. by rewrite str_app_cons, IH.
Qed.

Lemma str_app_assoc (s t u : string) : (s +:+ t) +:+ u = s +:+ (t +:+ u).
Proof.
  induction s as [|a s IH]; [reflexivity|].
  by rewrite !str_app_cons, IH.
Qed.



Lemma truthy_opt_Some (o : option string) :
  Py.truthy_opt o = true -> exists s, o = Some s /\ s <> EmptyString.
Proof. destruct o as [[|a s]|]; try discriminate. intros _. by eexists. Qed.





End StringFacts.

(** ** Durations *)

Section Durations.
Import MarkdownFormatter.

Lemma duration_hours (d : Z) : (d / 1000) / 3600 = d / 3600000.
Proof. rewrite Z.div_div by lia. reflexivity. Qed.

Lemma duration_minutes (d : Z) :
  ((d / 1000) mod 3600) / 60 = (d / 60000) mod 60.
Proof.
  change 3600 with (60 * 60).
  rewrite Z.rem_mul_r by lia.
  rewrite Z.mul_comm, Z.div_add by lia.
  rewrite (Z.div_small ((d / 1000) mod 60)) by (apply Z.mod_pos_bound; lia).
  rewrite Z.div_div by lia. reflexivity.
Qed.

End Durations.

(** C2: for a duration [d >= 0] in milliseconds the formatter prints
    ["Ns"] below one minute, ["Mm Ss"] from one minute to below one hour
    and ["Hh Mm Ss"] from one hour on, where [H = d / 3600000],
    [M = (d / 60000) mod 60] and [S = (d / 1000) mod 60] (below one minute
    [N = d / 1000], below one hour [M = d / 60000]); 90000 ms gives
    ["1m 30s"] and 3723000 ms gives ["1h 2m 3s"]. *)
Theorem format_duration_spec (d : Z) :
  0 <= d ->
  (d < 60000 ->
     MarkdownFormatter._format_duration d = Py.str (d / 1000) +:+ "s") /\
  (60000 <= d < 3600000 ->
     MarkdownFormatter._format_duration d =
       Py.str (d / 60000) +:+ "m " +:+ Py.str ((d / 1000) mod 60) +:+ "s") /\
  (3600000 <= d ->
     MarkdownFormatter._format_duration d =
       Py.str (d / 3600000) +:+ "h " +:+ Py.str ((d / 60000) mod 60) +:+
       "m " +:+ Py.str ((d / 1000) mod 60) +:+ "s") /\
  MarkdownFormatter._format_duration 90000 = "1m 30s" /\
  MarkdownFormatter._format_duration 3723000 = "1h 2m 3s".
Proof.
  intros Hd. unfold MarkdownFormatter._format_duration.
  rewrite duration_hours, duration_minutes.
  repeat split; try reflexivity.
  - intros Hlt.
    assert (Hh : d / 3600000 = 0) by (apply Z.div_small; lia).
    assert (Hm : d / 60000 = 0) by (apply Z.div_small; lia).
    rewrite Hh, Hm. simpl.
    rewrite Z.mod_small; [reflexivity|].
    split; [apply Z.div_pos; lia | apply Z.div_lt_upper_bound; lia].
  - intros [Hge Hlt].
    assert (Hh : d / 3600000 = 0) by (apply Z.div_small; lia).
    rewrite Hh. simpl.
    assert (Hm : 1 <= d / 60000 < 60).
    { split; [apply Z.div_le_lower_bound; lia
             |apply Z.div_lt_upper_bound; lia]. }
    rewrite (Z.mod_small (d / 60000)) by lia.
    destruct (d / 60000 >? 0) eqn:E; [reflexivity | lia].
  - intros Hge.
    assert (Hh : 1 <= d / 3600000) by (apply Z.div_le_lower_bound; lia).
    destruct (d / 3600000 >? 0) eqn:E; [reflexivity | lia].
Qed.

Lemma format_duration_spec_witness :
  0 <= 7265000 /\
  MarkdownFormatter._format_duration 7265000 =
    Py.str (7265000 / 3600000) +:+ "h " +:+
    Py.str ((7265000 / 60000) mod 60) +:+ "m " +:+
    Py.str ((7265000 / 1000) mod 60) +:+ "s".
Proof.
  split; [lia|].
  apply (format_duration_spec 7265000); lia.
Defined.

(** ** File paths *)

Section Paths.
Import MarkdownFormatter.

Lemma number_from_string_of_uint (d : Decimal.uint) (acc : Z) :
  Datetime.number_from acc (NilEmpty.string_of_uint d) = Some (uint_value d acc).
Proof.
  revert acc. induction d; intros acc;
    cbn [NilEmpty.string_of_uint Datetime.number_from uint_value]; [done|..];
    match goal with
    | |- context [Datetime.digit ?c] =>
        let v := eval vm_compute in (Datetime.digit c) in
        change (Datetime.digit c) with v
    end; cbn iota; rewrite IHd; do 2 f_equal; lia.
Qed.

Lemma uint_value_acc (d : Decimal.uint) (a : positive) :
  uint_value d (Z.pos a) = Z.pos (Pos.of_uint_acc d a).
Proof.
  revert a. induction d; intros a; simpl; try done;
    rewrite <- IHd; f_equal; lia.
Qed.

Lemma uint_value_0 (d : Decimal.uint) :
  uint_value d 0 = Z.of_N (Pos.of_uint d).
Proof.
  induction d; simpl; try done; apply uint_value_acc.
Qed.

Lemma uint_value_lower (d : Decimal.uint) (acc : Z) :
  0 <= acc -> acc * 10 ^ Z.of_nat (Decimal.nb_digits d) <= uint_value d acc.
Proof.
  revert acc. induction d; intros acc Hacc; simpl Decimal.nb_digits;
    [simpl; lia|..];
    rewrite Nat2Z.inj_succ, Z.pow_succ_r by lia; simpl uint_value;
    (etrans; [|apply IHd; lia]);
    pose proof (Z.pow_pos_nonneg 10 (Z.of_nat (Decimal.nb_digits d))); nia.
Qed.

Lemma length_string_of_uint (d : Decimal.uint) :
  String.length (NilEmpty.string_of_uint d) = Decimal.nb_digits d.
Proof. induction d; simpl; congruence. Qed.

Lemma to_uint_unorm (p : positive) :
  Decimal.unorm (Pos.to_uint p) = Pos.to_uint p.
Proof.
  rewrite <- (DecimalPos.Unsigned.to_of (Pos.to_uint p)).
  by rewrite DecimalPos.Unsigned.of_to.
Qed.

Lemma to_uint_digits (p : positive) :
  10 ^ (Z.of_nat (Decimal.nb_digits (Pos.to_uint p)) - 1) <= Z.pos p.
Proof.
  pose proof (DecimalPos.Unsigned.of_to p) as Hof.
  pose proof (to_uint_unorm p) as Hn.
  pose proof (DecimalPos.Unsigned.to_uint_nonzero p) as Hz.
  assert (Hv : uint_value (Pos.to_uint p) 0 = Z.pos p).
  { by rewrite uint_value_0, Hof. }
  destruct (Pos.to_uint p) as [|u|u|u|u|u|u|u|u|u|u] eqn:E.
  1: { simpl. lia. }
  1: { exfalso. rewrite DecimalFacts.unorm_D0 in Hn.
       destruct u as [|u|u|u|u|u|u|u|u|u|u]; [by apply Hz|..];
         match type of Hn with
         | Decimal.unorm ?v = _ =>
             assert (Hle : (Decimal.nb_digits (Decimal.unorm v) <=
                            Decimal.nb_digits v)%nat)
               by (apply DecimalFacts.nb_digits_unorm; discriminate)
         end; rewrite Hn in Hle; simpl in Hle; lia. }
  all: simpl in Hv; simpl Decimal.nb_digits; rewrite Nat2Z.inj_succ;
    replace (Z.succ (Z.of_nat (Decimal.nb_digits u)) - 1)
      with (Z.of_nat (Decimal.nb_digits u)) by lia;
    rewrite <- Hv; (etrans; [|apply uint_value_lower; lia]); lia.
Qed.

Lemma str_nonneg (n : Z) :
  0 <= n ->
  exists d, Py.str n = NilEmpty.string_of_uint d /\ d <> Decimal.Nil /\
            uint_value d 0 = n /\
            10 ^ (Z.of_nat (Decimal.nb_digits d) - 1) <= Z.max n 1.
Proof.
  intros Hn. destruct n as [|p|p]; [| |lia].
  - exists (Decimal.D0 Decimal.Nil). by repeat split.
  - exists (Pos.to_uint p). unfold Py.str. simpl Z.to_int.
    pose proof (DecimalPos.Unsigned.to_uint_nonnil p) as Hnil.
    split; [|split; [done|split]].
    + unfold NilZero.string_of_int, NilZero.string_of_uint.
      by destruct (Pos.to_uint p).
    + by rewrite uint_value_0, DecimalPos.Unsigned.of_to.
    + pose proof (to_uint_digits p). lia.
Qed.

Lemma number_from_zeros (k : nat) (s : string) :
  Datetime.number_from 0 (Py.repeat_char "0" k +:+ s) = Datetime.number_from 0 s.
Proof. induction k as [|k IH]; [done|]. exact IH. Qed.

(** Padding a number below [10 ^ w] with zeros gives [w] digits that read
    as the number. *)
Lemma zfill_spec (w : nat) (n : Z) :
  (1 <= w)%nat -> 0 <= n < 10 ^ Z.of_nat w ->
  String.length (Py.zfill w (Py.str n)) = w /\
  Datetime.number (Py.zfill w (Py.str n)) = Some n.
Proof.
  intros Hw [Hn Hlt].
  destruct (str_nonneg n Hn) as (d & -> & Hd & Hv & Hdig).
  assert (Hlen : (1 <= Decimal.nb_digits d <= w)%nat).
  { split; [destruct d; simpl; (done || lia)|].
    assert (10 ^ (Z.of_nat (Decimal.nb_digits d) - 1) < 10 ^ Z.of_nat w).
    { eapply Z.le_lt_trans; [exact Hdig|].
      destruct (Z.max_spec n 1) as [[_ ->]|[_ ->]]; [|done].
      apply (Z.pow_lt_mono_r 10 0); lia. }
    apply Z.pow_lt_mono_r_iff in H; lia. }
  unfold Py.zfill. rewrite length_string_of_uint.
  assert (Hl : forall k s, String.length (Py.repeat_char "0" k +:+ s) =
                           (k + String.length s)%nat).
  { intros k s. induction k as [|k IH]; [done|]. simpl. by rewrite <- IH. }
  split.
  - rewrite Hl, length_string_of_uint. lia.
  - assert (Hne : forall k (s : string), s <> EmptyString ->
                    Datetime.number (Py.repeat_char "0" k +:+ s) =
                    Datetime.number_from 0 (Py.repeat_char "0" k +:+ s)).
    { intros k s Hs. destruct k; [by destruct s|done]. }
    rewrite Hne, number_from_zeros, number_from_string_of_uint; [by rewrite Hv|].
    destruct d; simpl; done.
Qed.

(** Two digits for a number below one hundred. *)
Lemma pad2 (n : Z) :
  0 <= n < 100 ->
  String.length (Py.zfill 2 (Py.str n)) = 2%nat /\
  Datetime.number (Py.zfill 2 (Py.str n)) = Some n.
Proof. intros H. apply zfill_spec; [lia|]. change (10 ^ Z.of_nat 2) with 100. lia. Qed.


Lemma fromisoformat_valid (s : string) (dt : Datetime.datetime) :
  Datetime.fromisoformat s = Some dt -> Datetime.valid dt = true.
Proof.
  unfold Datetime.fromisoformat. intros H.
  destruct (Datetime.parse_isoformat_date _) as [[[y m] d]|]; [|discriminate].
  simpl in H.
  destruct (if (String.length s =? 10)%nat then _ else _)
    as [[[[h mi] sec] us]|]; [|discriminate].
  simpl in H.
  destruct (Datetime.valid _) eqn:Hv; [|discriminate].
  by injection H as <-.
Qed.

Lemma valid_ranges (dt : Datetime.datetime) :
  Datetime.valid dt = true ->
  1 <= Datetime.year dt <= 9999 /\ 1 <= Datetime.month dt <= 12 /\
  1 <= Datetime.day dt <= 31 /\ 0 <= Datetime.hour dt <= 23 /\
  0 <= Datetime.minute dt <= 59 /\ 0 <= Datetime.second dt <= 59 /\
  0 <= Datetime.microsecond dt <= 999999.
Proof.
  unfold Datetime.valid. intros H.
  repeat (apply andb_prop in H as [H ?]).
  assert (Datetime.days_in_month (Datetime.year dt) (Datetime.month dt) <= 31).
  { unfold Datetime.days_in_month.
    repeat match goal with
           | |- context [if ?b then _ else _] => destruct b
           end; lia. }
  lia.
Qed.



Lemma compute_file_path_cases (rec : Recording.t) :
  match Datetime.fromisoformat (Recording.datetime rec) with
  | Some dt => exists p, compute_file_path rec = Ok p
  | None =>
      compute_file_path rec =
        Raise (ValueError ("Invalid isoformat string: '" +:+
                           Recording.datetime rec +:+ "'"))
  end.
Proof.
  unfold compute_file_path, fromisoformat_exn.
  destruct (Datetime.fromisoformat (Recording.datetime rec)); eauto.
Qed.


End Paths.

(** ** Timestamp text and chronological order *)

(** [Scanner.scan] sorts on the timestamp text and filters on the parsed
    value.  For timestamps in the form [isoformat] prints, the two orders
    are the same, and [fromisoformat] reads the text back. *)

Section Ordering.

Lemma digit_range (c : ascii) (d : Z) :
  Datetime.digit c = Some d -> 0 <= d <= 9 /\ N_of_ascii c = Z.to_N (d + 48).
Proof.
  unfold Datetime.digit. intros H.
  destruct (_ && _)%bool eqn:E; [|discriminate]. injection H as <-.
  apply andb_prop in E as [E1 E2].
  apply Nat.leb_le in E1, E2. split; [lia|].
  unfold nat_of_ascii. 
  replace (Z.of_nat (N.to_nat (N_of_ascii c)) - 48 + 48) with (Z.of_nat (N.to_nat (N_of_ascii c))) by lia.
  rewrite N_nat_Z, N2Z.id. done.
Qed.

Lemma digit_compare (c c' : ascii) (d d' : Z) :
  Datetime.digit c = Some d -> Datetime.digit c' = Some d' ->
  Ascii.compare c c' = (d ?= d').
Proof.
  intros [Hd Hc]%digit_range [Hd' Hc']%digit_range.
  unfold Ascii.compare. rewrite Hc, Hc'.
  rewrite Z2N.inj_compare by lia.
  rewrite (Z.add_comm d), (Z.add_comm d'). apply Z.add_compare_mono_l.
Qed.

(** What [number_from] returns lies in the window its accumulator opens. *)
Lemma number_from_window (s : string) (acc n : Z) :
  Datetime.number_from acc s = Some n ->
  acc * 10 ^ Z.of_nat (String.length s) <= n <
  (acc + 1) * 10 ^ Z.of_nat (String.length s).
Proof.
  revert acc. induction s as [|c s IH]; intros acc H.
  - injection H as <-. simpl. lia.
  - cbn [Datetime.number_from] in H.
    destruct (Datetime.digit c) as [d|] eqn:Ed; [|discriminate].
    apply digit_range in Ed as [Hd _]. apply IH in H.
    cbn [String.length]. rewrite Nat2Z.inj_succ, Z.pow_succ_r by lia.
    pose proof (Z.pow_pos_nonneg 10 (Z.of_nat (String.length s))
                  ltac:(lia) ltac:(lia)). nia.
Qed.

(** Digit strings of one length compare as the numbers they read as. *)
Lemma number_from_compare (a b : string) (acc n m : Z) :
  String.length a = String.length b ->
  Datetime.number_from acc a = Some n ->
  Datetime.number_from acc b = Some m ->
  String.compare a b = (n ?= m).
Proof.
  revert b acc. induction a as [|c a IH]; intros [|c' b] acc Hlen Ha Hb;
    try discriminate.
  - injection Ha as <-. injection Hb as <-. by rewrite Z.compare_refl.
  - cbn [Datetime.number_from] in Ha, Hb.
    destruct (Datetime.digit c) as [d|] eqn:Ed; [|discriminate].
    destruct (Datetime.digit c') as [d'|] eqn:Ed'; [|discriminate].
    cbn [String.compare]. rewrite (digit_compare c c' d d' Ed Ed').
    injection Hlen as Hlen.
    pose proof (number_from_window _ _ _ Ha) as Wa.
    pose proof (number_from_window _ _ _ Hb) as Wb.
    rewrite <- Hlen in Wb.
    pose proof (Z.pow_pos_nonneg 10 (Z.of_nat (String.length a))
                  ltac:(lia) ltac:(lia)) as Hp.
    generalize dependent (10 ^ Z.of_nat (String.length a)). intros P Wa Wb Hp.
    destruct (d ?= d') eqn:E.
    + apply Z.compare_eq_iff in E. subst d'. eapply IH; eauto.
    + change (d < d') in E. symmetry. apply Z.compare_lt_iff.
      assert ((10 * acc + d + 1) * P <= (10 * acc + d') * P)
        by (apply Z.mul_le_mono_nonneg_r; lia).
      lia.
    + apply Z.compare_gt_iff in E. symmetry. apply Z.compare_gt_iff.
      assert ((10 * acc + d' + 1) * P <= (10 * acc + d) * P)
        by (apply Z.mul_le_mono_nonneg_r; lia).
      lia.
Qed.

Lemma compare_app (a b x y : string) :
  String.length a = String.length b ->
  String.compare (a +:+ x) (b +:+ y) =
  match String.compare a b with
  | Eq => String.compare x y
  | c => c
  end.
Proof.
  revert b. induction a as [|c a IH]; intros [|c' b] Hlen; try discriminate.
  - done.
  - rewrite !str_app_cons. cbn [String.compare].
    destruct (Ascii.compare c c'); try done. apply IH. by injection Hlen.
Qed.

Lemma compare_cons_same (c : ascii) (x y : string) :
  String.compare (String c x) (String c y) = String.compare x y.
Proof.
  cbn [String.compare]. unfold Ascii.compare. by rewrite N.compare_refl.
Qed.

(** Numbers padded to one width compare as texts the way they compare as
    numbers. *)
Lemma zfill_compare (w : nat) (n m : Z) :
  (1 <= w)%nat -> 0 <= n < 10 ^ Z.of_nat w -> 0 <= m < 10 ^ Z.of_nat w ->
  String.compare (Py.zfill w (Py.str n)) (Py.zfill w (Py.str m)) = (n ?= m).
Proof.
  intros Hw Hn Hm.
  destruct (zfill_spec w n Hw Hn) as [Ln Nn].
  destruct (zfill_spec w m Hw Hm) as [Lm Nm].
  apply (number_from_compare _ _ 0); [congruence| |].
  - by destruct (Py.zfill w (Py.str n)).
  - by destruct (Py.zfill w (Py.str m)).
Qed.

(** A padded field, a separator, and the rest. *)
Lemma field_compare (w : nat) (n m : Z) (c : ascii) (x y : string) :
  (1 <= w)%nat -> 0 <= n < 10 ^ Z.of_nat w -> 0 <= m < 10 ^ Z.of_nat w ->
  String.compare (Py.zfill w (Py.str n) +:+ String c x)
                 (Py.zfill w (Py.str m) +:+ String c y) =
  match n ?= m with
  | Eq => String.compare x y
  | o => o
  end.
Proof.
  intros Hw Hn Hm. rewrite compare_app.
  - rewrite zfill_compare by done. by rewrite compare_cons_same.
  - destruct (zfill_spec w n Hw Hn) as [-> _].
    by destruct (zfill_spec w m Hw Hm) as [-> _].
Qed.

Lemma isoformat_shape (d : Datetime.datetime) :
  Datetime.isoformat d =
  Py.zfill 4 (Py.str (Datetime.year d)) +:+ String "-" (
  Py.zfill 2 (Py.str (Datetime.month d)) +:+ String "-" (
  Py.zfill 2 (Py.str (Datetime.day d)) +:+ String "T" (
  Py.zfill 2 (Py.str (Datetime.hour d)) +:+ String ":" (
  Py.zfill 2 (Py.str (Datetime.minute d)) +:+ String ":" (
  Py.zfill 2 (Py.str (Datetime.second d)) +:+
  (if Datetime.microsecond d =? 0 then EmptyString
   else String "." (Py.zfill 6 (Py.str (Datetime.microsecond d))))))))).
Proof.
  unfold Datetime.isoformat.
  change (Datetime.strftime d "%Y-%m-%dT%H:%M:%S") with
    (Py.zfill 4 (Py.str (Datetime.year d)) +:+ String "-" (
     Py.zfill 2 (Py.str (Datetime.month d)) +:+ String "-" (
     Py.zfill 2 (Py.str (Datetime.day d)) +:+ String "T" (
     Py.zfill 2 (Py.str (Datetime.hour d)) +:+ String ":" (
     Py.zfill 2 (Py.str (Datetime.minute d)) +:+ String ":" (
     Py.zfill 2 (Py.str (Datetime.second d)) +:+ EmptyString)))))).
  rewrite !str_app_assoc, !str_app_cons, !str_app_assoc, !str_app_cons,
    !str_app_assoc, !str_app_cons, !str_app_assoc, !str_app_cons,
    !str_app_assoc, !str_app_cons, !str_app_assoc.
  destruct (Datetime.microsecond d =? 0); reflexivity.
Qed.

(** The texts [isoformat] prints are ordered as the date-times are. *)
Theorem isoformat_compare (d1 d2 : Datetime.datetime) :
  Datetime.valid d1 = true -> Datetime.valid d2 = true ->
  String.compare (Datetime.isoformat d1) (Datetime.isoformat d2) =
  Datetime.compare d1 d2.
Proof.
  intros V1 V2.
  pose proof (valid_ranges d1 V1) as (Hy1 & Hm1 & Hd1 & Hh1 & Hmi1 & Hs1 & Hu1).
  pose proof (valid_ranges d2 V2) as (Hy2 & Hm2 & Hd2 & Hh2 & Hmi2 & Hs2 & Hu2).
  rewrite !isoformat_shape.
  unfold Datetime.compare, Datetime.fields. cbn [Datetime.lex_compare].
  rewrite field_compare by (change (10 ^ Z.of_nat 4) with 10000; lia).
  destruct (Datetime.year d1 ?= Datetime.year d2); try done.
  rewrite field_compare by (change (10 ^ Z.of_nat 2) with 100; lia).
  destruct (Datetime.month d1 ?= Datetime.month d2); try done.
  rewrite field_compare by (change (10 ^ Z.of_nat 2) with 100; lia).
  destruct (Datetime.day d1 ?= Datetime.day d2); try done.
  rewrite field_compare by (change (10 ^ Z.of_nat 2) with 100; lia).
  destruct (Datetime.hour d1 ?= Datetime.hour d2); try done.
  rewrite field_compare by (change (10 ^ Z.of_nat 2) with 100; lia).
  destruct (Datetime.minute d1 ?= Datetime.minute d2); try done.
  rewrite compare_app.
  2:{ destruct (pad2 (Datetime.second d1)) as [-> _]; [lia|].
      by destruct (pad2 (Datetime.second d2)) as [-> _]; [lia|]. }
  rewrite zfill_compare by (change (10 ^ Z.of_nat 2) with 100; lia).
  destruct (Datetime.second d1 ?= Datetime.second d2); try done.
  assert (Hfrac : forall u1 u2, 0 <= u1 <= 999999 -> 0 <= u2 <= 999999 ->
            String.compare
              (if u1 =? 0 then EmptyString
               else String "." (Py.zfill 6 (Py.str u1)))
              (if u2 =? 0 then EmptyString
               else String "." (Py.zfill 6 (Py.str u2))) = (u1 ?= u2)).
  { intros u1 u2 H1 H2.
    destruct (u1 =? 0) eqn:E1, (u2 =? 0) eqn:E2.
    - apply Z.eqb_eq in E1, E2. subst. done.
    - apply Z.eqb_eq in E1. apply Z.eqb_neq in E2. subst. cbn.
      destruct u2; [done|done|lia].
    - apply Z.eqb_neq in E1. apply Z.eqb_eq in E2. subst. cbn.
      destruct u1; [done|done|lia].
    - rewrite compare_cons_same.
      apply zfill_compare; [lia|..]; change (10 ^ Z.of_nat 6) with 1000000; lia. }
  rewrite Hfrac by done.
  by destruct (Datetime.microsecond d1 ?= Datetime.microsecond d2).
Qed.

(** For recordings whose timestamps have the form [isoformat] prints, the
    order of the texts is the order in time. *)
Corollary datetime_le_chronological (r1 r2 : Recording.t)
    (d1 d2 : Datetime.datetime) :
  Datetime.valid d1 = true -> Datetime.valid d2 = true ->
  Recording.datetime r1 = Datetime.isoformat d1 ->
  Recording.datetime r2 = Datetime.isoformat d2 ->
  (datetime_le r1 r2 <-> Datetime.geb d2 d1 = true).
Proof.
  intros V1 V2 E1 E2. unfold datetime_le, String.leb, Datetime.geb.
  rewrite E1, E2, <- (isoformat_compare d2 d1 V2 V1).
  rewrite (String.compare_antisym (Datetime.isoformat d2)
             (Datetime.isoformat d1)).
  destruct (String.compare (Datetime.isoformat d1) (Datetime.isoformat d2));
    simpl; split; congruence.
Qed.

Lemma string_length_2 (s : string) :
  String.length s = 2%nat -> exists a b, s = String a (String b EmptyString).
Proof. destruct s as [|a [|b [|c s]]]; try discriminate. eauto. Qed.

Lemma string_length_4 (s : string) :
  String.length s = 4%nat ->
  exists a b c d, s = String a (String b (String c (String d EmptyString))).
Proof.
  destruct s as [|a [|b [|c [|d [|e s]]]]]; try discriminate. eauto 6.
Qed.

Lemma string_length_6 (s : string) :
  String.length s = 6%nat ->
  exists a b c d e f,
    s = String a (String b (String c (String d (String e (String f EmptyString))))).
Proof.
  destruct s as [|a [|b [|c [|d [|e [|f [|g s]]]]]]]; try discriminate.
  eauto 8.
Qed.

(** [fromisoformat] reads back what [isoformat] prints. *)
Theorem fromisoformat_isoformat (d : Datetime.datetime) :
  Datetime.valid d = true ->
  Datetime.fromisoformat (Datetime.isoformat d) = Some d.
Proof.
  intros V.
  pose proof (valid_ranges d V) as (Hy & Hm & Hd & Hh & Hmi & Hs & Hu).
  rewrite isoformat_shape.
  destruct (zfill_spec 4 (Datetime.year d)) as [Ly Ny];
    [lia|change (10 ^ Z.of_nat 4) with 10000; lia|].
  destruct (pad2 (Datetime.month d)) as [Lm Nm]; [lia|].
  destruct (pad2 (Datetime.day d)) as [Ld Nd]; [lia|].
  destruct (pad2 (Datetime.hour d)) as [Lh Nh]; [lia|].
  destruct (pad2 (Datetime.minute d)) as [Lmi Nmi]; [lia|].
  destruct (pad2 (Datetime.second d)) as [Ls Ns]; [lia|].
  destruct (zfill_spec 6 (Datetime.microsecond d)) as [Lu Nu];
    [lia|change (10 ^ Z.of_nat 6) with 1000000; lia|].
  apply string_length_4 in Ly as (y1 & y2 & y3 & y4 & Ey).
  apply string_length_2 in Lm as (m1 & m2 & Em).
  apply string_length_2 in Ld as (d1 & d2 & Ed).
  apply string_length_2 in Lh as (h1 & h2 & Eh).
  apply string_length_2 in Lmi as (i1 & i2 & Emi).
  apply string_length_2 in Ls as (s1 & s2 & Es).
  apply string_length_6 in Lu as (u1 & u2 & u3 & u4 & u5 & u6 & Eu).
  rewrite Ey, Em, Ed, Eh, Emi, Es, Eu in *.
  cbv [String.append].
  unfold Datetime.fromisoformat.
  destruct (Datetime.microsecond d =? 0) eqn:E0.
  - apply Z.eqb_eq in E0.
    cbn -[Datetime.number Datetime.valid]. rewrite Ny, Nm, Nd.
    cbn -[Datetime.number Datetime.valid]. rewrite Nh, Nmi, Ns.
    cbn -[Datetime.number Datetime.valid].
    rewrite <- E0. destruct d. cbn in V |- *. by rewrite V.
  - cbn -[Datetime.number Datetime.valid]. rewrite Ny, Nm, Nd.
    cbn -[Datetime.number Datetime.valid]. rewrite Nh, Nmi, Ns, Nu.
    cbn -[Datetime.number Datetime.valid].
    destruct d. cbn in V |- *. by rewrite V.
Qed.

End Ordering.






(** ** The formatter *)

Ltac run_formatter :=
  unfold MarkdownFormatter.format_recording,
    MarkdownFormatter._build_frontmatter, MarkdownFormatter._build_body,
    bind, lift, fromisoformat_exn, Clock_now, ret;
  cbn [fst snd readings ticks].

Lemma format_recording_cases (rec : Recording.t) (c : Clock) :
  match Datetime.fromisoformat (Recording.datetime rec) with
  | Some dt =>
      exists markdown,
        MarkdownFormatter.format_recording rec c =
          (Ok markdown, mkClock (readings c) (S (S (ticks c))))
  | None =>
      MarkdownFormatter.format_recording rec c =
        (Raise (ValueError ("Invalid isoformat string: '" +:+
                            Recording.datetime rec +:+ "'")),
         mkClock (readings c) (S (ticks c)))
  end.
Proof.
  run_formatter.
  destruct (Datetime.fromisoformat (Recording.datetime rec)); eauto.
Qed.









(** ** The scanner *)

Section Scanning.
Import Scanner.

Lemma insert_by_datetime_perm (r : Recording.t) (l : list Recording.t) :
  Permutation (insert_by_datetime r l) (r :: l).
Proof.
  induction l as [|x l IH]; simpl; [done|].
  destruct (String.leb _ _); [done|].
  rewrite IH. apply perm_swap.
Qed.

Lemma sort_by_datetime_perm (l : list Recording.t) :
  Permutation (sort_by_datetime l) l.
Proof.
  induction l as [|x l IH]; simpl; [done|].
  unfold sort_by_datetime in *. simpl.
  rewrite insert_by_datetime_perm. by constructor.
Qed.

Lemma insert_by_datetime_sorted (r : Recording.t) (l : list Recording.t) :
  Sorted datetime_le l -> Sorted datetime_le (insert_by_datetime r l).
Proof.
  induction 1 as [|x l Hs IH Hhd]; simpl.
  - repeat constructor.
  - destruct (String.leb (Recording.datetime r) (Recording.datetime x)) eqn:E.
    + constructor; [by constructor|]. by constructor.
    + constructor; [exact IH|].
      assert (Hxr : datetime_le x r).
      { unfold datetime_le.
        destruct (String.leb_total (Recording.datetime r) (Recording.datetime x));
          congruence. }
      destruct Hhd as [|y l' Hxy]; simpl.
      * by constructor.
      * destruct (String.leb (Recording.datetime r) (Recording.datetime y));
          by constructor.
Qed.

Lemma sort_by_datetime_sorted (l : list Recording.t) :
  Sorted datetime_le (sort_by_datetime l).
Proof.
  induction l as [|x l IH]; [constructor|].
  apply insert_by_datetime_sorted, IH.
Qed.

Lemma filter_since_ok (since_dt : Datetime.datetime) (l : list Recording.t) :
  (forall r, In r l -> is_Some (Datetime.fromisoformat (Recording.datetime r))) ->
  filter_since since_dt l = Ok (List.filter (not_before since_dt) l).
Proof.
  induction l as [|x l IH]; intros Hall; simpl; [done|].
  destruct (Hall x) as [dt Hdt]; [by left|].
  unfold fromisoformat_exn, not_before. rewrite Hdt.
  rewrite IH by (intros; apply Hall; by right).
  by destruct (Datetime.geb dt since_dt).
Qed.

Lemma filter_since_raises (since_dt : Datetime.datetime) (l : list Recording.t)
    (r : Recording.t) :
  In r l -> Datetime.fromisoformat (Recording.datetime r) = None ->
  exists e, filter_since since_dt l = Raise e.
Proof.
  induction l as [|x l IH]; intros Hin Hr; [done|]. simpl.
  unfold fromisoformat_exn.
  destruct (Datetime.fromisoformat (Recording.datetime x)) eqn:Hx; [|eauto].
  destruct Hin as [->|Hin]; [congruence|].
  destruct (IH Hin Hr) as [e ->]. eauto.
Qed.


Lemma existsb_map_lower (f : string -> bool) (ms : list string) :
  existsb f (map Py.lower ms) = existsb (fun m => f (Py.lower m)) ms.
Proof. induction ms as [|m ms IH]; simpl; [done|]. by rewrite IH. Qed.





Lemma List_filter_andb {A} (f g : A -> bool) (l : list A) :
  List.filter g (List.filter f l) = List.filter (fun x => f x && g x) l.
Proof.
  induction l as [|x l IH]; simpl; [done|].
  destruct (f x); simpl; [|done]. destruct (g x); by rewrite IH.
Qed.

Lemma List_filter_true {A} (l : list A) : List.filter (fun _ => true) l = l.
Proof. induction l as [|x l IH]; simpl; [done|]. by rewrite IH. Qed.

Lemma filter_modes_eq (modes : option (list string)) (l : list Recording.t) :
  filter_modes modes l = List.filter (mode_acceptedb modes) l.
Proof.
  destruct modes as [[|m ms]|]; simpl; rewrite ?List_filter_true; try done.
  apply filter_ext. intros r. unfold mode_matches, Py.str_in.
  change (Py.lower m :: map Py.lower ms) with (map Py.lower (m :: ms)).
  by rewrite existsb_map_lower.
Qed.

Lemma filter_duration_eq (min_duration_ms : Z) (l : list Recording.t) :
  filter_duration min_duration_ms l =
  List.filter (duration_acceptedb min_duration_ms) l.
Proof.
  unfold filter_duration, duration_acceptedb.
  destruct (min_duration_ms >? 0); [done|]. by rewrite List_filter_true.
Qed.

(** The scan when the bound is known: the candidates that pass the mode
    and duration filters, then the since filter, then the sort. *)
Lemma scan_accepted (entries : list entry) (modes : option (list string))
    (min_duration_ms : Z) (since : option string)
    (bound : option Datetime.datetime) :
  since_bound since bound ->
  (bound <> None ->
   forall r, In r (parse_entries entries) ->
     mode_acceptedb modes r = true ->
     duration_acceptedb min_duration_ms r = true ->
     is_Some (Datetime.fromisoformat (Recording.datetime r))) ->
  scan (Some entries) modes min_duration_ms since =
    Ok (sort_by_datetime
          (List.filter (accepted modes min_duration_ms bound)
                       (parse_entries entries))).
Proof.
  intros Hsince Hparse. unfold scan.
  rewrite filter_modes_eq, filter_duration_eq, List_filter_andb.
  destruct Hsince as [| |s since_dt Hs Hne]; simpl.
  - do 2 f_equal. apply filter_ext. intros r. unfold accepted. simpl.
    by rewrite andb_true_r.
  - do 2 f_equal. apply filter_ext. intros r. unfold accepted. simpl.
    by rewrite andb_true_r.
  - assert (Ht : Py.truthy s = true) by (by destruct s).
    rewrite Ht. unfold fromisoformat_exn at 1. rewrite Hs.
    rewrite filter_since_ok.
    + by rewrite List_filter_andb.
    + intros r Hr. apply filter_In in Hr as [Hin Hr].
      apply andb_prop in Hr as [? ?]. by apply Hparse.
Qed.

(** When the since filter meets a timestamp that does not parse, the scan
    raises. *)
Lemma scan_raises (entries : list entry) (modes : option (list string))
    (min_duration_ms : Z) (s : string) (since_dt : Datetime.datetime)
    (r : Recording.t) :
  s <> EmptyString -> Datetime.fromisoformat s = Some since_dt ->
  In r (parse_entries entries) ->
  mode_acceptedb modes r = true ->
  duration_acceptedb min_duration_ms r = true ->
  Datetime.fromisoformat (Recording.datetime r) = None ->
  exists e, scan (Some entries) modes min_duration_ms (Some s) = Raise e.
Proof.
  intros Hne Hs Hin Hm Hd Hr. unfold scan.
  rewrite filter_modes_eq, filter_duration_eq, List_filter_andb.
  assert (Ht : Py.truthy_opt (Some s) = true) by (by destruct s).
  rewrite Ht. simpl. unfold fromisoformat_exn at 1. rewrite Hs.
  destruct (filter_since_raises since_dt
              (List.filter (fun x => mode_acceptedb modes x &&
                                     duration_acceptedb min_duration_ms x)
                           (parse_entries entries)) r) as [e ->]; [|done|eauto].
  apply filter_In. split; [done|]. by rewrite Hm, Hd.
Qed.


End Scanning.



(** ** Runs *)

Section Runs.
Import Main.

(** ** Two-state invariants of computations *)

Section Preservation.
Context {S : Type} (R : S -> S -> Prop).
Hypothesis R_refl : forall s, R s s.
Hypothesis R_trans : forall s1 s2 s3, R s1 s2 -> R s2 s3 -> R s1 s3.

Lemma preserves_ret {A} (a : A) : preserves R (ret a).
Proof. intros s. apply R_refl. Qed.

Lemma preserves_raise {A} (e : exn) : preserves R (raise (A:=A) e).
Proof. intros s. apply R_refl. Qed.

Lemma preserves_lift {A} (o : outcome A) : preserves R (lift o).
Proof. intros s. apply R_refl. Qed.

Lemma preserves_get : preserves R get.
Proof. intros s. apply R_refl. Qed.

Lemma preserves_bind {A B} (m : M S A) (k : A -> M S B) :
  preserves R m -> (forall a, preserves R (k a)) -> preserves R (bind m k).
Proof.
  intros Hm Hk s. unfold bind. specialize (Hm s).
  destruct (m s) as [[a|e] s1]; simpl in *; [|done].
  eapply R_trans; [exact Hm|apply Hk].
Qed.

Lemma preserves_try_except {A} (m : M S A) (h : exn -> M S A) :
  preserves R m -> (forall e, preserves R (h e)) -> preserves R (try_except m h).
Proof.
  intros Hm Hh s. unfold try_except. specialize (Hm s).
  destruct (m s) as [[a|e] s1]; simpl in *; [done|].
  eapply R_trans; [exact Hm|apply Hh].
Qed.

Lemma preserves_modify (f : S -> S) :
  (forall s, R s (f s)) -> preserves R (modify f).
Proof. intros Hf s. apply Hf. Qed.
End Preservation.

Lemma bind_Ok {S A B} (m : M S A) (k : A -> M S B) (s s' : S) (b : B) :
  bind m k s = (Ok b, s') ->
  exists a s1, m s = (Ok a, s1) /\ k a s1 = (Ok b, s').
Proof.
  unfold bind. destruct (m s) as [[a|e] s1]; [eauto|discriminate].
Qed.

(** ** The frame of a dry run *)

Lemma only_clock_read_refl (w : World) : only_clock_read w w.
Proof. by destruct w. Qed.

Lemma only_clock_read_trans (w1 w2 w3 : World) :
  only_clock_read w1 w2 -> only_clock_read w2 w3 -> only_clock_read w1 w3.
Proof.
  intros [E1 R1] [E2 R2]. split; [|congruence].
  rewrite E2 at 1. rewrite E1. reflexivity.
Qed.

Lemma only_clock_read_set_clock (w : World) (c : Clock) :
  readings c = readings (clock w) -> only_clock_read w (set_clock c w).
Proof. intros H. by split. Qed.

Lemma reads_only_bind {A B} (m : M World A) (k : A -> M World B) :
  reads_only m -> (forall a, reads_only (k a)) -> reads_only (bind m k).
Proof. apply preserves_bind, only_clock_read_trans. Qed.

Lemma reads_only_ret {A} (a : A) : reads_only (ret a).
Proof. apply preserves_ret, only_clock_read_refl. Qed.

Lemma reads_only_raise {A} (e : exn) : reads_only (raise (A:=A) e).
Proof. apply preserves_raise, only_clock_read_refl. Qed.

Lemma reads_only_lift {A} (o : outcome A) : reads_only (lift o).
Proof. apply preserves_lift, only_clock_read_refl. Qed.

Lemma reads_only_get : reads_only get.
Proof. apply preserves_get, only_clock_read_refl. Qed.

Lemma reads_only_with_clock {A} (m : M Clock A) :
  (forall c, readings (snd (m c)) = readings c) -> reads_only (with_clock m).
Proof.
  intros H w. unfold with_clock. specialize (H (clock w)).
  destruct (m (clock w)) as [r c]. by apply only_clock_read_set_clock.
Qed.

Lemma reads_only_format_recording (rec : Recording.t) :
  reads_only (with_clock (MarkdownFormatter.format_recording rec)).
Proof.
  apply reads_only_with_clock. intros c.
  pose proof (format_recording_cases rec c) as H.
  destruct (Datetime.fromisoformat (Recording.datetime rec)).
  - by destruct H as [md ->].
  - by rewrite H.
Qed.

Lemma reads_only_with_db {A} (f : Store -> M World A) :
  (forall db, reads_only (f db)) -> reads_only (StateTracker.with_db f).
Proof.
  intros H. unfold StateTracker.with_db. apply reads_only_bind; [apply reads_only_get|].
  intros w. destruct (state_db w); [apply H|apply reads_only_raise].
Qed.

Lemma reads_only_is_archived (source_dir : string) :
  reads_only (StateTracker.is_archived source_dir).
Proof. apply reads_only_with_db. intros db. apply reads_only_ret. Qed.

Lemma reads_only_get_last_run_timestamp : reads_only StateTracker.get_last_run_timestamp.
Proof.
  apply reads_only_with_db. intros db. destruct (StateTracker.max_run_at _).
  - apply reads_only_bind; [apply reads_only_lift|]. intros dt. apply reads_only_ret.
  - apply reads_only_ret.
Qed.

Lemma reads_only_git_init (repo_path : string) : reads_only (GitManager.__init__ repo_path).
Proof.
  unfold GitManager.__init__. apply reads_only_bind; [apply reads_only_get|].
  intros w. destruct (repo w); (apply reads_only_raise || apply reads_only_ret).
Qed.

Lemma reads_only_resolve_since (backfill : bool) (since_date : option string) :
  reads_only (resolve_since backfill since_date).
Proof.
  unfold resolve_since. destruct backfill; [apply reads_only_ret|].
  destruct (Py.truthy_opt since_date); [apply reads_only_ret|].
  apply reads_only_bind; [apply reads_only_get_last_run_timestamp|].
  intros [dt|]; apply reads_only_ret.
Qed.

Lemma reads_only_archive_attempt (rec : Recording.t) : reads_only (archive_attempt rec true).
Proof.
  unfold archive_attempt. apply reads_only_bind; [apply reads_only_format_recording|].
  intros md. apply reads_only_bind; [apply reads_only_lift|]. intros p. apply reads_only_ret.
Qed.

Lemma reads_only_archive_recording (rec : Recording.t) :
  reads_only (archive_recording rec true).
Proof.
  apply preserves_try_except; [apply only_clock_read_trans|
    apply reads_only_archive_attempt|]. intros e. apply reads_only_ret.
Qed.

Lemma reads_only_archive_each (recs : list Recording.t)
    (results : list ArchiveResult.t) (skipped : Z) :
  reads_only (archive_each recs true results skipped).
Proof.
  revert results skipped. induction recs as [|rec recs IH]; intros; simpl.
  - apply reads_only_ret.
  - apply reads_only_bind; [apply reads_only_is_archived|]. intros [|]; [apply IH|].
    apply reads_only_bind; [apply reads_only_archive_recording|]. intros r. apply IH.
Qed.

Lemma init_opened (w : World) : StateTracker.__init__ w = (Ok tt, opened w).
Proof.
  unfold StateTracker.__init__, opened, bind, get, modify, ret.
  by destruct (state_db w).
Qed.

Lemma dry_run_after_init (config : ArchiverConfig.t) (backfill : bool)
    (since_date modes_override : option string) (w : World) :
  only_clock_read (opened w)
    (snd (run_archiver config true backfill since_date modes_override w)).
Proof.
  unfold run_archiver.
  unfold bind at 1. rewrite init_opened. cbv beta iota.
  generalize (opened w). clear w. simpl negb. cbn [andb].
  repeat first
    [ apply reads_only_ret | apply reads_only_get | apply reads_only_lift | apply reads_only_git_init
    | apply reads_only_resolve_since | apply reads_only_archive_each
    | apply reads_only_bind; [|intros ?] ].
Qed.

Lemma is_archived_run (source_dir : string) (w : World) (db : Store) :
  state_db w = Some db ->
  StateTracker.is_archived source_dir w =
    (Ok (match archived_recordings db !! source_dir with
         | Some _ => true
         | None => false
         end), w).
Proof.
  intros H. unfold StateTracker.is_archived, StateTracker.with_db, bind, get, ret.
  by rewrite H.
Qed.

Lemma archive_recording_dry (rec : Recording.t) (w : World) :
  fst (archive_recording rec true w) = Ok (dry_result rec).
Proof.
  unfold archive_recording, try_except, archive_attempt, bind, with_clock, lift,
    ret, dry_result.
  pose proof (format_recording_cases rec (clock w)) as Hf.
  pose proof (compute_file_path_cases rec) as Hp.
  destruct (Datetime.fromisoformat (Recording.datetime rec)).
  - destruct Hf as [md ->]. destruct Hp as [p ->]. done.
  - rewrite Hf, Hp. done.
Qed.

Lemma Ok_pair_eq {A} (a : A) (x y : Z) : x = y -> Ok (a, x) = Ok (a, y).
Proof. by intros ->. Qed.

Lemma archive_each_dry (recs : list Recording.t)
    (results : list ArchiveResult.t) (skipped : Z) (w : World) (db : Store) :
  state_db w = Some db ->
  fst (archive_each recs true results skipped w) =
    Ok (results ++ map dry_result (List.filter (unarchived (Some db)) recs),
        skipped + Z.of_nat (length recs) -
        Z.of_nat (length (List.filter (unarchived (Some db)) recs))).
Proof.
  revert results skipped w.
  induction recs as [|rec recs IH]; intros results skipped w Hdb.
  - simpl. rewrite app_nil_r. apply Ok_pair_eq. lia.
  - cbn [archive_each]. unfold bind at 1.
    rewrite (is_archived_run _ w db Hdb). cbn [List.filter].
    destruct (archived_recordings db !! Recording.source_dir rec) eqn:El.
    + assert (Hu : unarchived (Some db) rec = false)
        by (unfold unarchived; cbn [rows]; by rewrite El).
      rewrite Hu, (IH _ _ w Hdb). apply Ok_pair_eq. cbn [length]. lia.
    + assert (Hu : unarchived (Some db) rec = true)
        by (unfold unarchived; cbn [rows]; by rewrite El).
      rewrite Hu. unfold bind at 1.
      pose proof (archive_recording_dry rec w) as Hr.
      pose proof (reads_only_archive_recording rec w) as [Hw _].
      destruct (archive_recording rec true w) as [[r|e] w1]; [|discriminate].
      simpl in Hr, Hw. injection Hr as ->.
      rewrite (IH _ _ w1) by (rewrite Hw; exact Hdb).
      rewrite <- app_assoc. cbn [map length app]. apply Ok_pair_eq. lia.
Qed.

Lemma opened_state_db (w : World) :
  state_db (opened w) = Some (default empty_store (state_db w)).
Proof. unfold opened. destruct (state_db w) eqn:E; [by rewrite E|done]. Qed.

Lemma opened_trace (w : World) :
  trace (opened w) =
  trace w ++ match state_db w with None => [EvStoreCreated] | Some _ => [] end.
Proof. unfold opened. destruct (state_db w); simpl; by rewrite ?app_nil_r. Qed.

Tactic Notation "bind_ok" hyp(H) "as" ident(a) ident(w) ident(H1) :=
  apply bind_Ok in H as (a & w & H1 & H).

(** C6, as the code has it: a dry run makes no commit, no push and no
    pull and writes no row, neither an archived recording nor a run: its
    one change to the world, the clock readings apart, is that opening
    the state database creates it, empty, when it is not there yet.  When
    the run returns, its results are one record for each scanned
    recording that has no row, in scan order, without a commit
    identifier: the intended path when the timestamp of the recording
    parses, a failure record when it does not. *)
Theorem dry_run_frame (config : ArchiverConfig.t) (backfill : bool)
    (since_date modes_override : option string) (w : World) :
  let out := run_archiver config true backfill since_date modes_override w in
  trace (snd out) =
    trace w ++ match state_db w with None => [EvStoreCreated] | Some _ => [] end /\
  state_db (snd out) = Some (default empty_store (state_db w)) /\
  commit_outcomes (snd out) = commit_outcomes w /\
  recordings_dir (snd out) = recordings_dir w /\
  repo (snd out) = repo w /\
  match fst out with
  | Ok summary =>
      exists since recordings,
        Scanner.scan (recordings_dir w) (resolve_modes config modes_override)
          (ArchiverConfig.filters_min_duration_ms config) since = Ok recordings /\
        ArchiveSummary.results summary =
          map dry_result (List.filter (unarchived (state_db w)) recordings) /\
        ArchiveSummary.total_recordings summary = Z.of_nat (length recordings)
  | Raise _ => True
  end.
Proof.
  intros out. subst out.
  pose proof (dry_run_after_init config backfill since_date modes_override w)
    as [Hw Hr].
  split; [rewrite Hw; apply opened_trace|].
  split; [rewrite Hw; apply opened_state_db|].
  split; [rewrite Hw; unfold opened; by destruct (state_db w)|].
  split; [rewrite Hw; unfold opened; by destruct (state_db w)|].
  split; [rewrite Hw; unfold opened; by destruct (state_db w)|].
  clear Hw Hr.
  destruct (run_archiver config true backfill since_date modes_override w)
    as [[summary|e] w'] eqn:E; [|done]. cbn [fst].
  unfold run_archiver in E.
  bind_ok E as u0 w0 Hinit. rewrite init_opened in Hinit.
  injection Hinit as <- <-.
  bind_ok E as u1 w1 Hgit.
  pose proof (reads_only_git_init (ArchiverConfig.repo_path config) (opened w)) as [Hg _].
  rewrite Hgit in Hg. cbn [snd] in Hg.
  bind_ok E as u2 w2 Hpull. cbn [negb] in Hpull. injection Hpull as <- <-.
  bind_ok E as since w3 Hsince.
  pose proof (reads_only_resolve_since backfill since_date w1) as [Hs _].
  rewrite Hsince in Hs. cbn [snd] in Hs.
  bind_ok E as wget w4 Hget. injection Hget as <- <-.
  bind_ok E as recordings w5 Hscan. unfold lift in Hscan.
  injection Hscan as Hscan <-.
  bind_ok E as processed w6 Hloop.
  bind_ok E as u3 w7 Hpush. cbn [negb andb] in Hpush. injection Hpush as <- <-.
  bind_ok E as u4 w8 Hrun. cbn [negb] in Hrun. injection Hrun as <- <-.
  injection E as <- <-.
  cbn [ArchiveSummary.results ArchiveSummary.total_recordings].
  assert (Hdb : state_db w3 = Some (default empty_store (state_db w))).
  { rewrite Hs, Hg. cbn. apply opened_state_db. }
  assert (Hdir : recordings_dir w3 = recordings_dir w).
  { rewrite Hs, Hg. cbn. unfold opened. by destruct (state_db w). }
  pose proof (archive_each_dry recordings [] 0 w3 _ Hdb) as Hres.
  rewrite Hloop in Hres. cbn [fst] in Hres. injection Hres as Hres.
  exists since, recordings. rewrite <- Hdir. split; [done|]. split; [|done].
  rewrite (surjective_pairing processed) in Hres. injection Hres as -> _.
  cbn [app]. f_equal. apply filter_ext. intros r. unfold unarchived. cbn [rows].
  by destruct (state_db w).
Qed.

(** ** Marks come after commits *)

Lemma commit_precedes_mark_quiet (t : list Event) :
  forallb (fun e => negb (is_mark e)) t = true -> commit_precedes_mark t.
Proof.
  intros H i sd row Hi. rewrite forallb_forall in H.
  apply list_elem_of_lookup_2, list_elem_of_In, H in Hi. done.
Qed.

Lemma commit_precedes_mark_app (t1 t2 : list Event) :
  commit_precedes_mark t1 -> commit_precedes_mark t2 ->
  commit_precedes_mark (t1 ++ t2).
Proof.
  intros H1 H2 i sd row Hi.
  destruct (decide (i < length t1)%nat) as [Hlt|Hge].
  - rewrite lookup_app_l in Hi by done.
    destruct (H1 i sd row Hi) as (j & c & sha & rec & dt & -> & Hj & ?).
    exists j, c, sha, rec, dt. split; [done|].
    rewrite lookup_app_l by lia. done.
  - rewrite lookup_app_r in Hi by lia.
    destruct (H2 _ sd row Hi) as (j & c & sha & rec & dt & Hij & Hj & ?).
    exists (length t1 + j)%nat, c, sha, rec, dt. split; [lia|].
    rewrite lookup_app_r by lia.
    replace (length t1 + j - length t1)%nat with j by lia. done.
Qed.

(** What holds of a trace holds of what had happened at any earlier
    point of it. *)
Lemma commit_precedes_mark_take (k : nat) (t : list Event) :
  commit_precedes_mark t -> commit_precedes_mark (take k t).
Proof.
  intros H i sd row Hi. apply lookup_take_Some in Hi as [Hi Hlt].
  destruct (H i sd row Hi) as (j & c & sha & rec & dt & -> & Hj & ?).
  exists j, c, sha, rec, dt. split; [done|].
  rewrite lookup_take_lt by lia. done.
Qed.

Lemma replay_quiet (t : list Event) (table : gmap string ArchiveRecord.t) :
  forallb (fun e => negb (is_mark e)) t = true -> replay t table = table.
Proof.
  revert table. induction t as [|e t IH]; intros table H; [done|].
  cbn in H. apply andb_prop in H as [He Ht]. unfold replay. cbn [foldl].
  fold (replay t (apply_mark table e)). rewrite IH by done.
  by destruct e.
Qed.

(** A row of a replayed table was in the table or is the row of a mark. *)
Lemma replay_lookup (t : list Event) (table : gmap string ArchiveRecord.t)
    (source_dir : string) (row : ArchiveRecord.t) :
  replay t table !! source_dir = Some row ->
  table !! source_dir = Some row \/
  exists i, t !! i = Some (EvMarkArchived source_dir row).
Proof.
  revert table. induction t as [|e t IH]; intros table H; [by left|].
  unfold replay in H. cbn [foldl] in H. fold (replay t (apply_mark table e)) in H.
  destruct (IH _ H) as [Hin|[i Hi]]; [|right; by exists (S i)].
  destruct e as [| | |sd r| |]; cbn [apply_mark] in Hin; try by left.
  rewrite lookup_insert in Hin. case_decide as Hsd; [|by left].
  injection Hin as ->. subst sd. right. by exists 0%nat.
Qed.

Lemma marks_after_commits_refl (w : World) : marks_after_commits w w.
Proof.
  exists []. rewrite app_nil_r. split; [done|]. split; [|done].
  by apply commit_precedes_mark_quiet.
Qed.

Lemma marks_after_commits_trans (w1 w2 w3 : World) :
  marks_after_commits w1 w2 -> marks_after_commits w2 w3 ->
  marks_after_commits w1 w3.
Proof.
  intros (n1 & T1 & C1 & R1) (n2 & T2 & C2 & R2).
  exists (n1 ++ n2). split; [by rewrite T2, T1, app_assoc|].
  split; [by apply commit_precedes_mark_app|].
  rewrite R2, R1. unfold replay. by rewrite foldl_app.
Qed.

(** A step that writes no mark and leaves the rows alone. *)
Lemma marks_after_commits_quiet (w w' : World) (new : list Event) :
  trace w' = trace w ++ new ->
  forallb (fun e => negb (is_mark e)) new = true ->
  rows (state_db w') = rows (state_db w) ->
  marks_after_commits w w'.
Proof.
  intros T Q R. exists new. split; [done|].
  split; [by apply commit_precedes_mark_quiet|].
  by rewrite replay_quiet.
Qed.

Lemma marks_after_commits_clock (w w' : World) :
  only_clock_read w w' -> marks_after_commits w w'.
Proof.
  intros [E _]. apply (marks_after_commits_quiet w w' []).
  - rewrite E. cbn. by rewrite app_nil_r.
  - done.
  - by rewrite E.
Qed.

Lemma orderly_bind {A B} (m : M World A) (k : A -> M World B) :
  orderly m -> (forall a, orderly (k a)) -> orderly (bind m k).
Proof. apply preserves_bind, marks_after_commits_trans. Qed.

Lemma orderly_ret {A} (a : A) : orderly (ret a).
Proof. apply preserves_ret, marks_after_commits_refl. Qed.

Lemma orderly_reads_only {A} (m : M World A) : reads_only m -> orderly m.
Proof. intros H w. apply marks_after_commits_clock, H. Qed.

Lemma orderly_init : orderly StateTracker.__init__.
Proof.
  intros w. rewrite init_opened. cbn [snd].
  apply (marks_after_commits_quiet _ _
           match state_db w with None => [EvStoreCreated] | Some _ => [] end).
  - apply opened_trace.
  - by destruct (state_db w).
  - rewrite opened_state_db. by destruct (state_db w).
Qed.

Lemma orderly_ensure_up_to_date : orderly GitManager.ensure_up_to_date.
Proof.
  intros w. unfold GitManager.ensure_up_to_date, bind, get, modify, raise.
  destruct (pull_outcome w); cbn [snd];
    by eapply (marks_after_commits_quiet _ _ [_]).
Qed.

Lemma orderly_push_to_remote : orderly GitManager.push_to_remote.
Proof.
  intros w. unfold GitManager.push_to_remote, bind, get, modify, raise, ret.
  destruct (push_outcome w); cbn [snd];
    by eapply (marks_after_commits_quiet _ _ [_]).
Qed.

Lemma orderly_update_last_run (p a f : Z) :
  orderly (StateTracker.update_last_run p a f).
Proof.
  intros w. unfold StateTracker.update_last_run, StateTracker.with_db, bind, get,
    modify, raise, with_clock, Clock_now.
  destruct (state_db w) as [db|] eqn:E; cbn [snd].
  - eapply (marks_after_commits_quiet _ _ [_]); cbn; try done.
    by rewrite E.
  - apply marks_after_commits_refl.
Qed.

(** What one attempt outside a dry run leaves behind: nothing (the
    timestamp does not parse), a commit that failed, a commit with no
    table to mark it in, or a commit followed by its mark. *)
Lemma archive_attempt_cases (rec : Recording.t) (w : World) :
  let out := archive_attempt rec false w in
  (exists e, fst out = Raise e /\ only_clock_read w (snd out)) \/
  (exists e p md dt o,
     fst out = Raise e /\
     trace (snd out) = trace w ++ [EvWriteCommit p md (commit_message rec dt) o] /\
     state_db (snd out) = state_db w /\
     (Py.truthy_opt o = false \/ state_db w = None)) \/
  (exists p md dt sha row db,
     fst out = Ok (ArchiveResult.mk true (Recording.source_dir rec) None
                     (Some p) (Some sha)) /\
     trace (snd out) =
       trace w ++ [EvWriteCommit p md (commit_message rec dt) (Some sha);
                   EvMarkArchived (Recording.source_dir rec) row] /\
     sha <> EmptyString /\
     ArchiveRecord.commit_sha row = Some sha /\
     ArchiveRecord.file_path row = p /\
     state_db w = Some db /\
     state_db (snd out) =
       Some (mkStore (<[Recording.source_dir rec := row]> (archived_recordings db))
                     (archive_runs db))).
Proof.
  intros out. subst out.
  pose proof (format_recording_cases rec (clock w)) as Hf.
  pose proof (compute_file_path_cases rec) as Hp.
  unfold archive_attempt, with_clock, fromisoformat_exn,
    GitManager.write_and_commit, bind, lift, get, modify, ret, raise.
  destruct (Datetime.fromisoformat (Recording.datetime rec)) as [dt|].
  2:{ rewrite Hf. left. eexists. split; [reflexivity|]. cbn [snd].
      by apply only_clock_read_set_clock. }
  destruct Hf as [md ->]. destruct Hp as [p ->]. right.
  cbn [snd fst commit_outcomes set_clock set_commit_outcomes log_event].
  set (o := match commit_outcomes w with [] => None | o :: _ => o end).
  destruct (Py.truthy_opt o) eqn:Ho.
  2:{ left. exists (Exception "Failed to commit recording"), p, md, dt, o.
      cbn. auto. }
  destruct (truthy_opt_Some o Ho) as (sha & Eo & Hsha).
  unfold StateTracker.mark_archived, StateTracker.with_db, bind, get, modify,
    ret, raise, with_clock, Clock_now.
  cbn [snd fst state_db set_clock set_commit_outcomes log_event set_state_db
       clock trace].
  destruct (state_db w) as [db|] eqn:Edb.
  - right. rewrite Eo. do 6 eexists.
    cbn [fst snd trace state_db log_event set_state_db set_clock
         set_commit_outcomes].
    split; [reflexivity|]. split; [by rewrite <- app_assoc|].
    repeat split; try done.
  - left. exists (Exception "no such table"), p, md, dt, o.
    cbn. auto.
Qed.

Lemma orderly_archive_attempt (rec : Recording.t) (dry_run : bool) :
  orderly (archive_attempt rec dry_run).
Proof.
  destruct dry_run; [apply orderly_reads_only, reads_only_archive_attempt|].
  intros w.
  destruct (archive_attempt_cases rec w) as
    [(e & _ & H)|[(e & p & md & dt & o & _ & T & D & _)|
     (p & md & dt & sha & row & db & _ & T & Hsha & Hrow & Hp & D & D')]].
  - by apply marks_after_commits_clock.
  - apply (marks_after_commits_quiet _ _ _ T); [done|by rewrite D].
  - eexists. split; [exact T|]. split.
    + intros [|[|i]] sd r Hi; try discriminate.
      injection Hi as <- <-.
      exists 0%nat, md, sha, rec, dt. rewrite Hp. done.
    + by rewrite D', D.
Qed.

Lemma orderly_archive_recording (rec : Recording.t) (dry_run : bool) :
  orderly (archive_recording rec dry_run).
Proof.
  apply preserves_try_except; [apply marks_after_commits_trans|
    apply orderly_archive_attempt|]. intros e. apply orderly_ret.
Qed.

Lemma orderly_archive_each (recs : list Recording.t) (dry_run : bool)
    (results : list ArchiveResult.t) (skipped : Z) :
  orderly (archive_each recs dry_run results skipped).
Proof.
  revert results skipped. induction recs as [|rec recs IH]; intros; simpl.
  - apply orderly_ret.
  - apply orderly_bind; [apply orderly_reads_only, reads_only_is_archived|].
    intros [|]; [apply IH|].
    apply orderly_bind; [apply orderly_archive_recording|]. intros r. apply IH.
Qed.

Lemma orderly_run_archiver (config : ArchiverConfig.t)
    (dry_run backfill : bool) (since_date modes_override : option string) :
  orderly (run_archiver config dry_run backfill since_date modes_override).
Proof.
  unfold run_archiver.
  repeat first
    [ apply orderly_ret | apply orderly_init | apply orderly_archive_each
    | apply orderly_ensure_up_to_date | apply orderly_push_to_remote
    | apply orderly_update_last_run
    | apply orderly_reads_only;
      first [ apply reads_only_get | apply reads_only_lift | apply reads_only_git_init
            | apply reads_only_resolve_since ]
    | match goal with |- orderly (if ?b then _ else _) => destruct b end
    | apply orderly_bind; [|intros ?] ].
Qed.

(** C7: in a run that is no dry run, whatever git and the clock do and
    wherever the run stops, each mark-as-archived in the trace of the run
    comes right after a successful commit of the same recording: the
    commit of the path the row records, which returned the non-empty
    identifier the row records.  This holds of the events up to any
    point [k] of the run; the table at that point is the table before the
    run with the marks up to there written to it, so each of its rows was
    there before the run or was written by a mark that follows its
    commit; and the table the run leaves is the one all its marks give. *)
Theorem mark_only_after_commit (config : ArchiverConfig.t)
    (backfill : bool) (since_date modes_override : option string) (w : World) :
  exists new : list Event,
    trace (snd (run_archiver config false backfill since_date modes_override w)) =
      trace w ++ new /\
    (forall k : nat, commit_precedes_mark (take k new)) /\
    (forall (k : nat) (source_dir : string) (row : ArchiveRecord.t),
       replay (take k new) (rows (state_db w)) !! source_dir = Some row ->
       rows (state_db w) !! source_dir = Some row \/
       exists i, take k new !! i = Some (EvMarkArchived source_dir row)) /\
    rows (state_db (snd (run_archiver config false backfill since_date
                           modes_override w))) =
      replay new (rows (state_db w)).
Proof.
  destruct (orderly_run_archiver config false backfill since_date
              modes_override w) as (new & T & C & R).
  exists new. split; [exact T|]. split; [|split; [|exact R]].
  - intros k. by apply commit_precedes_mark_take.
  - intros k sd row. apply replay_lookup.
Qed.

(** ** Every recording gets its result *)

Lemma archive_recording_returns (rec : Recording.t) (dry_run : bool) (w : World) :
  exists r,
    fst (archive_recording rec dry_run w) = Ok r /\
    snd (archive_recording rec dry_run w) = snd (archive_attempt rec dry_run w) /\
    ArchiveResult.source_dir r = Recording.source_dir rec /\
    match fst (archive_attempt rec dry_run w) with
    | Ok r' => r = r' /\ ArchiveResult.success r = true
    | Raise e =>
        r = failure_result rec e /\ ArchiveResult.success r = false /\
        ArchiveResult.error r = Some (exn_str e)
    end.
Proof.
  unfold archive_recording, try_except.
  destruct (archive_attempt rec dry_run w) as [[r|e] w1] eqn:E; cbn [fst snd].
  - exists r. repeat split; try done.
    + revert E. unfold archive_attempt, bind, ret, raise.
      repeat match goal with
             | |- context [match ?x with _ => _ end] => destruct x
             end; intros [= <- _]; done.
    + revert E. unfold archive_attempt, bind, ret, raise.
      repeat match goal with
             | |- context [match ?x with _ => _ end] => destruct x
             end; intros [= <- _]; done.
  - by eexists.
Qed.

Lemma archive_recording_keeps_db (rec : Recording.t) (dry_run : bool) (w : World) :
  is_Some (state_db w) ->
  is_Some (state_db (snd (archive_recording rec dry_run w))).
Proof.
  intros Hdb.
  destruct (archive_recording_returns rec dry_run w) as (_ & _ & -> & _).
  destruct dry_run.
  - pose proof (reads_only_archive_attempt rec w) as [-> _]. done.
  - destruct (archive_attempt_cases rec w) as
      [(e & _ & [-> _])|[(e & p & md & dt & o & _ & _ & -> & _)|
       (p & md & dt & sha & row & db & _ & _ & _ & _ & _ & _ & ->)]]; done.
Qed.

(** C8: over an opened state database the loop over the recordings
    returns for every list of recordings and every behaviour of git: it
    yields one result for each recording that was not skipped, in order;
    [archive_recording] always returns, with a failure result that
    carries the text of the exception when the attempt raised (a failed
    commit among them); and after an attempt that raised the loop goes on
    with the remaining recordings. *)
Theorem batch_isolated (recs : list Recording.t) (dry_run : bool)
    (results : list ArchiveResult.t) (skipped : Z) (w : World) :
  is_Some (state_db w) ->
  (exists new_results skipped' w',
     archive_each recs dry_run results skipped w =
       (Ok (results ++ new_results, skipped'), w') /\
     Z.of_nat (length new_results) + skipped' = skipped + Z.of_nat (length recs) /\
     sublist (map ArchiveResult.source_dir new_results)
             (map Recording.source_dir recs)) /\
  (forall rec w0,
     exists r,
       fst (archive_recording rec dry_run w0) = Ok r /\
       ArchiveResult.source_dir r = Recording.source_dir rec /\
       match fst (archive_attempt rec dry_run w0) with
       | Ok r' => r = r' /\ ArchiveResult.success r = true
       | Raise e =>
           r = failure_result rec e /\ ArchiveResult.success r = false /\
           ArchiveResult.error r = Some (exn_str e)
       end) /\
  (forall rec rest e w1,
     unarchived (state_db w) rec = true ->
     archive_attempt rec dry_run w = (Raise e, w1) ->
     archive_each (rec :: rest) dry_run results skipped w =
     archive_each rest dry_run (results ++ [failure_result rec e]) skipped w1).
Proof.
  intros Hdb. split; [|split].
  - revert results skipped w Hdb.
    induction recs as [|rec recs IH]; intros results skipped w Hdb.
    + exists [], skipped, w. rewrite app_nil_r. cbn. split; [done|].
      split; [lia|constructor].
    + cbn [archive_each]. unfold bind at 1.
      destruct Hdb as [db Hdb]. rewrite (is_archived_run _ w db Hdb).
      destruct (archived_recordings db !! Recording.source_dir rec).
      * destruct (IH results (skipped + 1) w) as (nr & sk & w' & E & Hc & Hs);
          [by eexists|].
        exists nr, sk, w'. split; [done|]. split; [cbn [length]; lia|].
        cbn [map]. by apply sublist_cons.
      * unfold bind at 1.
        destruct (archive_recording_returns rec dry_run w) as (r & Hr & _ & Hsd & _).
        pose proof (archive_recording_keeps_db rec dry_run w) as Hk.
        destruct (archive_recording rec dry_run w) as [o w1]. cbn [fst snd] in *.
        subst o.
        destruct (IH (results ++ [r]) skipped w1) as (nr & sk & w' & E & Hc & Hs);
          [apply Hk; by eexists|].
        exists (r :: nr), sk, w'. rewrite <- app_assoc in E. split; [done|].
        split; [cbn [length]; lia|]. cbn [map]. rewrite Hsd. by apply sublist_skip.
  - intros rec w0.
    destruct (archive_recording_returns rec dry_run w0) as (r & ? & _ & ? & ?).
    by exists r.
  - intros rec rest e w1 Hu E. cbn [archive_each]. unfold bind at 1.
    destruct Hdb as [db Hdb]. rewrite (is_archived_run _ w db Hdb).
    unfold unarchived in Hu. rewrite Hdb in Hu. cbn [rows] in Hu.
    destruct (archived_recordings db !! Recording.source_dir rec); [done|].
    unfold bind at 1, archive_recording, try_except. rewrite E. done.
Qed.

(** ** The counts of a summary *)

Lemma count_success_failed (results : list ArchiveResult.t) :
  count_success results + count_failed results = Z.of_nat (length results).
Proof.
  unfold count_success, count_failed.
  induction results as [|r results IH]; [done|]. cbn [List.filter].
  destruct (ArchiveResult.success r); cbn [negb length]; lia.
Qed.

Lemma archive_each_counts (recs : list Recording.t) (dry_run : bool)
    (results results' : list ArchiveResult.t) (skipped skipped' : Z)
    (w w' : World) :
  archive_each recs dry_run results skipped w = (Ok (results', skipped'), w') ->
  Z.of_nat (length results') + skipped' =
  Z.of_nat (length results) + skipped + Z.of_nat (length recs).
Proof.
  revert results skipped w.
  induction recs as [|rec recs IH]; intros results skipped w E.
  - injection E as <- <- _. cbn. lia.
  - cbn [archive_each] in E.
    apply bind_Ok in E as ([|] & w1 & _ & E).
    + apply IH in E. cbn [length]. lia.
    + apply bind_Ok in E as (r & w2 & _ & E).
      apply IH in E. rewrite length_app in E. cbn [length] in *. lia.
Qed.

(** C10: in every summary a run returns, [archived_count] plus
    [failed_count] is the number of results, and [total_recordings] is
    [archived_count] plus [failed_count] plus [skipped_count]. *)
Theorem summary_counts (config : ArchiverConfig.t) (dry_run backfill : bool)
    (since_date modes_override : option string) (w w' : World)
    (summary : ArchiveSummary.t) :
  run_archiver config dry_run backfill since_date modes_override w =
    (Ok summary, w') ->
  ArchiveSummary.archived_count summary + ArchiveSummary.failed_count summary =
    Z.of_nat (length (ArchiveSummary.results summary)) /\
  ArchiveSummary.total_recordings summary =
    ArchiveSummary.archived_count summary + ArchiveSummary.failed_count summary +
    ArchiveSummary.skipped_count summary.
Proof.
  intros E. unfold run_archiver in E.
  bind_ok E as u0 w0 Hinit.
  bind_ok E as u1 w1 Hgit.
  bind_ok E as u2 w2 Hpull.
  bind_ok E as since w3 Hsince.
  bind_ok E as wget w4 Hget.
  bind_ok E as recordings w5 Hscan.
  bind_ok E as processed w6 Hloop.
  bind_ok E as u3 w7 Hpush.
  bind_ok E as u4 w8 Hrun.
  injection E as <- _. cbn.
  rewrite (surjective_pairing processed) in Hloop.
  apply archive_each_counts in Hloop. cbn [length] in Hloop.
  pose proof (count_success_failed processed.1). lia.
Qed.

End Runs.

(** ** The properties at work on a first run *)

Lemma batch_isolated_witness :
  is_Some (state_db (opened (Samples.fresh []))) /\
  exists new_results skipped' w',
    Main.archive_each [Samples.undated; Samples.meeting] false [] 0
      (opened (Samples.fresh [])) =
      (Ok ([] ++ new_results, skipped'), w') /\
    Z.of_nat (length new_results) + skipped' = 0 + Z.of_nat 2 /\
    sublist (map ArchiveResult.source_dir new_results)
            (map Recording.source_dir [Samples.undated; Samples.meeting]).
Proof.
  assert (H : is_Some (state_db (opened (Samples.fresh [])))) by (by eexists).
  split; [exact H|].
  exact (proj1 (batch_isolated [Samples.undated; Samples.meeting] false [] 0
                  (opened (Samples.fresh [])) H)).
Defined.

Lemma summary_counts_witness :
  exists summary w',
    Main.run_archiver Samples.config false false None None
      (Samples.fresh
         [Scanner.Dir "1770978720" (Scanner.Valid Samples.undated_meta);
          Scanner.Dir "1770978710" (Scanner.Valid Samples.MEETING_META)]) =
      (Ok summary, w') /\
    ArchiveSummary.archived_count summary = 1 /\
    ArchiveSummary.failed_count summary = 1 /\
    (ArchiveSummary.archived_count summary +
     ArchiveSummary.failed_count summary =
       Z.of_nat (length (ArchiveSummary.results summary)) /\
     ArchiveSummary.total_recordings summary =
       ArchiveSummary.archived_count summary +
       ArchiveSummary.failed_count summary +
       ArchiveSummary.skipped_count summary).
Proof.
  destruct (Main.run_archiver Samples.config false false None None
              (Samples.fresh
                 [Scanner.Dir "1770978720" (Scanner.Valid Samples.undated_meta);
                  Scanner.Dir "1770978710" (Scanner.Valid Samples.MEETING_META)]))
    as [[summary|e] w'] eqn:E; [|vm_compute in E; discriminate].
  exists summary, w'. split; [reflexivity|].
  pose proof (summary_counts _ _ _ _ _ _ _ _ E) as H.
  vm_compute in E. injection E as <- <-.
  split; [reflexivity|]. split; [reflexivity|]. exact H.
Defined.

(** C6 as stated fails on a first run: the dry run leaves a state
    database where there was none, and for a recording whose timestamp
    does not parse its result is a failure record with no path. *)
Lemma dry_run_creates_store :
  state_db
    (Samples.fresh
       [Scanner.Dir "1770978720" (Scanner.Valid Samples.undated_meta)]) = None /\
  state_db
    (snd (Main.run_archiver Samples.config true false None None
            (Samples.fresh
               [Scanner.Dir "1770978720" (Scanner.Valid Samples.undated_meta)]))) =
    Some empty_store /\
  exists summary,
    fst (Main.run_archiver Samples.config true false None None
           (Samples.fresh
              [Scanner.Dir "1770978720" (Scanner.Valid Samples.undated_meta)])) =
      Ok summary /\
    ArchiveSummary.results summary =
      [ArchiveResult.mk false "1770978720"
         (Some "Invalid isoformat string: 'yesterday'") None None].
Proof.
  split; [reflexivity|]. split; [vm_compute; reflexivity|].
  eexists. split; vm_compute; reflexivity.
Qed.

(* ===================================================================== *)
(** * Further properties *)
(* ===================================================================== *)

(** ** The directory listing *)

Section Listing.
Import Scanner.

Lemma parse_entries_app (a b : list entry) :
  parse_entries (a ++ b) = parse_entries a ++ parse_entries b.
Proof.
  induction a as [|[n|n [| |m]] a IH]; cbn [parse_entries app]; by rewrite ?IH.
Qed.

Lemma parse_entries_In (entries : list entry) (r : Recording.t) :
  In r (parse_entries entries) <->
  exists name meta, In (Dir name (Valid meta)) entries /\ r = Recording_of name meta.
Proof.
  induction entries as [|[n|n [| |m]] es IH]; cbn [parse_entries In].
  - split; [done|]. by intros (? & ? & [] & _).
  - rewrite IH. split.
    + intros (n' & m' & H & E). eauto.
    + intros (n' & m' & [H|H] & E); [done|eauto].
  - rewrite IH. split.
    + intros (n' & m' & H & E). eauto.
    + intros (n' & m' & [H|H] & E); [done|eauto].
  - rewrite IH. split.
    + intros (n' & m' & H & E). eauto.
    + intros (n' & m' & [H|H] & E); [done|eauto].
  - rewrite IH. split.
    + intros [<-|(n' & m' & H & E)]; eauto.
    + intros (n' & m' & [H|H] & E); [injection H as <- <-; by left|right; eauto].
Qed.

(** X1: the loop over the directory yields one recording for each
    sub-directory whose [meta.json] parses, named after the directory, in
    the order of the listing.  A plain file, a directory without
    [meta.json] and a directory whose [meta.json] is rejected are skipped
    without an error and change nothing about the entries around them. *)
Theorem parse_entries_spec (before after : list entry) :
  (forall name,
     parse_entries (before ++ File name :: after) =
       parse_entries before ++ parse_entries after) /\
  (forall name,
     parse_entries (before ++ Dir name Missing :: after) =
       parse_entries before ++ parse_entries after) /\
  (forall name,
     parse_entries (before ++ Dir name Malformed :: after) =
       parse_entries before ++ parse_entries after) /\
  (forall name meta,
     parse_entries (before ++ Dir name (Valid meta) :: after) =
       parse_entries before ++ Recording_of name meta :: parse_entries after) /\
  (forall r,
     In r (parse_entries before) <->
     exists name meta,
       In (Dir name (Valid meta)) before /\ r = Recording_of name meta).
Proof.
  repeat split; intros; rewrite ?parse_entries_app; try done;
    by apply parse_entries_In.
Qed.

End Listing.

(** ** What a scan returns *)

Section ScanOrder.
Import Scanner.

Lemma filter_since_inv (since_dt : Datetime.datetime) (l kept : list Recording.t) :
  filter_since since_dt l = Ok kept ->
  (forall r, In r l -> is_Some (Datetime.fromisoformat (Recording.datetime r))) /\
  kept = List.filter (not_before since_dt) l.
Proof.
  revert kept. induction l as [|x l IH]; intros kept; cbn [filter_since].
  - intros [= <-]. split; [by intros ? []|done].
  - unfold fromisoformat_exn. cbn [List.filter].
    destruct (Datetime.fromisoformat (Recording.datetime x)) as [dt|] eqn:E;
      [|done].
    destruct (filter_since since_dt l) as [k|e]; [|done].
    destruct (IH k eq_refl) as [Hp ->]. intros [= <-]. split.
    + intros r [<-|Hr]; [by rewrite E|by apply Hp].
    + assert (not_before since_dt x = Datetime.geb dt since_dt) as ->
        by (unfold not_before; by rewrite E).
      done.
Qed.

(** What a scan that returns has returned. *)
Lemma scan_Ok_inv (entries : list entry) (modes : option (list string))
    (min_duration_ms : Z) (since : option string) (out : list Recording.t) :
  scan (Some entries) modes min_duration_ms since = Ok out ->
  exists bound,
    since_bound since bound /\
    (bound <> None ->
     forall r, In r (parse_entries entries) ->
       mode_acceptedb modes r = true ->
       duration_acceptedb min_duration_ms r = true ->
       is_Some (Datetime.fromisoformat (Recording.datetime r))) /\
    out = sort_by_datetime
            (List.filter (accepted modes min_duration_ms bound)
                         (parse_entries entries)).
Proof.
  unfold scan.
  rewrite filter_modes_eq, filter_duration_eq, List_filter_andb.
  destruct since as [[|c s]|]; cbn [Py.truthy_opt Py.truthy default from_option id].
  - intros [= <-]. exists None. split; [constructor|]. split; [done|].
    f_equal. apply filter_ext. intros r. unfold accepted. simpl.
    by rewrite andb_true_r.
  - unfold fromisoformat_exn at 1.
    destruct (Datetime.fromisoformat (String c s)) as [since_dt|] eqn:Es;
      [|intros [=]].
    cbv beta iota.
    match goal with
    | |- context [filter_since since_dt ?l] =>
        destruct (filter_since since_dt l) as [kept|e] eqn:Ef; [|intros [=]]
    end.
    intros [= <-]. apply filter_since_inv in Ef as [Hp ->].
    exists (Some since_dt). split; [by constructor|]. split.
    + intros _ r Hr Hm Hd. apply Hp, filter_In. by rewrite Hm, Hd.
    + by rewrite List_filter_andb.
  - intros [= <-]. exists None. split; [constructor|]. split; [done|].
    f_equal. apply filter_ext. intros r. unfold accepted. simpl.
    by rewrite andb_true_r.
Qed.

Lemma since_bound_fun (since : option string) (b1 b2 : option Datetime.datetime) :
  since_bound since b1 -> since_bound since b2 -> b1 = b2.
Proof.
  intros H1 H2. destruct H1; inversion H2; subst; try done. congruence.
Qed.

Lemma List_filter_sublist {A} (f : A -> bool) (l : list A) :
  sublist (List.filter f l) l.
Proof.
  induction l as [|x l IH]; cbn [List.filter]; [constructor|].
  destruct (f x); by constructor.
Qed.

Lemma List_filter_comm {A} (f g : A -> bool) (l : list A) :
  List.filter f (List.filter g l) = List.filter g (List.filter f l).
Proof.
  rewrite !List_filter_andb. apply filter_ext. intros x. apply andb_comm.
Qed.

(** ** An unparseable bound *)


(** ** The sort is stable *)

Lemma insert_has_datetime (t : string) (r : Recording.t) (l : list Recording.t) :
  List.filter (has_datetime t) (insert_by_datetime r l) =
  List.filter (has_datetime t) (r :: l).
Proof.
  induction l as [|x l IH]; [done|]. cbn [insert_by_datetime].
  destruct (String.leb (Recording.datetime r) (Recording.datetime x)) eqn:E;
    [done|].
  cbn [List.filter] in *. rewrite IH.
  destruct (has_datetime t r) eqn:Er; [|done].
  destruct (has_datetime t x) eqn:Ex; [|done].
  unfold has_datetime in Er, Ex.
  apply String.eqb_eq in Er, Ex. rewrite Er, Ex in E.
  unfold String.leb in E.
  assert (String.compare t t = Eq) as Et.
  { clear. induction t as [|c t IH]; [done|]. simpl.
    unfold Ascii.compare. by rewrite N.compare_refl. }
  by rewrite Et in E.
Qed.

Lemma sort_has_datetime (t : string) (l : list Recording.t) :
  List.filter (has_datetime t) (sort_by_datetime l) =
  List.filter (has_datetime t) l.
Proof.
  induction l as [|x l IH]; [done|].
  change (sort_by_datetime (x :: l))
    with (insert_by_datetime x (sort_by_datetime l)).
  rewrite insert_has_datetime. cbn [List.filter]. by rewrite IH.
Qed.

(** X3: the sort of the scan is stable.  The recordings of the result that
    share the timestamp text [t] appear in the order of the directory
    listing. *)
Theorem scan_stable (root : option (list entry)) (modes : option (list string))
    (min_duration_ms : Z) (since : option string) (out : list Recording.t)
    (t : string) :
  scan root modes min_duration_ms since = Ok out ->
  sublist (List.filter (has_datetime t) out) (parsed root).
Proof.
  destruct root as [entries|]; cbn [parsed].
  2:{ intros [= <-]. constructor. }
  intros E. apply scan_Ok_inv in E as (bound & _ & _ & ->).
  rewrite sort_has_datetime.
  etrans; [apply List_filter_sublist|apply List_filter_sublist].
Qed.

End ScanOrder.

Lemma scan_stable_witness :
  exists out,
    Scanner.scan
      (Some [Scanner.Dir "b" (Scanner.Valid Samples.MEETING_META);
             Scanner.Dir "c" (Scanner.Valid Samples.old_meta);
             Scanner.Dir "a" (Scanner.Valid Samples.MEETING_META)])
      None 0 None = Ok out /\
    map Recording.source_dir out = ["c"; "b"; "a"] /\
    sublist (List.filter (has_datetime "2026-02-13T10:31:50") out)
      [Scanner.Recording_of "b" Samples.MEETING_META;
       Scanner.Recording_of "c" Samples.old_meta;
       Scanner.Recording_of "a" Samples.MEETING_META].
Proof.
  eexists. split; [reflexivity|]. split; [reflexivity|].
  exact (scan_stable
    (Some [Scanner.Dir "b" (Scanner.Valid Samples.MEETING_META);
           Scanner.Dir "c" (Scanner.Valid Samples.old_meta);
           Scanner.Dir "a" (Scanner.Valid Samples.MEETING_META)])
    None 0 None _ "2026-02-13T10:31:50" eq_refl).
Defined.


(** ** The order of the timestamp texts *)

Section TextOrder.

Lemma ascii_compare_refl (c : ascii) : Ascii.compare c c = Eq.
Proof. unfold Ascii.compare. apply N.compare_refl. Qed.

Lemma string_compare_refl (s : string) : String.compare s s = Eq.
Proof.
  induction s as [|c s IH]; [done|]. simpl. by rewrite ascii_compare_refl.
Qed.

Lemma string_compare_trans (c : comparison) (s1 s2 s3 : string) :
  String.compare s1 s2 = c -> String.compare s2 s3 = c ->
  String.compare s1 s3 = c.
Proof.
  revert c s2 s3.
  induction s1 as [|a s1 IH]; intros c [|b s2] [|d s3]; simpl; try congruence.
  unfold Ascii.compare.
  destruct (N.compare_spec (N_of_ascii a) (N_of_ascii b)) as [E1|E1|E1];
    destruct (N.compare_spec (N_of_ascii b) (N_of_ascii d)) as [E2|E2|E2];
    intros H1 H2; try congruence.
  - rewrite E1, E2, N.compare_refl. by apply (IH c s2 s3).
  - subst c. rewrite E1. by apply N.compare_lt_iff in E2 as ->.
  - subst c. rewrite E1. by apply N.compare_gt_iff in E2 as ->.
  - subst c. rewrite <- E2. by apply N.compare_lt_iff in E1 as ->.
  - subst c.
    assert ((N_of_ascii a ?= N_of_ascii d)%N = Lt) as ->
      by (apply N.compare_lt_iff; lia).
    done.
  - subst c. rewrite <- E2. by apply N.compare_gt_iff in E1 as ->.
  - subst c.
    assert ((N_of_ascii a ?= N_of_ascii d)%N = Gt) as ->
      by (apply N.compare_gt_iff; lia).
    done.
Qed.

Lemma string_leb_trans (s1 s2 s3 : string) :
  String.leb s1 s2 = true -> String.leb s2 s3 = true -> String.leb s1 s3 = true.
Proof.
  unfold String.leb.
  destruct (String.compare s1 s2) eqn:E1; [|
    destruct (String.compare s2 s3) eqn:E2; [| |done]|done].
  - apply String.compare_eq_iff in E1 as ->. done.
  - apply String.compare_eq_iff in E2 as ->. by rewrite E1.
  - by rewrite (string_compare_trans Lt s1 s2 s3 E1 E2).
Qed.

Lemma datetime_le_trans (a b c : Recording.t) :
  datetime_le a b -> datetime_le b c -> datetime_le a c.
Proof. apply string_leb_trans. Qed.

Lemma sort_by_datetime_strongly (l : list Recording.t) :
  StronglySorted datetime_le (Scanner.sort_by_datetime l).
Proof.
  apply Sorted_StronglySorted; [|apply sort_by_datetime_sorted].
  intros a b c. apply datetime_le_trans.
Qed.

Lemma StronglySorted_impl {A} (R R' : A -> A -> Prop) (l : list A) :
  (forall a b, In a l -> In b l -> R a b -> R' a b) ->
  StronglySorted R l -> StronglySorted R' l.
Proof.
  intros H S. induction S as [|x l S IH F]; constructor.
  - apply IH. intros a b Ha Hb. apply H; by right.
  - rewrite List.Forall_forall in *. intros y Hy.
    apply H; [by left|by right|by apply F].
Qed.

End TextOrder.

(** ** Chronological order *)

Section Chronology.
Import Scanner.

Lemma printed_parses (r : Recording.t) :
  printed r -> is_Some (Datetime.fromisoformat (Recording.datetime r)).
Proof. intros (d & V & ->). rewrite fromisoformat_isoformat; by eauto. Qed.

(** X4: when every timestamp in the directory has the form [isoformat]
    prints, the result of the scan, which is sorted on the timestamp
    text, is in chronological order: each recording is not later than
    any recording after it. *)
Theorem scan_chronological (root : option (list entry))
    (modes : option (list string)) (min_duration_ms : Z)
    (since : option string) (out : list Recording.t) :
  (forall r, In r (parsed root) -> printed r) ->
  scan root modes min_duration_ms since = Ok out ->
  StronglySorted chronological out.
Proof.
  intros Hp E.
  assert (Hin : forall r, In r out -> In r (parsed root)).
  { destruct root as [entries|]; cbn [parsed].
    - apply scan_Ok_inv in E as (bound & _ & _ & ->). intros r Hr.
      apply (Permutation_in _ (sort_by_datetime_perm _)) in Hr.
      by apply filter_In in Hr as [Hr _].
    - injection E as <-. done. }
  assert (S : StronglySorted datetime_le out).
  { destruct root as [entries|].
    - apply scan_Ok_inv in E as (bound & _ & _ & ->).
      apply sort_by_datetime_strongly.
    - injection E as <-. constructor. }
  revert S. apply StronglySorted_impl. intros a b Ha Hb Hab.
  destruct (Hp a (Hin a Ha)) as (da & Va & Ea).
  destruct (Hp b (Hin b Hb)) as (db & Vb & Eb).
  exists da, db. rewrite Ea, Eb, !fromisoformat_isoformat by done.
  split; [done|]. split; [done|].
  by apply (datetime_le_chronological a b da db).
Qed.

End Chronology.

Lemma scan_chronological_witness :
  exists out,
    Scanner.scan
      (Some [Scanner.Dir "1770978710" (Scanner.Valid Samples.MEETING_META);
             Scanner.File "random_file.txt";
             Scanner.Dir "1770978720" (Scanner.Valid Samples.old_meta)])
      None 0 None = Ok out /\
    map Recording.source_dir out = ["1770978720"; "1770978710"] /\
    StronglySorted chronological out.
Proof.
  eexists. split; [reflexivity|]. split; [reflexivity|].
  apply (scan_chronological
    (Some [Scanner.Dir "1770978710" (Scanner.Valid Samples.MEETING_META);
           Scanner.File "random_file.txt";
           Scanner.Dir "1770978720" (Scanner.Valid Samples.old_meta)])
    None 0 None); [|reflexivity].
  intros r [<-|[<-|[]]].
  - exists (Datetime.mk 2026 2 13 10 31 50 0). split; reflexivity.
  - exists (Datetime.mk 2026 2 1 10 0 0 0). split; reflexivity.
Defined.

(** ** The order of the listing *)

Section ListingOrder.
Import Scanner.

Lemma parse_entries_perm (es es' : list entry) :
  Permutation es es' -> Permutation (parse_entries es) (parse_entries es').
Proof.
  induction 1 as [|e es es' _ IH|e1 e2 es|es1 es2 es3 _ IH1 _ IH2].
  - done.
  - destruct e as [n|n [| |m]]; cbn [parse_entries]; by try constructor.
  - destruct e1 as [n1|n1 [| |m1]], e2 as [n2|n2 [| |m2]]; cbn [parse_entries];
      try reflexivity. constructor.
  - by etrans.
Qed.

Lemma List_filter_perm {A} (f : A -> bool) (l l' : list A) :
  Permutation l l' -> Permutation (List.filter f l) (List.filter f l').
Proof.
  induction 1 as [|x l l' _ IH|x y l|l1 l2 l3 _ IH1 _ IH2]; cbn [List.filter].
  - done.
  - destruct (f x); by try constructor.
  - destruct (f x), (f y); try reflexivity. constructor.
  - by etrans.
Qed.

Lemma datetime_le_refl (r : Recording.t) : datetime_le r r.
Proof. unfold datetime_le, String.leb. by rewrite string_compare_refl. Qed.

(** Two sorted lists with the same recordings, no two of them with the
    same timestamp, are the same list. *)
Lemma sorted_by_datetime_unique (l1 l2 : list Recording.t) :
  StronglySorted datetime_le l1 -> StronglySorted datetime_le l2 ->
  Permutation l1 l2 -> NoDup (map Recording.datetime l1) -> l1 = l2.
Proof.
  intros S1. revert l2. induction S1 as [|x l1 S1 IH F1]; intros l2 S2 P N.
  - by apply Permutation_nil in P.
  - destruct S2 as [|y l2 S2 F2]; [by apply Permutation_sym, Permutation_nil in P|].
    rewrite List.Forall_forall in F1, F2.
    cbn [map] in N. apply NoDup_cons in N as [Nx N].
    assert (Hy : In y (x :: l1))
      by (apply (Permutation_in _ (Permutation_sym P)); by left).
    assert (Hx : In x (y :: l2)) by (apply (Permutation_in _ P); by left).
    assert (Hxy : datetime_le x y).
    { destruct Hy as [<-|Hy]; [apply datetime_le_refl|by apply F1]. }
    assert (Hyx : datetime_le y x).
    { destruct Hx as [<-|Hx]; [apply datetime_le_refl|by apply F2]. }
    assert (E : x = y).
    { destruct Hy as [Hy|Hy]; [done|]. exfalso. apply Nx.
      rewrite (String.leb_antisym _ _ Hxy Hyx).
      apply list_elem_of_In, in_map, Hy. }
    subst y. f_equal. apply IH; [done| |done].
    by apply Permutation_cons_inv in P.
Qed.

(** X5: the scan does not depend on the order in which the directory is
    listed.  Over a permuted listing it returns as well (it does not
    raise), with the same recordings; when no two timestamps of the result
    are equal it returns the same list. *)
Theorem scan_listing_order (entries entries' : list entry)
    (modes : option (list string)) (min_duration_ms : Z)
    (since : option string) (out : list Recording.t) :
  Permutation entries entries' ->
  scan (Some entries) modes min_duration_ms since = Ok out ->
  exists out',
    scan (Some entries') modes min_duration_ms since = Ok out' /\
    Permutation out out' /\
    (NoDup (map Recording.datetime out) -> out' = out).
Proof.
  intros P E. apply scan_Ok_inv in E as (bound & Hb & Hp & ->).
  pose proof (parse_entries_perm _ _ P) as Pp.
  eexists. split; [|split].
  - apply (scan_accepted entries' modes min_duration_ms since bound Hb).
    intros Hne r Hr. apply Hp; [done|].
    by apply (Permutation_in _ (Permutation_sym Pp)).
  - rewrite !sort_by_datetime_perm. by apply List_filter_perm.
  - intros N. symmetry.
    apply sorted_by_datetime_unique; [apply sort_by_datetime_strongly..| |done].
    rewrite !sort_by_datetime_perm. by apply List_filter_perm.
Qed.

End ListingOrder.

Lemma scan_listing_order_witness :
  exists out',
    Scanner.scan
      (Some [Scanner.Dir "1770978720" (Scanner.Valid Samples.old_meta);
             Scanner.Dir "1770978710" (Scanner.Valid Samples.MEETING_META)])
      None 0 None = Ok out' /\
    Permutation [Samples.old; Samples.meeting] out' /\
    (NoDup (map Recording.datetime [Samples.old; Samples.meeting]) ->
     out' = [Samples.old; Samples.meeting]).
Proof.
  apply (scan_listing_order
    [Scanner.Dir "1770978710" (Scanner.Valid Samples.MEETING_META);
     Scanner.Dir "1770978720" (Scanner.Valid Samples.old_meta)]).
  - apply perm_swap.
  - reflexivity.
Defined.

(** ** Segment timestamps *)

Section Timestamps.
Import MarkdownFormatter.

Lemma str_app_length (s t : string) :
  String.length (s +:+ t) = (String.length s + String.length t)%nat.
Proof.
  induction s as [|c s IH]; [done|].
  rewrite str_app_cons. cbn [String.length]. by rewrite IH.
Qed.







End Timestamps.



(** ** Negative durations *)

Section NegativeDurations.
Import MarkdownFormatter.

(** X8: a negative duration never prints hours.  Floor division makes
    [_format_duration] print it as the time [(d // 1000) mod 3600] seconds,
    which is not negative and less than an hour: every [d] from -1000 to
    -1 prints as 59m 59s. *)
Theorem format_duration_negative (d : Z) :
  d < 0 ->
  0 <= (d / 1000) mod 3600 * 1000 < 3600000 /\
  _format_duration d = _format_duration ((d / 1000) mod 3600 * 1000) /\
  (-1000 <= d -> _format_duration d = "59m 59s").
Proof.
  intros Hd.
  pose proof (Z.mod_pos_bound (d / 1000) 3600 ltac:(lia)) as Hu.
  split; [lia|]. split.
  - unfold _format_duration. rewrite Z.div_mul by lia.
    set (ts := d / 1000) in *.
    assert (Hts : ts < 0) by (apply Z.div_lt_upper_bound; lia).
    assert (Hh : ts / 3600 < 0) by (apply Z.div_lt_upper_bound; lia).
    assert (Hh' : ts mod 3600 / 3600 = 0) by (apply Z.div_small; lia).
    rewrite Hh'.
    destruct (ts / 3600 >? 0) eqn:E; [apply Z.gtb_lt in E; lia|].
    change (0 >? 0) with false. cbv iota.
    rewrite (Z.mod_small (ts mod 3600) 3600) by lia.
    replace ((ts mod 3600) mod 60) with (ts mod 60); [done|].
    rewrite Z.mod_mod_divide; [done|]. exists 60. lia.
  - intros Hd'. unfold _format_duration.
    assert (d / 1000 = -1) as ->.
    { symmetry. apply (Z.div_unique d 1000 (-1) (d + 1000)); lia. }
    reflexivity.
Qed.

End NegativeDurations.

Lemma format_duration_negative_witness :
  -90000 < 0 /\
  MarkdownFormatter._format_duration (-90000) = "58m 30s" /\
  MarkdownFormatter._format_duration (-90000) =
    MarkdownFormatter._format_duration ((-90000 / 1000) mod 3600 * 1000).
Proof.
  split; [lia|]. split; [reflexivity|].
  apply (format_duration_negative (-90000)). lia.
Defined.

(** ** The duration text *)

Section DurationText.
Import MarkdownFormatter.

Lemma string_of_uint_digits (d : Decimal.uint) :
  all_digits (NilEmpty.string_of_uint d) = true.
Proof. induction d; cbn; done. Qed.

Lemma str_inj (n m : Z) : 0 <= n -> 0 <= m -> Py.str n = Py.str m -> n = m.
Proof.
  intros Hn Hm E.
  destruct (str_nonneg n Hn) as (d1 & E1 & _ & V1 & _).
  destruct (str_nonneg m Hm) as (d2 & E2 & _ & V2 & _).
  pose proof (number_from_string_of_uint d1 0) as N1.
  pose proof (number_from_string_of_uint d2 0) as N2.
  rewrite <- E1 in N1. rewrite <- E2, <- E, N1 in N2. congruence.
Qed.

Lemma digits_split (a b x y : string) (c c' : ascii) :
  all_digits a = true -> all_digits b = true ->
  Datetime.digit c = None -> Datetime.digit c' = None ->
  a +:+ String c x = b +:+ String c' y -> a = b /\ c = c' /\ x = y.
Proof.
  revert b. induction a as [|a0 a IH]; intros [|b0 b]; cbn [all_digits];
    rewrite ?str_app_cons, ?str_app_nil_l; intros Ha Hb Hc Hc' E.
  - by injection E as -> ->.
  - injection E as -> _. by destruct (Datetime.digit b0).
  - injection E as <- _. by destruct (Datetime.digit a0).
  - injection E as -> E.
    destruct (Datetime.digit b0); [|done].
    destruct (IH b Ha Hb Hc Hc' E) as (-> & -> & ->). done.
Qed.

Lemma field_split (n m : Z) (x y : string) (c c' : ascii) :
  0 <= n -> 0 <= m -> Datetime.digit c = None -> Datetime.digit c' = None ->
  Py.str n +:+ String c x = Py.str m +:+ String c' y ->
  n = m /\ c = c' /\ x = y.
Proof.
  intros Hn Hm Hc Hc' E.
  destruct (str_nonneg n Hn) as (d1 & E1 & _).
  destruct (str_nonneg m Hm) as (d2 & E2 & _).
  apply digits_split in E as (E & -> & ->); try done.
  - split; [by apply str_inj|done].
  - rewrite E1. apply string_of_uint_digits.
  - rewrite E2. apply string_of_uint_digits.
Qed.

(** X9: for durations that are not negative, the text
    [_format_duration] prints determines the duration to the second: two
    durations print the same text exactly when they have the same number
    of whole seconds. *)
Theorem format_duration_injective (d1 d2 : Z) :
  0 <= d1 -> 0 <= d2 ->
  (_format_duration d1 = _format_duration d2 <-> d1 / 1000 = d2 / 1000).
Proof.
  intros H1 H2. split; [|unfold _format_duration; by intros ->].
  unfold _format_duration.
  set (t1 := d1 / 1000). set (t2 := d2 / 1000).
  assert (Ht1 : 0 <= t1) by (apply Z.div_pos; lia).
  assert (Ht2 : 0 <= t2) by (apply Z.div_pos; lia).
  pose proof (Z.div_mod t1 3600 ltac:(lia)) as D1.
  pose proof (Z.div_mod t2 3600 ltac:(lia)) as D2.
  pose proof (Z.mod_pos_bound t1 3600 ltac:(lia)) as B1.
  pose proof (Z.mod_pos_bound t2 3600 ltac:(lia)) as B2.
  pose proof (Z.div_mod (t1 mod 3600) 60 ltac:(lia)) as M1.
  pose proof (Z.div_mod (t2 mod 3600) 60 ltac:(lia)) as M2.
  pose proof (Z.mod_pos_bound (t1 mod 3600) 60 ltac:(lia)) as R1.
  pose proof (Z.mod_pos_bound (t2 mod 3600) 60 ltac:(lia)) as R2.
  assert (S1 : t1 mod 60 = (t1 mod 3600) mod 60)
    by (rewrite Z.mod_mod_divide; [done|exists 60; lia]).
  assert (S2 : t2 mod 60 = (t2 mod 3600) mod 60)
    by (rewrite Z.mod_mod_divide; [done|exists 60; lia]).
  assert (Hh1 : 0 <= t1 / 3600) by (apply Z.div_pos; lia).
  assert (Hh2 : 0 <= t2 / 3600) by (apply Z.div_pos; lia).
  assert (Hm1 : 0 <= t1 mod 3600 / 60) by (apply Z.div_pos; lia).
  assert (Hm2 : 0 <= t2 mod 3600 / 60) by (apply Z.div_pos; lia).
  rewrite S1, S2.
  set (h1 := t1 / 3600) in *. set (h2 := t2 / 3600) in *.
  set (m1 := t1 mod 3600 / 60) in *. set (m2 := t2 mod 3600 / 60) in *.
  set (s1 := (t1 mod 3600) mod 60) in *. set (s2 := (t2 mod 3600) mod 60) in *.
  destruct (h1 >? 0) eqn:Eh1, (h2 >? 0) eqn:Eh2;
    try destruct (m1 >? 0) eqn:Em1; try destruct (m2 >? 0) eqn:Em2;
    rewrite ?Z.gtb_ltb, ?Z.ltb_lt, ?Z.ltb_ge in *;
    rewrite ?str_app_cons, ?str_app_nil_l; intros E;
    repeat (apply field_split in E as (? & ? & E); [|lia|lia|done|done];
            try discriminate; try injection E as E);
    lia.
Qed.

End DurationText.

Lemma format_duration_injective_witness :
  0 <= 90000 /\ 0 <= 90999 /\
  MarkdownFormatter._format_duration 90000 =
    MarkdownFormatter._format_duration 90999.
Proof.
  split; [lia|]. split; [lia|].
  apply (format_duration_injective 90000 90999); [lia|lia|reflexivity].
Defined.

(** ** The state database *)

Section Store.
Import StateTracker.






End Store.

(** ** The last run *)

Section LastRun.
Import StateTracker.

Lemma max_run_at_spec (l : list RunRecord.t) :
  match max_run_at l with
  | None => l = []
  | Some m =>
      (exists r, In r l /\ RunRecord.run_at r = m) /\
      forall r, In r l -> String.leb (RunRecord.run_at r) m = true
  end.
Proof.
  induction l as [|x l IH]; [done|]. cbn [max_run_at].
  destruct (max_run_at l) as [m|].
  - destruct IH as [(r & Hr & E) Hmax].
    destruct (String.ltb (RunRecord.run_at x) m) eqn:Elt.
    + split; [exists r; split; [by right|done]|].
      intros r' [<-|Hr']; [|by apply Hmax].
      unfold String.ltb in Elt. unfold String.leb.
      by destruct (String.compare (RunRecord.run_at x) m).
    + split; [exists x; split; [by left|done]|].
      assert (Hmx : String.leb m (RunRecord.run_at x) = true).
      { unfold String.ltb in Elt. unfold String.leb.
        rewrite String.compare_antisym.
        by destruct (String.compare (RunRecord.run_at x) m). }
      intros r' [<-|Hr'].
      * unfold String.leb. by rewrite string_compare_refl.
      * eapply string_leb_trans; [by apply Hmax|done].
  - subst l. split; [exists x; split; [by left|done]|].
    intros r' [<-|[]]. unfold String.leb. by rewrite string_compare_refl.
Qed.


Lemma update_last_run_run (p a f : Z) (w : World) (db : Store) :
  state_db w = Some db ->
  let row := RunRecord.mk (Datetime.isoformat (now w)) p a f in
  update_last_run p a f w =
  (Ok tt,
   log_event (EvRunRecorded row)
     (set_state_db
        (Some (mkStore (archived_recordings db) (archive_runs db ++ [row])))
        (set_clock (mkClock (readings (clock w)) (S (ticks (clock w)))) w))).
Proof.
  intros H row. unfold update_last_run, with_db, bind, get, modify, ret,
    with_clock, Clock_now. rewrite H. reflexivity.
Qed.

Lemma isoformat_leb (d1 d2 : Datetime.datetime) :
  Datetime.valid d1 = true -> Datetime.valid d2 = true ->
  Datetime.geb d2 d1 = true ->
  String.leb (Datetime.isoformat d1) (Datetime.isoformat d2) = true.
Proof.
  intros V1 V2. unfold Datetime.geb, String.leb.
  rewrite String.compare_antisym, (isoformat_compare d2 d1 V2 V1).
  by destruct (Datetime.compare d2 d1).
Qed.

(** X14: [update_last_run], then [get_last_run_timestamp].  When the
    clock reads a valid time that is not before any run recorded so far
    (each stamped by [isoformat]), the timestamp read back is exactly that
    reading: [isoformat] and [fromisoformat] are inverse here, and the
    order of the texts is the order of the times.  The run is appended to
    the runs recorded; the rows of the recordings are as before. *)
Theorem update_then_last_run (p a f : Z) (w : World) (db : Store) :
  state_db w = Some db ->
  Datetime.valid (now w) = true ->
  (forall r, In r (archive_runs db) ->
     exists d, Datetime.valid d = true /\
               RunRecord.run_at r = Datetime.isoformat d /\
               Datetime.geb (now w) d = true) ->
  fst (update_last_run p a f w) = Ok tt /\
  fst (get_last_run_timestamp (snd (update_last_run p a f w))) =
    Ok (Some (now w)) /\
  rows (state_db (snd (update_last_run p a f w))) = rows (state_db w) /\
  runs (state_db (snd (update_last_run p a f w))) =
    runs (state_db w) ++ [RunRecord.mk (Datetime.isoformat (now w)) p a f].
Proof.
  intros Hdb Hv Hle.
  rewrite (update_last_run_run p a f w db Hdb). cbn [fst snd].
  split; [done|]. split; [|by rewrite Hdb].
  set (row := RunRecord.mk (Datetime.isoformat (now w)) p a f).
  unfold get_last_run_timestamp, with_db, bind, get, lift, ret,
    fromisoformat_exn.
  cbn [state_db log_event set_state_db archive_runs].
  pose proof (max_run_at_spec (archive_runs db ++ [row])) as H.
  destruct (max_run_at (archive_runs db ++ [row])) as [m|].
  2:{ by destruct (archive_runs db). }
  destruct H as [(r & Hr & <-) Hmax].
  assert (E : RunRecord.run_at r = Datetime.isoformat (now w)).
  { apply String.leb_antisym.
    - apply in_app_or in Hr as [Hr|[<-|[]]].
      + destruct (Hle r Hr) as (d & Vd & -> & Hd). by apply isoformat_leb.
      + unfold String.leb. by rewrite string_compare_refl.
    - apply (Hmax row), in_or_app. right. by left. }
  rewrite E, fromisoformat_isoformat by done. done.
Qed.

End LastRun.

(** ** One recording outside a dry run *)

Section Steps.
Import Main.

(** One recording outside a dry run, case by case. *)
Lemma archive_recording_live (rec : Recording.t) (w : World) (db : Store) :
  state_db w = Some db ->
  match Datetime.fromisoformat (Recording.datetime rec) with
  | None =>
      archive_recording rec false w =
        (Ok (failure_result rec
               (ValueError (invalid_isoformat (Recording.datetime rec)))),
         ticked 1 w)
  | Some dt =>
      exists file_path,
        MarkdownFormatter.compute_file_path rec = Ok file_path /\
        match next_commit w with
        | Some (String c sha) =>
            archive_recording rec false w =
              (Ok (ArchiveResult.mk true (Recording.source_dir rec) None
                     (Some file_path) (Some (String c sha))),
               marked rec
                 (row_of rec file_path (String c sha)
                    (Datetime.isoformat (now (committed rec dt file_path w))))
                 db (committed rec dt file_path w))
        | _ =>
            archive_recording rec false w =
              (Ok (failure_result rec (Exception "Failed to commit recording")),
               committed rec dt file_path w)
        end
  end.
Proof.
  intros Hdb.
  pose proof (format_recording_cases rec (clock w)) as Hf.
  pose proof (compute_file_path_cases rec) as Hp.
  unfold archive_recording, try_except, archive_attempt, with_clock,
    fromisoformat_exn, GitManager.write_and_commit, bind, lift, get, modify,
    ret, raise.
  unfold committed, document, next_commit, marked, row_of, now.
  destruct (Datetime.fromisoformat (Recording.datetime rec)) as [dt|].
  2:{ by rewrite Hf. }
  destruct Hf as [md ->]. destruct Hp as [p ->]. exists p. split; [done|].
  cbn [fst snd commit_outcomes set_clock set_commit_outcomes log_event].
  destruct (commit_outcomes w) as [|[[|c sha]|] rest]; cbn [Py.truthy_opt Py.truthy tail];
    try reflexivity.
  unfold StateTracker.mark_archived, StateTracker.with_db, bind, get, modify,
    ret, raise, with_clock, Clock_now.
  cbn [snd fst state_db set_clock set_commit_outcomes log_event set_state_db
       clock trace]. rewrite Hdb. reflexivity.
Qed.

(** ** What a run leaves as it was *)

Lemma same_setting_refl (w : World) : same_setting w w.
Proof. by repeat split. Qed.

Lemma same_setting_trans (w1 w2 w3 : World) :
  same_setting w1 w2 -> same_setting w2 w3 -> same_setting w1 w3.
Proof.
  intros (A1 & B1 & C1 & D1 & E1 & F1 & G1) (A2 & B2 & C2 & D2 & E2 & F2 & G2).
  repeat split; try congruence. auto.
Qed.

Lemma same_setting_clock (w w' : World) :
  only_clock_read w w' -> same_setting w w'.
Proof. intros [-> H]. by repeat split. Qed.

Lemma steady_bind {A B} (m : M World A) (k : A -> M World B) :
  steady m -> (forall a, steady (k a)) -> steady (bind m k).
Proof. apply preserves_bind, same_setting_trans. Qed.

Lemma steady_ret {A} (a : A) : steady (ret a).
Proof. apply preserves_ret, same_setting_refl. Qed.

Lemma steady_reads_only {A} (m : M World A) : reads_only m -> steady m.
Proof. intros H w. apply same_setting_clock, H. Qed.

Lemma steady_init : steady StateTracker.__init__.
Proof.
  intros w. rewrite init_opened. cbn [snd]. unfold opened.
  destruct (state_db w) eqn:E; [apply same_setting_refl|].
  repeat split; cbn; by rewrite ?E.
Qed.

Lemma steady_ensure_up_to_date : steady GitManager.ensure_up_to_date.
Proof.
  intros w. unfold GitManager.ensure_up_to_date, bind, get, modify, raise.
  destruct (pull_outcome w) eqn:E; cbn [snd]; by repeat split.
Qed.

Lemma steady_push_to_remote : steady GitManager.push_to_remote.
Proof.
  intros w. unfold GitManager.push_to_remote, bind, get, modify, raise, ret.
  destruct (push_outcome w) eqn:E; cbn [snd]; by repeat split.
Qed.

Lemma steady_archive_recording (rec : Recording.t) (dry_run : bool) :
  steady (archive_recording rec dry_run).
Proof.
  destruct dry_run; [apply steady_reads_only, reads_only_archive_recording|].
  intros w. destruct (state_db w) as [db|] eqn:Hdb.
  - pose proof (archive_recording_live rec w db Hdb) as H.
    destruct (Datetime.fromisoformat (Recording.datetime rec)) as [dt|].
    + destruct H as (p & _ & H).
      destruct (next_commit w) as [[|c sha]|]; rewrite H; cbn [snd];
        repeat split; cbn; by rewrite ?Hdb.
    + rewrite H. by repeat split.
  - pose proof (format_recording_cases rec (clock w)) as Hf.
    pose proof (compute_file_path_cases rec) as Hp.
    unfold archive_recording, try_except, archive_attempt, with_clock,
      GitManager.write_and_commit, StateTracker.mark_archived,
      StateTracker.with_db, fromisoformat_exn, bind, lift, get, modify, ret,
      raise.
    destruct (Datetime.fromisoformat (Recording.datetime rec)) as [dt|].
    + destruct Hf as [md ->]. destruct Hp as [p ->].
      cbn [fst snd commit_outcomes set_clock set_commit_outcomes log_event].
      destruct (Py.truthy_opt _);
        cbn [fst snd state_db set_clock set_commit_outcomes log_event];
        rewrite ?Hdb; cbn [snd]; repeat split; cbn; by rewrite ?Hdb.
    + rewrite Hf. by repeat split.
Qed.

Lemma steady_archive_each (recs : list Recording.t) (dry_run : bool)
    (results : list ArchiveResult.t) (skipped : Z) :
  steady (archive_each recs dry_run results skipped).
Proof.
  revert results skipped. induction recs as [|rec recs IH]; intros; simpl.
  - apply steady_ret.
  - apply steady_bind; [apply steady_reads_only, reads_only_is_archived|].
    intros [|]; [apply IH|].
    apply steady_bind; [apply steady_archive_recording|]. intros r. apply IH.
Qed.

End Steps.

Tactic Notation "bind_inv" hyp(H) "as" ident(a) ident(w) ident(H1) :=
  apply bind_Ok in H as (a & w & H1 & H).

(** ** Runs *)

Section RunFacts.
Import Main.

Lemma git_init_run (repo_path : string) (w : World) :
  repo w = Repository -> GitManager.__init__ repo_path w = (Ok tt, w).
Proof. intros H. unfold GitManager.__init__, bind, get, ret. by rewrite H. Qed.

Lemma ensure_up_to_date_run (w : World) :
  tolerated (pull_outcome w) = true ->
  exists ok, GitManager.ensure_up_to_date w = (Ok tt, log_event (EvPull ok) w).
Proof.
  unfold GitManager.ensure_up_to_date, bind, get, modify.
  destruct (pull_outcome w); [by exists true|by exists false|done].
Qed.

Lemma push_to_remote_run (w : World) :
  tolerated (push_outcome w) = true ->
  exists ok, GitManager.push_to_remote w = (Ok ok, log_event (EvPush ok) w).
Proof.
  unfold GitManager.push_to_remote, bind, get, modify, ret.
  destruct (push_outcome w); [by exists true|by exists false|done].
Qed.

Lemma archive_each_returns (recs : list Recording.t) (dry_run : bool)
    (results : list ArchiveResult.t) (skipped : Z) (w : World) :
  is_Some (state_db w) ->
  exists processed w',
    archive_each recs dry_run results skipped w = (Ok processed, w').
Proof.
  revert results skipped w.
  induction recs as [|rec recs IH]; intros results skipped w Hdb.
  - by eexists _, _.
  - cbn [archive_each]. unfold bind at 1.
    destruct Hdb as [db Hdb]. rewrite (is_archived_run _ w db Hdb).
    destruct (archived_recordings db !! Recording.source_dir rec).
    + apply IH. by eexists.
    + unfold bind at 1.
      destruct (archive_recording_returns rec dry_run w) as (r & Hr & _).
      pose proof (archive_recording_keeps_db rec dry_run w) as Hk.
      destruct (archive_recording rec dry_run w) as [o w1]. cbn [fst snd] in *.
      subst o. apply IH, Hk. by eexists.
Qed.

Lemma scan_without_since (root : option (list Scanner.entry))
    (modes : option (list string)) (min_duration_ms : Z) :
  exists out, Scanner.scan root modes min_duration_ms None = Ok out.
Proof.
  destruct root as [entries|]; [|by eexists].
  eexists. by apply (scan_accepted entries modes min_duration_ms None None);
    [constructor|].
Qed.

(** ** A run needs its repository *)

(** X16: a run needs its repository, a dry run too.  When [repo_path]
    does not exist or is no git repository, [run_archiver] raises a
    [ValueError] before it pulls, scans or archives; all it has done by
    then is to open the state database. *)
Theorem run_requires_repository (config : ArchiverConfig.t)
    (dry_run backfill : bool) (since_date modes_override : option string)
    (w : World) :
  repo w <> Repository ->
  exists msg,
    run_archiver config dry_run backfill since_date modes_override w =
      (Raise (ValueError msg), opened w) /\
    (repo w = NoSuchPath ->
     msg = "Repository path does not exist: " +:+
           ArchiverConfig.repo_path config).
Proof.
  intros H. unfold run_archiver. unfold bind at 1. rewrite init_opened.
  unfold bind at 1. unfold GitManager.__init__, bind, get, raise, ret.
  assert (E : repo (opened w) = repo w)
    by (unfold opened; by destruct (state_db w)).
  rewrite E. destruct (repo w); [by eexists|by eexists|done].
Qed.

(** ** A run that looks at no timestamp returns *)

(** X17: a backfill run returns.  With [backfill] set, when the
    repository is valid and (outside a dry run) pull and push fail at
    most with the [GitCommandError] the manager catches, [run_archiver]
    does not raise: no since bound is computed, so the scan parses no
    timestamp, and failures of single recordings end up in their results.
    The total of the summary is the number of recordings the scan returns
    without a since bound. *)
Theorem backfill_run_returns (config : ArchiverConfig.t) (dry_run : bool)
    (since_date modes_override : option string) (w : World) :
  repo w = Repository ->
  (dry_run = false -> tolerated (pull_outcome w) = true) ->
  (dry_run = false -> tolerated (push_outcome w) = true) ->
  exists summary w',
    run_archiver config dry_run true since_date modes_override w =
      (Ok summary, w') /\
    exists recordings,
      Scanner.scan (recordings_dir w) (resolve_modes config modes_override)
        (ArchiverConfig.filters_min_duration_ms config) None = Ok recordings /\
      ArchiveSummary.total_recordings summary = Z.of_nat (length recordings).
Proof.
  intros Hrepo Hpull Hpush. unfold run_archiver.
  unfold bind at 1. rewrite init_opened.
  assert (Hs0 : same_setting w (opened w)).
  { pose proof (steady_init w) as H. by rewrite init_opened in H. }
  assert (Hdb0 : is_Some (state_db (opened w)))
    by (rewrite opened_state_db; by eexists).
  unfold bind at 1. rewrite git_init_run by (destruct Hs0 as (_ & -> & _); done).
  assert (exists w1, (if negb dry_run then GitManager.ensure_up_to_date
                      else ret tt) (opened w) = (Ok tt, w1) /\
                     same_setting w w1 /\ is_Some (state_db w1))
    as (w1 & E1 & Hs1 & Hdb1).
  { destruct dry_run; cbn [negb].
    - exists (opened w). split; [done|]. by split.
    - destruct (ensure_up_to_date_run (opened w)) as [ok E].
      { destruct Hs0 as (_ & _ & -> & _). by apply Hpull. }
      eexists. split; [exact E|]. split; [|done].
      eapply same_setting_trans; [exact Hs0|].
      pose proof (steady_ensure_up_to_date (opened w)) as H.
      by rewrite E in H. }
  unfold bind at 1. rewrite E1.
  unfold bind at 1. cbn [resolve_since ret].
  unfold bind at 1. cbn [get].
  destruct (scan_without_since (recordings_dir w1)
              (resolve_modes config modes_override)
              (ArchiverConfig.filters_min_duration_ms config))
    as (recordings & Escan).
  unfold bind at 1. unfold lift at 1. rewrite Escan.
  destruct (archive_each_returns recordings dry_run [] 0 w1 Hdb1)
    as (processed & w2 & E2).
  assert (Hs2 : same_setting w1 w2).
  { pose proof (steady_archive_each recordings dry_run [] 0 w1) as H.
    by rewrite E2 in H. }
  unfold bind at 1. rewrite E2.
  assert (exists w3, (if negb dry_run && existsb ArchiveResult.success processed.1
                      then _ <- GitManager.push_to_remote ;; ret tt
                      else ret tt)%eff w2 = (Ok tt, w3) /\
                     same_setting w2 w3)
    as (w3 & E3 & Hs3).
  { destruct (negb dry_run && existsb ArchiveResult.success processed.1) eqn:Eb.
    - destruct (push_to_remote_run w2) as [ok E].
      { destruct Hs2 as (_ & _ & _ & -> & _), Hs1 as (_ & _ & _ & -> & _).
        apply Hpush. by destruct dry_run. }
      eexists. unfold bind. rewrite E. split; [reflexivity|].
      pose proof (steady_push_to_remote w2) as H. by rewrite E in H.
    - exists w2. split; [done|apply same_setting_refl]. }
  unfold bind at 1. rewrite E3.
  assert (Hdb3 : is_Some (state_db w3)).
  { destruct Hs3 as (_ & _ & _ & _ & _ & _ & H3).
    destruct Hs2 as (_ & _ & _ & _ & _ & _ & H2). auto. }
  assert (exists w4, (if negb dry_run
                      then StateTracker.update_last_run
                             (Z.of_nat (length recordings))
                             (count_success processed.1)
                             (count_failed processed.1)
                      else ret tt) w3 = (Ok tt, w4)) as (w4 & E4).
  { destruct dry_run; cbn [negb]; [by eexists|].
    destruct Hdb3 as [db3 Hdb3]. rewrite (update_last_run_run _ _ _ w3 db3 Hdb3).
    by eexists. }
  unfold bind at 1. rewrite E4. eexists _, _. split; [reflexivity|].
  exists recordings. destruct Hs1 as (<- & _). done.
Qed.

(** ** The run that is recorded *)

(** X24: a run that is no dry run and that returns appends exactly
    one row to the runs recorded.  Its counts are [total_recordings],
    [archived_count] and [failed_count] of the summary returned, and its
    [run_at] is the last reading of the clock the run took. *)
Theorem run_row_matches_summary (config : ArchiverConfig.t) (backfill : bool)
    (since_date modes_override : option string) (w w' : World)
    (summary : ArchiveSummary.t) :
  run_archiver config false backfill since_date modes_override w =
    (Ok summary, w') ->
  exists k,
    ticks (clock w') = S k /\
    runs (state_db w') =
      runs (state_db w) ++
      [RunRecord.mk (Datetime.isoformat (readings (clock w) k))
         (ArchiveSummary.total_recordings summary)
         (ArchiveSummary.archived_count summary)
         (ArchiveSummary.failed_count summary)].
Proof.
  intros E.
  assert (Hpre : forall (A : Type) (m : M World A) (a : A) (w0 w1 : World),
            steady m -> m w0 = (Ok a, w1) -> same_setting w0 w1).
  { intros A m a w0 w1 Hm Em. specialize (Hm w0). by rewrite Em in Hm. }
  unfold run_archiver in E.
  bind_inv E as u0 w0 Hinit.
  pose proof (Hpre _ _ _ _ _ steady_init Hinit) as S0.
  rewrite init_opened in Hinit. injection Hinit as _ <-.
  bind_inv E as u1 w1 Hgit.
  apply Hpre in Hgit; [|apply steady_reads_only, reads_only_git_init].
  bind_inv E as u2 w2 Hpull. cbn [negb] in Hpull.
  apply Hpre in Hpull; [|apply steady_ensure_up_to_date].
  bind_inv E as since w3 Hsince.
  apply Hpre in Hsince; [|apply steady_reads_only, reads_only_resolve_since].
  bind_inv E as wget w4 Hget. injection Hget as _ <-.
  bind_inv E as recordings w5 Hscan. injection Hscan as _ <-.
  bind_inv E as processed w6 Hloop.
  apply Hpre in Hloop; [|apply steady_archive_each].
  bind_inv E as u3 w7 Hpush.
  apply Hpre in Hpush.
  2:{ destruct (_ && _); [|apply steady_ret].
      apply steady_bind; [apply steady_push_to_remote|]. intros ?. apply steady_ret. }
  bind_inv E as u4 w8 Hrun. cbn [negb] in Hrun.
  injection E as <- <-.
  cbn [ArchiveSummary.total_recordings ArchiveSummary.archived_count
       ArchiveSummary.failed_count].
  assert (S7 : same_setting w w7).
  { repeat (eapply same_setting_trans; [eassumption|]). apply same_setting_refl. }
  destruct S7 as (_ & _ & _ & _ & Hr & Hruns & _).
  assert (Hdb7 : is_Some (state_db w7)).
  { assert (S' : same_setting (opened w) w7).
    { repeat (eapply same_setting_trans; [eassumption|]). apply same_setting_refl. }
    destruct S' as (_ & _ & _ & _ & _ & _ & H). apply H.
    rewrite opened_state_db. by eexists. }
  destruct Hdb7 as [db7 Hdb7].
  rewrite (update_last_run_run _ _ _ w7 db7 Hdb7) in Hrun.
  injection Hrun as _ <-. exists (ticks (clock w7)). split; [reflexivity|].
  cbn [state_db log_event set_state_db runs archive_runs].
  rewrite <- Hruns, Hdb7. cbn [runs]. unfold now. by rewrite Hr.
Qed.

(** ** Recordings that have a row *)

(** X19: when every recording of the list has a row already, the loop
    yields no result, counts each recording as skipped, and leaves
    everything as it was: no document is formatted, nothing is committed
    or marked. *)
Theorem archived_are_skipped (recs : list Recording.t) (dry_run : bool)
    (results : list ArchiveResult.t) (skipped : Z) (w : World) :
  (forall rec, In rec recs -> unarchived (state_db w) rec = false) ->
  archive_each recs dry_run results skipped w =
    (Ok (results, skipped + Z.of_nat (length recs)), w).
Proof.
  revert skipped. induction recs as [|rec recs IH]; intros skipped H.
  - cbn. unfold ret. do 3 f_equal. lia.
  - cbn [archive_each]. unfold bind at 1.
    pose proof (H rec ltac:(by left)) as Hrec. unfold unarchived in Hrec.
    destruct (state_db w) as [db|] eqn:Hdb;
      [|cbn [rows] in Hrec; by rewrite lookup_empty in Hrec].
    cbn [rows] in Hrec. rewrite (is_archived_run _ w db Hdb).
    destruct (archived_recordings db !! Recording.source_dir rec); [|done].
    rewrite IH by (intros r Hr; apply H; by right).
    do 3 f_equal. cbn [length]. lia.
Qed.

End RunFacts.

(** ** The mode filter *)

Section Modes.
Import Main.

Lemma rev_app_append (s t u : string) :
  String.rev_app s t +:+ u = String.rev_app s (t +:+ u).
Proof.
  revert t. induction s as [|a s IH]; intros t; cbn [String.rev_app]; [done|].
  by rewrite IH, str_app_cons.
Qed.

Lemma mentions_rev_app (c : ascii) (s t : string) :
  mentions c (String.rev_app s t) = mentions c s || mentions c t.
Proof.
  revert t. induction s as [|a s IH]; intros t; cbn [String.rev_app mentions];
    [done|].
  rewrite IH. cbn [mentions]. by destruct (Ascii.eqb a c), (mentions c s).
Qed.

Lemma split_comma_aux_spec (cur s : string) :
  mentions "," cur = false ->
  Py.split_comma_aux cur s <> [] /\
  Py.join "," (Py.split_comma_aux cur s) = String.rev cur +:+ s /\
  Forall (fun p => mentions "," p = false) (Py.split_comma_aux cur s).
Proof.
  revert cur. induction s as [|a s IH]; intros cur Hcur; cbn [Py.split_comma_aux].
  - split; [done|]. split; [by rewrite str_app_nil_r|].
    constructor; [|done]. unfold String.rev.
    by rewrite mentions_rev_app, Hcur.
  - destruct (Ascii.eqb a ",") eqn:Ea.
    + apply Ascii.eqb_eq in Ea as ->.
      destruct (IH EmptyString eq_refl) as (Hne & Hj & Hf).
      split; [done|]. split.
      * destruct (Py.split_comma_aux "" s) as [|p ps] eqn:E; [done|].
        cbn [Py.join] in *. rewrite Hj. unfold String.rev.
        cbn [String.rev_app]. by rewrite str_app_nil_l.
      * constructor; [|done]. unfold String.rev.
        by rewrite mentions_rev_app, Hcur.
    + destruct (IH (String a cur)) as (Hne & Hj & Hf).
      { cbn [mentions]. by rewrite Ea, Hcur. }
      split; [done|]. split; [|done]. rewrite Hj. unfold String.rev.
      cbn [String.rev_app]. by rewrite !rev_app_append.
Qed.

(** X15: the mode filter of a run.  An override that is not empty
    replaces the configured modes: the filter is its fields between the
    commas, as they are written (joined by commas they give the override
    back, and none of them holds a comma).  Without an override, or with
    an empty one, the configured list is the filter, and an empty
    configured list means no filter. *)
Theorem resolve_modes_spec (config : ArchiverConfig.t)
    (modes_override : option string) :
  match modes_override with
  | Some (String c s) =>
      exists modes,
        resolve_modes config modes_override = Some modes /\
        Py.join "," modes = String c s /\
        Forall (fun m => mentions "," m = false) modes
  | _ =>
      resolve_modes config modes_override =
        match ArchiverConfig.filters_modes config with
        | [] => None
        | modes => Some modes
        end
  end.
Proof.
  destruct modes_override as [[|c s]|]; unfold resolve_modes;
    cbn [Py.truthy_opt Py.truthy default from_option id];
    try by destruct (ArchiverConfig.filters_modes config).
  destruct (split_comma_aux_spec EmptyString (String c s) eq_refl)
    as (Hne & Hj & Hf).
  unfold Py.split_comma.
  destruct (Py.split_comma_aux "" (String c s)) as [|m ms] eqn:E; [done|].
  exists (m :: ms). split; [done|]. split; [|done].
  rewrite Hj. unfold String.rev. cbn [String.rev_app]. by rewrite str_app_nil_l.
Qed.

End Modes.

(** ** The results of a run *)

Section Results.
Import Main.

Lemma archive_recording_result (rec : Recording.t) (dry_run : bool)
    (w : World) (r : ArchiveResult.t) :
  fst (archive_recording rec dry_run w) = Ok r -> result_for dry_run rec r.
Proof.
  pose proof (format_recording_cases rec (clock w)) as Hf.
  pose proof (compute_file_path_cases rec) as Hp.
  unfold archive_recording, try_except, archive_attempt, with_clock,
    fromisoformat_exn, GitManager.write_and_commit,
    StateTracker.mark_archived, StateTracker.with_db, bind, lift, get,
    modify, ret, raise, result_for.
  destruct (Datetime.fromisoformat (Recording.datetime rec)) as [dt|].
  2:{ rewrite Hf. cbn. intros [= <-]. cbn. split; [done|]. right. eauto. }
  destruct Hf as [md ->]. destruct Hp as [p Hp]. rewrite Hp.
  destruct dry_run.
  { cbn. intros [= <-]. cbn. split; [done|]. left. eauto 6. }
  cbn [fst snd commit_outcomes set_clock set_commit_outcomes log_event].
  destruct (commit_outcomes w) as [|[[|c sha]|] rest];
    cbn [Py.truthy_opt Py.truthy fst snd state_db set_clock
         set_commit_outcomes log_event];
    try (intros [= <-]; cbn; split; [done|]; right; by eauto).
  destruct (state_db w); cbn; intros [= <-]; cbn; (split; [done|]).
  - left. split; [done|]. split; [done|]. split; [by exists p|].
    by exists (String c sha).
  - right. eauto.
Qed.

(** The loop gives each recording it does not skip its result, in
    order. *)
Lemma archive_each_results (recs : list Recording.t) (dry_run : bool)
    (results results' : list ArchiveResult.t) (skipped skipped' : Z)
    (w w' : World) :
  archive_each recs dry_run results skipped w = (Ok (results', skipped'), w') ->
  exists (attempted : list Recording.t) (new : list ArchiveResult.t),
    results' = results ++ new /\ sublist attempted recs /\
    Forall2 (result_for dry_run) attempted new.
Proof.
  revert results skipped w.
  induction recs as [|rec recs IH]; intros results skipped w E.
  - injection E as <- _ _. exists [], []. by rewrite app_nil_r.
  - cbn [archive_each] in E. apply bind_Ok in E as ([|] & w1 & _ & E).
    + destruct (IH _ _ _ E) as (att & new & -> & Hs & Hf).
      exists att, new. split; [done|]. split; [by apply sublist_cons|done].
    + apply bind_Ok in E as (r & w2 & Hr & E).
      destruct (IH _ _ _ E) as (att & new & -> & Hs & Hf).
      exists (rec :: att), (r :: new). rewrite <- app_assoc. split; [done|].
      split; [by apply sublist_skip|]. constructor; [|done].
      apply (archive_recording_result rec dry_run w1). by rewrite Hr.
Qed.

(** X20: each result of a run that returns belongs to a recording the
    scan returned, in the order of the scan, and has one of two shapes.
    A success carries the path computed from the timestamp of its
    recording and no error; outside a dry run it carries a commit
    identifier that is not empty, in a dry run none.  A failure carries
    an error text and neither a path nor a commit identifier. *)
Theorem results_describe_recordings (config : ArchiverConfig.t)
    (dry_run backfill : bool) (since_date modes_override : option string)
    (w w' : World) (summary : ArchiveSummary.t) :
  run_archiver config dry_run backfill since_date modes_override w =
    (Ok summary, w') ->
  exists (since : option string) (recordings attempted : list Recording.t),
    Scanner.scan (recordings_dir w) (resolve_modes config modes_override)
      (ArchiverConfig.filters_min_duration_ms config) since = Ok recordings /\
    sublist attempted recordings /\
    Forall2 (result_for dry_run) attempted (ArchiveSummary.results summary).
Proof.
  intros E.
  assert (Hpre : forall (A : Type) (m : M World A) (a : A) (w0 w1 : World),
            steady m -> m w0 = (Ok a, w1) -> same_setting w0 w1).
  { intros A m a w0 w1 Hm Em. specialize (Hm w0). by rewrite Em in Hm. }
  unfold run_archiver in E.
  bind_inv E as u0 w0 Hinit. apply Hpre in Hinit; [|apply steady_init].
  bind_inv E as u1 w1 Hgit.
  apply Hpre in Hgit; [|apply steady_reads_only, reads_only_git_init].
  bind_inv E as u2 w2 Hpull.
  apply Hpre in Hpull.
  2:{ destruct (negb dry_run); [apply steady_ensure_up_to_date|apply steady_ret]. }
  bind_inv E as since w3 Hsince.
  apply Hpre in Hsince; [|apply steady_reads_only, reads_only_resolve_since].
  bind_inv E as wget w4 Hget. injection Hget as <- <-.
  bind_inv E as recordings w5 Hscan. injection Hscan as Hscan <-.
  bind_inv E as processed w6 Hloop.
  bind_inv E as u3 w7 Hpush. bind_inv E as u4 w8 Hrun.
  injection E as <- _. cbn [ArchiveSummary.results].
  rewrite (surjective_pairing processed) in Hloop.
  apply archive_each_results in Hloop as (att & new & -> & Hs & Hf).
  exists since, recordings, att. split; [|done].
  assert (S3 : same_setting w w3).
  { repeat (eapply same_setting_trans; [eassumption|]). apply same_setting_refl. }
  destruct S3 as (<- & _). done.
Qed.

End Results.

(** ** Incremental runs *)

Section Incremental.
Import Main.

Lemma isoformat_nonempty (d : Datetime.datetime) :
  Datetime.isoformat d <> EmptyString.
Proof.
  intros E. apply (f_equal String.length) in E. rewrite isoformat_shape in E.
  rewrite str_app_length in E. cbn [String.length] in E.
  unfold Py.zfill in E. lia.
Qed.

Lemma Forall2_In_r {A B} (P : A -> B -> Prop) (l : list A) (k : list B)
    (y : B) :
  Forall2 P l k -> In y k -> exists x, In x l /\ P x y.
Proof.
  induction 1 as [|x y' l k Hxy _ IH]; [done|].
  intros [->|Hy]; [exists x; split; [by left|done]|].
  destruct (IH Hy) as (x' & Hx' & Hp). exists x'. split; [by right|done].
Qed.

(** X25: a run without [backfill] and without a since date starts at
    the last run recorded.  It scans with the time of that run as the
    since bound, so every recording scanned, and every result, is of a
    recording whose timestamp is not before that time: a recording with
    an earlier timestamp gets no result, whether it has a row or not. *)
Theorem incremental_run_since_last (config : ArchiverConfig.t)
    (dry_run : bool) (modes_override : option string) (w w' : World)
    (db : Store) (last : RunRecord.t) (last_run : Datetime.datetime)
    (summary : ArchiveSummary.t) :
  state_db w = Some db ->
  In last (archive_runs db) ->
  (forall r, In r (archive_runs db) ->
     String.leb (RunRecord.run_at r) (RunRecord.run_at last) = true) ->
  Datetime.fromisoformat (RunRecord.run_at last) = Some last_run ->
  run_archiver config dry_run false None modes_override w = (Ok summary, w') ->
  exists recordings,
    Scanner.scan (recordings_dir w) (resolve_modes config modes_override)
      (ArchiverConfig.filters_min_duration_ms config)
      (Some (Datetime.isoformat last_run)) = Ok recordings /\
    ArchiveSummary.total_recordings summary = Z.of_nat (length recordings) /\
    (forall rec, In rec recordings -> not_before last_run rec = true) /\
    (forall r, In r (ArchiveSummary.results summary) ->
       exists rec,
         In rec (parsed (recordings_dir w)) /\
         Recording.source_dir rec = ArchiveResult.source_dir r /\
         not_before last_run rec = true).
Proof.
  intros Hdb Hlast Hmax Hparse E.
  assert (Hpre : forall (A : Type) (m : M World A) (a : A) (w0 w1 : World),
            steady m -> m w0 = (Ok a, w1) -> same_setting w0 w1).
  { intros A m a w0 w1 Hm Em. specialize (Hm w0). by rewrite Em in Hm. }
  unfold run_archiver in E.
  bind_inv E as u0 w0 Hinit. apply Hpre in Hinit; [|apply steady_init].
  bind_inv E as u1 w1 Hgit.
  apply Hpre in Hgit; [|apply steady_reads_only, reads_only_git_init].
  bind_inv E as u2 w2 Hpull.
  apply Hpre in Hpull.
  2:{ destruct (negb dry_run); [apply steady_ensure_up_to_date|apply steady_ret]. }
  assert (S2 : same_setting w w2).
  { repeat (eapply same_setting_trans; [eassumption|]). apply same_setting_refl. }
  bind_inv E as since w3 Hsince.
  pose proof (Hpre _ _ _ _ _
    (steady_reads_only _ (reads_only_resolve_since false None)) Hsince) as S3.
  assert (Esince : since = Some (Datetime.isoformat last_run)).
  { destruct S2 as (_ & _ & _ & _ & _ & Hruns & Hsome).
    destruct (Hsome ltac:(by rewrite Hdb; eexists)) as [db2 Hdb2].
    rewrite Hdb, Hdb2 in Hruns. cbn [runs] in Hruns.
    unfold resolve_since in Hsince. cbn [Py.truthy_opt] in Hsince.
    revert Hsince.
    unfold StateTracker.get_last_run_timestamp, StateTracker.with_db, bind,
      get, lift, ret, fromisoformat_exn.
    rewrite Hdb2, Hruns.
    pose proof (max_run_at_spec (archive_runs db)) as Hspec.
    destruct (StateTracker.max_run_at (archive_runs db)) as [m|];
      [|by rewrite Hspec in Hlast].
    destruct Hspec as [(r & Hr & <-) Hrmax].
    assert (RunRecord.run_at r = RunRecord.run_at last) as ->.
    { apply String.leb_antisym; [by apply Hmax|by apply Hrmax]. }
    rewrite Hparse. by intros [= <- _]. }
  subst since.
  bind_inv E as wget w4 Hget. injection Hget as <- <-.
  bind_inv E as recordings w5 Hscan. injection Hscan as Hscan <-.
  bind_inv E as processed w6 Hloop.
  bind_inv E as u3 w7 Hpush. bind_inv E as u4 w8 Hrun.
  injection E as <- _.
  cbn [ArchiveSummary.results ArchiveSummary.total_recordings].
  assert (Hdir : recordings_dir w3 = recordings_dir w).
  { destruct S3 as (-> & _), S2 as (-> & _). done. }
  rewrite Hdir in Hscan. exists recordings. split; [done|]. split; [done|].
  assert (Hin : forall rec, In rec recordings ->
            In rec (parsed (recordings_dir w)) /\ not_before last_run rec = true).
  { destruct (recordings_dir w) as [entries|]; [|by injection Hscan as <-].
    apply scan_Ok_inv in Hscan as (bound & Hb & _ & ->).
    assert (bound = Some last_run) as ->.
    { apply (since_bound_fun (Some (Datetime.isoformat last_run))); [done|].
      constructor; [|apply isoformat_nonempty].
      apply fromisoformat_isoformat. by apply (fromisoformat_valid _ _ Hparse). }
    intros rec Hrec.
    apply (Permutation_in _ (sort_by_datetime_perm _)) in Hrec.
    apply filter_In in Hrec as [Hrec Hacc]. split; [done|].
    unfold accepted in Hacc. by apply andb_prop in Hacc as [_ Hacc]. }
  split; [intros rec Hrec; by apply Hin|].
  rewrite (surjective_pairing processed) in Hloop.
  apply archive_each_results in Hloop as (att & new & -> & Hs & Hf).
  cbn [app]. intros r Hr.
  destruct (Forall2_In_r _ _ _ _ Hf Hr) as (rec & Hrec & (Hsd & _)).
  assert (In rec recordings)
    by (apply list_elem_of_In; eapply elem_of_sublist;
        [by apply list_elem_of_In|done]).
  exists rec. rewrite Hsd. split; [|split; [done|]]; by apply Hin.
Qed.

End Incremental.

(** ** Results and rows *)

Section Recorded.
Import Main.

Lemma recorded_insert (db : Store) (sd : string) (row : ArchiveRecord.t)
    (runs' : list RunRecord.t) (r : ArchiveResult.t) :
  archived_recordings db !! sd = None ->
  recorded (Some db) r ->
  recorded (Some (mkStore (<[sd := row]> (archived_recordings db)) runs')) r.
Proof.
  intros Hnone Hr Hs. destruct (Hr Hs) as (row' & Hrow & Hp & Hc).
  exists row'. split; [|done]. cbn [rows archived_recordings] in *.
  rewrite lookup_insert_ne; [done|]. intros ->. congruence.
Qed.

Lemma archive_each_recorded (recs : list Recording.t)
    (results results' : list ArchiveResult.t) (skipped skipped' : Z)
    (w w' : World) :
  archive_each recs false results skipped w = (Ok (results', skipped'), w') ->
  Forall (recorded (state_db w)) results ->
  Forall (recorded (state_db w')) results'.
Proof.
  revert results skipped w.
  induction recs as [|rec recs IH]; intros results skipped w E Hres.
  - by injection E as <- _ <-.
  - cbn [archive_each] in E.
    apply bind_Ok in E as (archived & w1 & Harch & E).
    destruct (state_db w) as [db|] eqn:Hdb.
    2:{ unfold StateTracker.is_archived, StateTracker.with_db, bind, get,
          raise in Harch. by rewrite Hdb in Harch. }
    rewrite (is_archived_run _ w db Hdb) in Harch.
    injection Harch as <- <-.
    destruct (archived_recordings db !! Recording.source_dir rec) eqn:Hrow.
    { apply (IH _ _ _ E). by rewrite Hdb. }
    apply bind_Ok in E as (r & w2 & Hr & E). apply (IH _ _ _ E).
    pose proof (archive_recording_live rec w db Hdb) as Hlive.
    rewrite Hr in Hlive.
    destruct (Datetime.fromisoformat (Recording.datetime rec)) as [dt|].
    + destruct Hlive as (p & Hp & Hlive).
      destruct (next_commit w) as [[|c sha]|]; injection Hlive as -> ->;
        cbn [state_db committed marked log_event set_state_db
             set_commit_outcomes ticked set_clock]; rewrite ?Hdb;
        apply Forall_app; split;
        try (eapply Forall_impl; [exact Hres|]; intros r' Hr';
             by apply recorded_insert);
        try done;
        try (constructor; [|done]; by intros [=]).
      constructor; [|done]. intros _. eexists.
      cbn [rows archived_recordings ArchiveResult.source_dir].
      rewrite lookup_insert_eq. split; [done|]. done.
    + injection Hlive as -> ->. cbn [state_db ticked set_clock]. rewrite Hdb.
      apply Forall_app. split; [done|]. constructor; [|done]. by intros [=].
Qed.

(** X21: after a run that is no dry run and that returns, every result
    reported as a success has a row in the state database, under its
    source directory, with the path and the commit identifier the result
    reports. *)
Theorem success_is_recorded (config : ArchiverConfig.t) (backfill : bool)
    (since_date modes_override : option string) (w w' : World)
    (summary : ArchiveSummary.t) :
  run_archiver config false backfill since_date modes_override w =
    (Ok summary, w') ->
  Forall (recorded (state_db w')) (ArchiveSummary.results summary).
Proof.
  intros E. unfold run_archiver in E.
  bind_inv E as u0 w0 Hinit. bind_inv E as u1 w1 Hgit.
  bind_inv E as u2 w2 Hpull. bind_inv E as since w3 Hsince.
  bind_inv E as wget w4 Hget. bind_inv E as recordings w5 Hscan.
  injection Hscan as _ <-.
  bind_inv E as processed w6 Hloop.
  bind_inv E as u3 w7 Hpush. bind_inv E as u4 w8 Hrun.
  injection E as <- <-. cbn [ArchiveSummary.results negb andb] in *.
  rewrite (surjective_pairing processed) in Hloop.
  apply archive_each_recorded in Hloop; [|constructor].
  assert (H7 : state_db w7 = state_db w6).
  { destruct (existsb _ _).
    - apply bind_Ok in Hpush as (ok & w6' & Hpush & Hret).
      injection Hret as _ <-. revert Hpush.
      unfold GitManager.push_to_remote, bind, get, modify, ret, raise.
      destruct (push_outcome w6); intros [= _ <-]; done.
    - by injection Hpush as _ <-. }
  assert (H8 : rows (state_db w8) = rows (state_db w7)).
  { destruct (state_db w7) as [db7|] eqn:E7.
    - rewrite (update_last_run_run _ _ _ w7 db7 E7) in Hrun.
      by injection Hrun as _ <-.
    - revert Hrun. unfold StateTracker.update_last_run, StateTracker.with_db,
        bind, get, raise. by rewrite E7. }
  eapply Forall_impl; [exact Hloop|]. intros r Hr Hs.
  destruct (Hr Hs) as (row & Hrow & Hrest). exists row.
  by rewrite H8, H7.
Qed.

(** ** A timestamp that does not parse *)


End Recorded.

(** ** Commits of recordings without a row *)

Section FreshCommits.
Import Main.

Lemma fresh_commits_refl (w : World) : fresh_commits w w.
Proof. exists []. rewrite app_nil_r. by repeat split. Qed.

Lemma fresh_commits_trans (w1 w2 w3 : World) :
  fresh_commits w1 w2 -> fresh_commits w2 w3 -> fresh_commits w1 w3.
Proof.
  intros (n1 & T1 & R1 & C1 & H1) (n2 & T2 & R2 & C2 & H2).
  exists (n1 ++ n2). split; [by rewrite T2, T1, app_assoc|].
  split; [unfold replay in *; by rewrite foldl_app, <- R1|].
  split; [congruence|].
  intros i e Hi. destruct (decide (i < length n1)%nat) as [Hlt|Hge].
  - rewrite lookup_app_l in Hi by done.
    rewrite take_app_le by lia. by apply H1.
  - rewrite lookup_app_r in Hi by lia.
    rewrite take_app_ge by lia.
    unfold replay in *. rewrite foldl_app, <- R1, <- C1. by apply H2.
Qed.

Lemma fresh_commits_quiet (w w' : World) (new : list Event) :
  trace w' = trace w ++ new ->
  Forall (fun e => match e with
                   | EvWriteCommit _ _ _ _ | EvMarkArchived _ _ => False
                   | _ => True
                   end) new ->
  rows (state_db w') = rows (state_db w) ->
  readings (clock w') = readings (clock w) ->
  fresh_commits w w'.
Proof.
  intros T Q R C. exists new. split; [done|].
  assert (Hq : forall t, replay new t = t).
  { intros t. apply replay_quiet. apply forallb_forall. intros e He.
    rewrite List.Forall_forall in Q. specialize (Q e He). by destruct e. }
  split; [by rewrite Hq|]. split; [done|].
  intros i e Hi. rewrite List.Forall_forall in Q.
  apply list_elem_of_lookup_2, list_elem_of_In, Q in Hi. by destruct e.
Qed.

Lemma fresh_commits_clock (w w' : World) :
  only_clock_read w w' -> fresh_commits w w'.
Proof.
  intros [E C]. apply (fresh_commits_quiet _ _ []); rewrite ?app_nil_r;
    try done; by rewrite E.
Qed.

Lemma careful_bind {A B} (m : M World A) (k : A -> M World B) :
  careful m -> (forall a, careful (k a)) -> careful (bind m k).
Proof. apply preserves_bind, fresh_commits_trans. Qed.

Lemma careful_ret {A} (a : A) : careful (ret a).
Proof. apply preserves_ret, fresh_commits_refl. Qed.

Lemma careful_reads_only {A} (m : M World A) : reads_only m -> careful m.
Proof. intros H w. apply fresh_commits_clock, H. Qed.

Lemma careful_init : careful StateTracker.__init__.
Proof.
  intros w. rewrite init_opened. cbn [snd].
  apply (fresh_commits_quiet _ _
           match state_db w with None => [EvStoreCreated] | Some _ => [] end).
  - apply opened_trace.
  - destruct (state_db w); by repeat constructor.
  - rewrite opened_state_db. by destruct (state_db w).
  - unfold opened. by destruct (state_db w).
Qed.

Lemma careful_ensure_up_to_date : careful GitManager.ensure_up_to_date.
Proof.
  intros w. unfold GitManager.ensure_up_to_date, bind, get, modify, raise.
  destruct (pull_outcome w); cbn [snd];
    by eapply (fresh_commits_quiet _ _ [_]); [|repeat constructor|..].
Qed.

Lemma careful_push_to_remote : careful GitManager.push_to_remote.
Proof.
  intros w. unfold GitManager.push_to_remote, bind, get, modify, raise, ret.
  destruct (push_outcome w); cbn [snd];
    by eapply (fresh_commits_quiet _ _ [_]); [|repeat constructor|..].
Qed.

Lemma careful_update_last_run (p a f : Z) :
  careful (StateTracker.update_last_run p a f).
Proof.
  intros w. destruct (state_db w) as [db|] eqn:E.
  - rewrite (update_last_run_run _ _ _ w db E). cbn [snd].
    eapply (fresh_commits_quiet _ _ [_]); [done|by repeat constructor|..].
    + cbn. by rewrite E.
    + done.
  - unfold StateTracker.update_last_run, StateTracker.with_db, bind, get,
      raise. rewrite E. apply fresh_commits_refl.
Qed.

Lemma fresh_commits_step (rec : Recording.t) (w : World) (db : Store) :
  state_db w = Some db ->
  archived_recordings db !! Recording.source_dir rec = None ->
  fresh_commits w (snd (archive_recording rec false w)).
Proof.
  intros Hdb Hnone.
  pose proof (archive_recording_live rec w db Hdb) as Hlive.
  pose proof (format_recording_cases rec (clock w)) as Hf.
  destruct (Datetime.fromisoformat (Recording.datetime rec)) as [dt|] eqn:Edt.
  2:{ rewrite Hlive. cbn [snd]. apply fresh_commits_clock.
      by apply only_clock_read_set_clock. }
  destruct Hlive as (p & Hp & Hlive). destruct Hf as [md Hf].
  assert (Hcommit : commit_of_unarchived (rows (state_db w)) (readings (clock w))
            (EvWriteCommit p (document rec w) (commit_message rec dt)
               (next_commit w))).
  { exists rec, dt, (clock w). rewrite Hdb. cbn [rows].
    repeat split; try done. unfold document. by rewrite Hf. }
  unfold committed, marked in Hlive.
  destruct (next_commit w) as [[|c sha]|] eqn:Enext; rewrite Hlive; cbn [snd].
  - exists [EvWriteCommit p (document rec w) (commit_message rec dt) (Some "")].
    split; [done|]. split; [cbn; by rewrite Hdb|]. split; [done|].
    intros [|i] e; [|done]. by intros [= <-].
  - eexists [EvWriteCommit p (document rec w) (commit_message rec dt)
               (Some (String c sha)); EvMarkArchived _ _].
    split; [cbn; by rewrite <- app_assoc|]. split; [cbn; by rewrite Hdb|].
    split; [done|].
    intros [|[|i]] e; [| |done]; intros [= <-]; [done|exact I].
  - exists [EvWriteCommit p (document rec w) (commit_message rec dt) None].
    split; [done|]. split; [cbn; by rewrite Hdb|]. split; [done|].
    intros [|i] e; [|done]. by intros [= <-].
Qed.

Lemma careful_archive_each (recs : list Recording.t) (dry_run : bool)
    (results : list ArchiveResult.t) (skipped : Z) :
  careful (archive_each recs dry_run results skipped).
Proof.
  destruct dry_run; [apply careful_reads_only, reads_only_archive_each|].
  revert results skipped. induction recs as [|rec recs IH]; intros results skipped.
  - apply careful_ret.
  - intros w. cbn [archive_each]. unfold bind at 1.
    destruct (state_db w) as [db|] eqn:Hdb.
    2:{ unfold StateTracker.is_archived, StateTracker.with_db, bind, get, raise.
        rewrite Hdb. apply fresh_commits_refl. }
    rewrite (is_archived_run _ w db Hdb).
    destruct (archived_recordings db !! Recording.source_dir rec) eqn:Hrow;
      [apply IH|].
    unfold bind at 1.
    pose proof (fresh_commits_step rec w db Hdb Hrow) as Hstep.
    destruct (archive_recording_returns rec false w) as (r & Hr & _).
    destruct (archive_recording rec false w) as [o w1]. cbn [fst snd] in *.
    subst o. eapply fresh_commits_trans; [exact Hstep|apply IH].
Qed.

Lemma careful_run_archiver (config : ArchiverConfig.t)
    (dry_run backfill : bool) (since_date modes_override : option string) :
  careful (run_archiver config dry_run backfill since_date modes_override).
Proof.
  unfold run_archiver.
  repeat first
    [ apply careful_ret | apply careful_init | apply careful_archive_each
    | apply careful_ensure_up_to_date | apply careful_push_to_remote
    | apply careful_update_last_run
    | apply careful_reads_only;
      first [ apply reads_only_get | apply reads_only_lift
            | apply reads_only_git_init | apply reads_only_resolve_since ]
    | match goal with |- careful (if ?b then _ else _) => destruct b end
    | apply careful_bind; [|intros ?] ].
Qed.

(** X22: whatever a run does and wherever it stops, it commits only
    recordings that have no row.  A dry run makes no commit.  Outside a
    dry run each commit in the trace of the run is the commit of a
    recording that had no row in the table when the commit was made (the
    table then is the table before the run with the marks made so far);
    the path is the one computed from the timestamp of the recording, the
    content is a document formatted from it at a reading of the clock, and
    the message is its commit message. *)
Theorem commits_are_fresh (config : ArchiverConfig.t)
    (dry_run backfill : bool) (since_date modes_override : option string)
    (w : World) :
  exists new : list Event,
    trace (snd (run_archiver config dry_run backfill since_date
                  modes_override w)) = trace w ++ new /\
    forall (i : nat) (file_path content message : string)
           (commit_sha : option string),
      new !! i = Some (EvWriteCommit file_path content message commit_sha) ->
      dry_run = false /\
      exists (rec : Recording.t) (dt : Datetime.datetime) (c : Clock),
        replay (take i new) (rows (state_db w)) !! Recording.source_dir rec =
          None /\
        MarkdownFormatter.compute_file_path rec = Ok file_path /\
        Datetime.fromisoformat (Recording.datetime rec) = Some dt /\
        message = commit_message rec dt /\
        readings c = readings (clock w) /\
        fst (MarkdownFormatter.format_recording rec c) = Ok content.
Proof.
  destruct (careful_run_archiver config dry_run backfill since_date
              modes_override w) as (new & T & _ & _ & H).
  exists new. split; [done|]. intros i p md msg o Hi. split.
  - destruct dry_run; [|done]. exfalso.
    pose proof (dry_run_after_init config backfill since_date modes_override w)
      as [Hw _].
    rewrite Hw in T. cbn [trace set_clock] in T. rewrite opened_trace in T.
    apply app_inv_head in T. subst new.
    destruct (state_db w); [done|]. by destruct i.
  - apply (H i _ Hi).
Qed.

End FreshCommits.

(** ** The order of the effects *)

Section TraceShape.
Import Main.

Lemma only_archiving_refl (w : World) : only_archiving w w.
Proof. exists []. by rewrite app_nil_r. Qed.

Lemma only_archiving_trans (w1 w2 w3 : World) :
  only_archiving w1 w2 -> only_archiving w2 w3 -> only_archiving w1 w3.
Proof.
  intros (n1 & T1 & F1) (n2 & T2 & F2). exists (n1 ++ n2).
  split; [by rewrite T2, T1, app_assoc|].
  by rewrite forallb_app, F1, F2.
Qed.

Lemma only_archiving_clock (w w' : World) :
  only_clock_read w w' -> only_archiving w w'.
Proof. intros [E _]. exists []. rewrite app_nil_r. by rewrite E. Qed.

Lemma only_archiving_archive_recording (rec : Recording.t) (dry_run : bool) :
  preserves only_archiving (archive_recording rec dry_run).
Proof.
  destruct dry_run.
  { intros w. apply only_archiving_clock, reads_only_archive_recording. }
  intros w.
  pose proof (format_recording_cases rec (clock w)) as Hf.
  pose proof (compute_file_path_cases rec) as Hp.
  unfold archive_recording, try_except, archive_attempt, with_clock,
    GitManager.write_and_commit, StateTracker.mark_archived,
    StateTracker.with_db, fromisoformat_exn, bind, lift, get, modify, ret,
    raise.
  destruct (Datetime.fromisoformat (Recording.datetime rec)) as [dt|].
  - destruct Hf as [md ->]. destruct Hp as [p ->].
    cbn [fst snd commit_outcomes set_clock set_commit_outcomes log_event].
    destruct (Py.truthy_opt _);
      cbn [fst snd state_db set_clock set_commit_outcomes log_event].
    + destruct (state_db w); cbn [snd].
      * eexists [_; _]. split; [cbn; by rewrite <- app_assoc|done].
      * by eexists [_].
    + by eexists [_].
  - rewrite Hf. cbn [snd]. exists []. by rewrite app_nil_r.
Qed.

Lemma only_archiving_archive_each (recs : list Recording.t) (dry_run : bool)
    (results : list ArchiveResult.t) (skipped : Z) :
  preserves only_archiving (archive_each recs dry_run results skipped).
Proof.
  revert results skipped. induction recs as [|rec recs IH]; intros; simpl.
  - apply preserves_ret, only_archiving_refl.
  - apply preserves_bind; [apply only_archiving_trans| |].
    + intros w. apply only_archiving_clock, reads_only_is_archived.
    + intros [|]; [apply IH|].
      apply preserves_bind; [apply only_archiving_trans| |intros r; apply IH].
      apply only_archiving_archive_recording.
Qed.

(** X23: the effects of a run that is no dry run and that returns come
    in one order: the state database is created when it was not there,
    the repository is pulled once, then come commits and marks and
    nothing else, then one push exactly when some result is a success,
    and at last the row of the run. *)
Theorem run_trace_shape (config : ArchiverConfig.t) (backfill : bool)
    (since_date modes_override : option string) (w w' : World)
    (summary : ArchiveSummary.t) :
  run_archiver config false backfill since_date modes_override w =
    (Ok summary, w') ->
  exists (pulled pushed : bool) (archiving : list Event) (row : RunRecord.t),
    trace w' =
      trace w ++
      match state_db w with None => [EvStoreCreated] | Some _ => [] end ++
      [EvPull pulled] ++ archiving ++
      (if existsb ArchiveResult.success (ArchiveSummary.results summary)
       then [EvPush pushed] else []) ++
      [EvRunRecorded row] /\
    forallb is_archiving archiving = true.
Proof.
  intros E. unfold run_archiver in E.
  bind_inv E as u0 w0 Hinit. rewrite init_opened in Hinit.
  injection Hinit as _ <-.
  bind_inv E as u1 w1 Hgit.
  pose proof (reads_only_git_init (ArchiverConfig.repo_path config) (opened w))
    as [Hg _].
  rewrite Hgit in Hg. cbn [snd] in Hg.
  bind_inv E as u2 w2 Hpull. cbn [negb] in Hpull.
  assert (exists pulled, w2 = log_event (EvPull pulled) w1) as [pulled ->].
  { revert Hpull. unfold GitManager.ensure_up_to_date, bind, get, modify, raise.
    destruct (pull_outcome w1); intros [= <-]; eauto. }
  bind_inv E as since w3 Hsince.
  pose proof (reads_only_resolve_since backfill since_date
                (log_event (EvPull pulled) w1)) as [Hs _].
  rewrite Hsince in Hs. cbn [snd] in Hs.
  bind_inv E as wget w4 Hget. injection Hget as _ <-.
  bind_inv E as recordings w5 Hscan. injection Hscan as _ <-.
  bind_inv E as processed w6 Hloop.
  pose proof (only_archiving_archive_each recordings false [] 0 w3)
    as (archiving & Ha & Hfa).
  rewrite Hloop in Ha. cbn [snd] in Ha.
  bind_inv E as u3 w7 Hpush. cbn [negb andb] in Hpush.
  bind_inv E as u4 w8 Hrun. cbn [negb] in Hrun.
  injection E as <- <-. cbn [ArchiveSummary.results].
  assert (exists pushed,
            trace w7 = trace w6 ++
              (if existsb ArchiveResult.success processed.1
               then [EvPush pushed] else [])) as [pushed Hp].
  { destruct (existsb ArchiveResult.success processed.1).
    - apply bind_Ok in Hpush as (ok & w6' & Hpush & Hret).
      injection Hret as _ <-. revert Hpush.
      unfold GitManager.push_to_remote, bind, get, modify, ret, raise.
      destruct (push_outcome w6); intros [= _ <-]; by eexists.
    - injection Hpush as _ <-. exists true. by rewrite app_nil_r. }
  assert (exists row, trace w8 = trace w7 ++ [EvRunRecorded row]) as [row Hr].
  { destruct (state_db w7) as [db7|] eqn:E7.
    - rewrite (update_last_run_run _ _ _ w7 db7 E7) in Hrun.
      injection Hrun as _ <-. by eexists.
    - revert Hrun. unfold StateTracker.update_last_run, StateTracker.with_db,
        bind, get, raise. by rewrite E7. }
  exists pulled, pushed, archiving, row. split; [|done].
  rewrite Hr, Hp, Ha, Hs. cbn [trace set_clock log_event].
  rewrite Hg. cbn [trace set_clock]. rewrite opened_trace.
  by rewrite <- !app_assoc.
Qed.

End TraceShape.

(** ** Failures of the remote *)

Section Remote.
Import Main.

Lemma respects_ret {A} (a : A) : respects (ret a).
Proof. by intros w1 w2 H. Qed.

Lemma respects_raise {A} (e : exn) : respects (raise (A:=A) e).
Proof. by intros w1 w2 H. Qed.

Lemma respects_lift {A} (o : outcome A) : respects (lift o).
Proof. by intros w1 w2 H. Qed.

Lemma respects_bind {A B} (m : M World A) (k : A -> M World B) :
  respects m -> (forall a, respects (k a)) -> respects (bind m k).
Proof.
  intros Hm Hk w1 w2 H. unfold bind. destruct (Hm w1 w2 H) as [E1 E2].
  destruct (m w1) as [[a|e] w1'], (m w2) as [[a'|e'] w2']; cbn [fst snd] in *;
    try discriminate.
  - injection E1 as <-. by apply Hk.
  - injection E1 as <-. done.
Qed.

Lemma respects_try_except {A} (m : M World A) (h : exn -> M World A) :
  respects m -> (forall e, respects (h e)) -> respects (try_except m h).
Proof.
  intros Hm Hh w1 w2 H. unfold try_except. destruct (Hm w1 w2 H) as [E1 E2].
  destruct (m w1) as [[a|e] w1'], (m w2) as [[a'|e'] w2']; cbn [fst snd] in *;
    try discriminate.
  - injection E1 as <-. done.
  - injection E1 as <-. by apply Hh.
Qed.

(** A computation that looks at the world only through [f]. *)
Lemma respects_get {A B} (f : World -> A) (k : A -> M World B) :
  (forall w1 w2, alike w1 w2 -> f w1 = f w2) ->
  (forall a, respects (k a)) ->
  respects (bind get (fun w => k (f w))).
Proof.
  intros Hf Hk w1 w2 H. unfold bind, get. rewrite (Hf w1 w2 H). by apply Hk.
Qed.

Lemma respects_modify (f : World -> World) :
  (forall w1 w2, alike w1 w2 -> alike (f w1) (f w2)) -> respects (modify f).
Proof. intros Hf w1 w2 H. split; [done|]. by apply Hf. Qed.

Lemma alike_log_event (e1 e2 : Event) (w1 w2 : World) :
  alike w1 w2 -> alike (log_event e1 w1) (log_event e2 w2).
Proof. intros H. exact H. Qed.

Lemma respects_log_event (e : Event) : respects (modify (log_event e)).
Proof. apply respects_modify. intros w1 w2. apply alike_log_event. Qed.

Lemma respects_set_state_db (db : option Store) :
  respects (modify (set_state_db db)).
Proof.
  apply respects_modify.
  intros w1 w2 (A & B & C & D & E & F & G & I & J). by repeat split.
Qed.

Lemma respects_with_clock {A} (m : M Clock A) : respects (with_clock m).
Proof.
  intros w1 w2 H. unfold with_clock.
  destruct H as (A1 & B & C & D & E & F & G & I & J). rewrite E.
  destruct (m (clock w2)) as [r c]. by repeat split.
Qed.

Lemma respects_with_db {A} (f : Store -> M World A) :
  (forall db, respects (f db)) -> respects (StateTracker.with_db f).
Proof.
  intros Hf. unfold StateTracker.with_db.
  apply (respects_get state_db
           (fun db => match db with
                      | Some db => f db
                      | None => raise (Exception "no such table")
                      end)).
  - by intros w1 w2 (_ & B & _).
  - intros [db|]; [apply Hf|apply respects_raise].
Qed.

Lemma respects_init : respects StateTracker.__init__.
Proof.
  unfold StateTracker.__init__.
  apply (respects_get state_db
           (fun db => match db with
                      | Some _ => ret tt
                      | None =>
                          bind (modify (set_state_db (Some empty_store)))
                            (fun _ => modify (log_event EvStoreCreated))
                      end)).
  - by intros w1 w2 (_ & B & _).
  - intros [db|]; [apply respects_ret|].
    apply respects_bind; [apply respects_set_state_db|].
    intros _. apply respects_log_event.
Qed.

Lemma respects_is_archived (source_dir : string) :
  respects (StateTracker.is_archived source_dir).
Proof. apply respects_with_db. intros db. apply respects_ret. Qed.

Lemma respects_mark_archived (source_dir recording_datetime mode : string)
    (duration_ms : Z) (file_path : string) (commit_sha : option string) :
  respects (StateTracker.mark_archived source_dir recording_datetime mode
              duration_ms file_path commit_sha).
Proof.
  apply respects_with_db. intros db.
  apply respects_bind; [apply respects_with_clock|]. intros t.
  apply respects_bind; [apply respects_set_state_db|]. intros _.
  apply respects_log_event.
Qed.

Lemma respects_get_last_run_timestamp :
  respects StateTracker.get_last_run_timestamp.
Proof.
  apply respects_with_db. intros db. destruct (StateTracker.max_run_at _).
  - apply respects_bind; [apply respects_lift|]. intros dt. apply respects_ret.
  - apply respects_ret.
Qed.

Lemma respects_update_last_run (p a f : Z) :
  respects (StateTracker.update_last_run p a f).
Proof.
  apply respects_with_db. intros db.
  apply respects_bind; [apply respects_with_clock|]. intros t.
  apply respects_bind; [apply respects_set_state_db|]. intros _.
  apply respects_log_event.
Qed.

Lemma respects_git_init (repo_path : string) :
  respects (GitManager.__init__ repo_path).
Proof.
  unfold GitManager.__init__.
  apply (respects_get repo
           (fun r => match r with
                     | NoSuchPath =>
                         raise (ValueError ("Repository path does not exist: "
                                            +:+ repo_path))
                     | NotARepository =>
                         raise (ValueError ("Invalid git repository at "
                                            +:+ repo_path))
                     | Repository => ret tt
                     end)).
  - by intros w1 w2 (_ & _ & C & _).
  - intros [| |]; (apply respects_raise || apply respects_ret).
Qed.

Lemma respects_ensure_up_to_date : respects GitManager.ensure_up_to_date.
Proof.
  intros w1 w2 H. pose proof H as (_ & _ & _ & _ & _ & P1 & P2 & _).
  destruct (ensure_up_to_date_run w1 P1) as [ok1 ->].
  destruct (ensure_up_to_date_run w2 P2) as [ok2 ->]. done.
Qed.

Lemma respects_push_to_remote :
  respects (bind GitManager.push_to_remote (fun _ => ret tt)).
Proof.
  intros w1 w2 H. pose proof H as (_ & _ & _ & _ & _ & _ & _ & P1 & P2).
  unfold bind.
  destruct (push_to_remote_run w1 P1) as [ok1 ->].
  destruct (push_to_remote_run w2 P2) as [ok2 ->]. done.
Qed.

Lemma respects_write_and_commit (file_path content commit_message : string) :
  respects (GitManager.write_and_commit file_path content commit_message).
Proof.
  intros w1 w2 H. pose proof H as (A & B & C & D & E & F & G & I & J).
  unfold GitManager.write_and_commit, bind, get, modify, ret. cbn [fst snd].
  rewrite D. split; [done|]. by repeat split.
Qed.

Lemma respects_archive_recording (rec : Recording.t) (dry_run : bool) :
  respects (archive_recording rec dry_run).
Proof.
  apply respects_try_except; [|intros e; apply respects_ret].
  unfold archive_attempt.
  apply respects_bind; [apply respects_with_clock|]. intros md.
  apply respects_bind; [apply respects_lift|]. intros p.
  destruct dry_run; [apply respects_ret|].
  apply respects_bind; [apply respects_lift|]. intros dt.
  apply respects_bind; [apply respects_write_and_commit|]. intros sha.
  destruct (Py.truthy_opt sha); [|apply respects_raise].
  apply respects_bind; [apply respects_mark_archived|]. intros _.
  apply respects_ret.
Qed.

Lemma respects_archive_each (recs : list Recording.t) (dry_run : bool)
    (results : list ArchiveResult.t) (skipped : Z) :
  respects (archive_each recs dry_run results skipped).
Proof.
  revert results skipped. induction recs as [|rec recs IH]; intros; simpl.
  - apply respects_ret.
  - apply respects_bind; [apply respects_is_archived|]. intros [|]; [apply IH|].
    apply respects_bind; [apply respects_archive_recording|]. intros r. apply IH.
Qed.

Lemma respects_resolve_since (backfill : bool) (since_date : option string) :
  respects (resolve_since backfill since_date).
Proof.
  unfold resolve_since. destruct backfill; [apply respects_ret|].
  destruct (Py.truthy_opt since_date); [apply respects_ret|].
  apply respects_bind; [apply respects_get_last_run_timestamp|].
  intros [dt|]; apply respects_ret.
Qed.

Lemma respects_run_archiver (config : ArchiverConfig.t)
    (dry_run backfill : bool) (since_date modes_override : option string) :
  respects (run_archiver config dry_run backfill since_date modes_override).
Proof.
  unfold run_archiver.
  apply respects_bind; [apply respects_init|]. intros _.
  apply respects_bind; [apply respects_git_init|]. intros _.
  apply respects_bind.
  { destruct (negb dry_run); [apply respects_ensure_up_to_date|apply respects_ret]. }
  intros _.
  apply respects_bind; [apply respects_resolve_since|]. intros since.
  apply (respects_get recordings_dir
           (fun dir =>
              bind (lift (Scanner.scan dir (resolve_modes config modes_override)
                            (ArchiverConfig.filters_min_duration_ms config)
                            since)) _)).
  { by intros w1 w2 (A & _). }
  intros dir. apply respects_bind; [apply respects_lift|]. intros recordings.
  apply respects_bind; [apply respects_archive_each|]. intros processed.
  apply respects_bind.
  { destruct (_ && _); [apply respects_push_to_remote|apply respects_ret]. }
  intros _. apply respects_bind; [|intros _; apply respects_ret].
  destruct (negb dry_run); [apply respects_update_last_run|apply respects_ret].
Qed.

(** X26: what a run returns, and the state database it leaves, do not
    depend on whether pull and push succeed or fail with the
    [GitCommandError] the manager catches.  So a recording is committed,
    marked and reported as archived also when the push has failed. *)
Theorem remote_failures_tolerated (config : ArchiverConfig.t)
    (dry_run backfill : bool) (since_date modes_override : option string)
    (w1 w2 : World) :
  alike w1 w2 ->
  fst (run_archiver config dry_run backfill since_date modes_override w1) =
  fst (run_archiver config dry_run backfill since_date modes_override w2) /\
  state_db (snd (run_archiver config dry_run backfill since_date
                   modes_override w1)) =
  state_db (snd (run_archiver config dry_run backfill since_date
                   modes_override w2)).
Proof.
  intros H.
  destruct (respects_run_archiver config dry_run backfill since_date
              modes_override w1 w2 H) as [E (_ & S & _)].
  done.
Qed.

End Remote.

(** ** The exit status *)

(** **  *)

Section ExitStatus.
Import Main.




End ExitStatus.

(** ** The further properties at work *)




Lemma update_then_last_run_witness :
  state_db (Fixtures.later [] ∅) = Some (mkStore ∅ [Fixtures.earlier_run]) /\
  Datetime.valid (now (Fixtures.later [] ∅)) = true /\
  fst (StateTracker.get_last_run_timestamp
         (snd (StateTracker.update_last_run 2 1 1 (Fixtures.later [] ∅)))) =
    Ok (Some (now (Fixtures.later [] ∅))).
Proof.
  split; [reflexivity|]. split; [reflexivity|].
  refine (proj1 (proj2 (update_then_last_run 2 1 1 (Fixtures.later [] ∅)
                          (mkStore ∅ [Fixtures.earlier_run])
                          eq_refl eq_refl _))).
  intros r [<-|[]]. exists (Datetime.mk 2026 2 10 0 0 0 0).
  split; [reflexivity|]. split; reflexivity.
Defined.

Lemma run_requires_repository_witness :
  repo Fixtures.no_repository = NoSuchPath /\
  exists msg,
    Main.run_archiver Samples.config true false None None
      Fixtures.no_repository =
      (Raise (ValueError msg), opened Fixtures.no_repository) /\
    (repo Fixtures.no_repository = NoSuchPath ->
     msg = "Repository path does not exist: " +:+
           ArchiverConfig.repo_path Samples.config).
Proof.
  split; [reflexivity|].
  apply (run_requires_repository Samples.config true false None None
           Fixtures.no_repository).
  discriminate.
Defined.

Lemma backfill_run_returns_witness :
  repo (Samples.fresh Fixtures.one_meeting) = Repository /\
  exists summary w',
    Main.run_archiver Samples.config false true None None
      (Samples.fresh Fixtures.one_meeting) = (Ok summary, w') /\
    exists recordings,
      Scanner.scan (recordings_dir (Samples.fresh Fixtures.one_meeting))
        (Main.resolve_modes Samples.config None)
        (ArchiverConfig.filters_min_duration_ms Samples.config) None =
        Ok recordings /\
      ArchiveSummary.total_recordings summary = Z.of_nat (length recordings).
Proof.
  split; [reflexivity|].
  apply (backfill_run_returns Samples.config false None None
           (Samples.fresh Fixtures.one_meeting)); reflexivity.
Defined.


Lemma archived_are_skipped_witness :
  unarchived
    (state_db (Fixtures.later [] {[ "1770978710" := Fixtures.meeting_row ]}))
    Samples.meeting = false /\
  Main.archive_each [Samples.meeting] false [] 0
    (Fixtures.later [] {[ "1770978710" := Fixtures.meeting_row ]}) =
    (Ok ([], 0 + Z.of_nat (length [Samples.meeting])),
     Fixtures.later [] {[ "1770978710" := Fixtures.meeting_row ]}).
Proof.
  assert (H : unarchived
                (state_db (Fixtures.later []
                             {[ "1770978710" := Fixtures.meeting_row ]}))
                Samples.meeting = false) by (vm_compute; reflexivity).
  split; [exact H|].
  apply (archived_are_skipped [Samples.meeting] false [] 0).
  intros rec [<-|[]]. exact H.
Defined.

Lemma results_describe_recordings_witness :
  exists summary w',
    Main.run_archiver Samples.config false false None None
      (Samples.fresh Fixtures.one_meeting) = (Ok summary, w') /\
    exists (since : option string) (recordings attempted : list Recording.t),
      Scanner.scan (recordings_dir (Samples.fresh Fixtures.one_meeting))
        (Main.resolve_modes Samples.config None)
        (ArchiverConfig.filters_min_duration_ms Samples.config) since =
        Ok recordings /\
      sublist attempted recordings /\
      Forall2 (result_for false) attempted (ArchiveSummary.results summary).
Proof.
  destruct (Main.run_archiver Samples.config false false None None
              (Samples.fresh Fixtures.one_meeting))
    as [[summary|e] w'] eqn:E; [|vm_compute in E; discriminate].
  exists summary, w'. split; [reflexivity|].
  exact (results_describe_recordings _ _ _ _ _ _ _ _ E).
Defined.

Lemma success_is_recorded_witness :
  exists summary w',
    Main.run_archiver Samples.config false false None None
      (Samples.fresh Fixtures.one_meeting) = (Ok summary, w') /\
    Forall (recorded (state_db w')) (ArchiveSummary.results summary).
Proof.
  destruct (Main.run_archiver Samples.config false false None None
              (Samples.fresh Fixtures.one_meeting))
    as [[summary|e] w'] eqn:E; [|vm_compute in E; discriminate].
  exists summary, w'. split; [reflexivity|].
  exact (success_is_recorded _ _ _ _ _ _ _ E).
Defined.

Lemma run_trace_shape_witness :
  exists summary w',
    Main.run_archiver Samples.config false false None None
      (Fixtures.offline Fixtures.one_meeting) = (Ok summary, w') /\
    exists (pulled pushed : bool) (archiving : list Event) (row : RunRecord.t),
      trace w' =
        trace (Fixtures.offline Fixtures.one_meeting) ++
        match state_db (Fixtures.offline Fixtures.one_meeting) with
        | None => [EvStoreCreated]
        | Some _ => []
        end ++
        [EvPull pulled] ++ archiving ++
        (if existsb ArchiveResult.success (ArchiveSummary.results summary)
         then [EvPush pushed] else []) ++
        [EvRunRecorded row] /\
      forallb is_archiving archiving = true.
Proof.
  destruct (Main.run_archiver Samples.config false false None None
              (Fixtures.offline Fixtures.one_meeting))
    as [[summary|e] w'] eqn:E; [|vm_compute in E; discriminate].
  exists summary, w'. split; [reflexivity|].
  exact (run_trace_shape _ _ _ _ _ _ _ E).
Defined.

Lemma run_row_matches_summary_witness :
  exists summary w',
    Main.run_archiver Samples.config false false None None
      (Fixtures.later Fixtures.one_meeting ∅) = (Ok summary, w') /\
    exists k,
      ticks (clock w') = S k /\
      runs (state_db w') =
        runs (state_db (Fixtures.later Fixtures.one_meeting ∅)) ++
        [RunRecord.mk
           (Datetime.isoformat
              (readings (clock (Fixtures.later Fixtures.one_meeting ∅)) k))
           (ArchiveSummary.total_recordings summary)
           (ArchiveSummary.archived_count summary)
           (ArchiveSummary.failed_count summary)].
Proof.
  destruct (Main.run_archiver Samples.config false false None None
              (Fixtures.later Fixtures.one_meeting ∅))
    as [[summary|e] w'] eqn:E; [|vm_compute in E; discriminate].
  exists summary, w'. split; [reflexivity|].
  exact (run_row_matches_summary _ _ _ _ _ _ _ E).
Defined.

Lemma incremental_run_since_last_witness :
  Datetime.fromisoformat (RunRecord.run_at Fixtures.earlier_run) =
    Some (Datetime.mk 2026 2 10 0 0 0 0) /\
  exists summary w',
    Main.run_archiver Samples.config false false None None
      (Fixtures.later
         [Scanner.Dir "1770978720" (Scanner.Valid Samples.old_meta);
          Scanner.Dir "1770978710" (Scanner.Valid Samples.MEETING_META)] ∅) =
      (Ok summary, w') /\
    forall r, In r (ArchiveSummary.results summary) ->
      exists rec,
        In rec [Samples.old; Samples.meeting] /\
        Recording.source_dir rec = ArchiveResult.source_dir r /\
        not_before (Datetime.mk 2026 2 10 0 0 0 0) rec = true.
Proof.
  split; [reflexivity|].
  destruct (Main.run_archiver Samples.config false false None None
              (Fixtures.later
                 [Scanner.Dir "1770978720" (Scanner.Valid Samples.old_meta);
                  Scanner.Dir "1770978710" (Scanner.Valid Samples.MEETING_META)]
                 ∅))
    as [[summary|e] w'] eqn:E; [|vm_compute in E; discriminate].
  exists summary, w'. split; [reflexivity|].
  assert (Hin : In Fixtures.earlier_run
                   (archive_runs (mkStore ∅ [Fixtures.earlier_run])))
    by (by left).
  assert (Hmax : forall r,
            In r (archive_runs (mkStore ∅ [Fixtures.earlier_run])) ->
            String.leb (RunRecord.run_at r)
              (RunRecord.run_at Fixtures.earlier_run) = true)
    by (intros r [<-|[]]; reflexivity).
  destruct (incremental_run_since_last Samples.config false None
              (Fixtures.later
                 [Scanner.Dir "1770978720" (Scanner.Valid Samples.old_meta);
                  Scanner.Dir "1770978710" (Scanner.Valid Samples.MEETING_META)]
                 ∅) w'
              (mkStore ∅ [Fixtures.earlier_run]) Fixtures.earlier_run
              (Datetime.mk 2026 2 10 0 0 0 0) summary
              eq_refl Hin Hmax eq_refl E) as (recordings & _ & _ & _ & H).
  exact H.
Defined.

Lemma remote_failures_tolerated_witness :
  alike (Samples.fresh Fixtures.one_meeting)
        (Fixtures.offline Fixtures.one_meeting) /\
  fst (Main.run_archiver Samples.config false false None None
         (Samples.fresh Fixtures.one_meeting)) =
  fst (Main.run_archiver Samples.config false false None None
         (Fixtures.offline Fixtures.one_meeting)).
Proof.
  assert (H : alike (Samples.fresh Fixtures.one_meeting)
                    (Fixtures.offline Fixtures.one_meeting))
    by (repeat split; reflexivity).
  split; [exact H|].
  exact (proj1 (remote_failures_tolerated Samples.config false false None None
                  _ _ H)).
Defined.
